(** * ProjetoAutomacaoComOllama: the reconciliation and persistence engine

    A shallow embedding of [src/main.py]: the conflict resolver
    ([comparar_datas_email]), the incremental document store
    ([carregar_json_existente_rapido], [encontrar_email_por_ordem],
    [salvar_json_incremental_rapido]), the batch processor
    ([processar_lote_emails]), the coercions of the relational sync
    ([converter_para_data], [converter_para_decimal],
    [sincronizar_json_para_banco]) and the spreadsheet reconciliation
    ([atualizar_planilha_avancado]).

    Conventions of the embedding.
    - A Python [str] is a Rocq [string], read as a sequence of code points
      below 256.  On that range [str.isspace], the regex classes [\s] and
      [\d], and case-insensitive matching of ASCII letters are exactly the
      predicates defined below.
    - A Python exception is an explicit [None] / error result.
    - [time.time()], [datetime.now()] and the outcome of a file write are
      inputs supplied by the environment of each call. *)

From Stdlib Require Import ZArith QArith Ascii String List Bool Lia.
From Stdlib Require Import Floats.SpecFloat.
From stdpp Require Import gmap strings list fin_maps sorting pretty.

Local Open Scope string_scope.
Local Open Scope Z_scope.
Local Open Scope list_scope.

(** ** Python strings *)

Module PyStr.

Definition code (c : ascii) : N := N_of_ascii c.

(** [str.isspace] on one character (code points below 256). *)
Definition isspace (c : ascii) : bool :=
  let n := code c in
  ((9 <=? n) && (n <=? 13) || (28 <=? n) && (n <=? 32)
   || (n =? 133) || (n =? 160))%N.

(** The regex class [\d] (code points below 256: the ten ASCII digits). *)
Definition isdigit (c : ascii) : bool :=
  let n := code c in ((48 <=? n) && (n <=? 57))%N.

Definition digit_value (c : ascii) : Z := Z.of_N (code c) - 48.

Fixpoint lstrip (s : string) : string :=
  match s with
  | String c s' => if isspace c then lstrip s' else s
  | EmptyString => EmptyString
  end.

(** [s.strip()] *)
Definition strip (s : string) : string :=
  String.rev (lstrip (String.rev (lstrip s))).

(** ASCII lower-casing, used for case-insensitive matching. *)
Definition lower (c : ascii) : ascii :=
  let n := code c in
  if ((65 <=? n) && (n <=? 90))%N then ascii_of_N (n + 32) else c.

Fixpoint lower_str (s : string) : string :=
  match s with
  | String c s' => String (lower c) (lower_str s')
  | EmptyString => EmptyString
  end.

(** [int(s)] for the texts the date regexes capture: optional
    surrounding white space around a run of decimal digits. *)
Fixpoint digits_acc (acc : Z) (s : string) : option Z :=
  match s with
  | EmptyString => Some acc
  | String c s' =>
      if isdigit c then digits_acc (10 * acc + digit_value c) s' else None
  end.

Definition int (s : string) : option Z :=
  match strip s with
  | EmptyString => None
  | t => digits_acc 0 t
  end.

(** Truthiness of a string: [bool(s)]. *)
Definition truthy (s : string) : bool :=
  match s with EmptyString => false | _ => true end.

End PyStr.

(** ** A backtracking matcher for the regexes of [_strptime]

    [datetime.strptime] compiles its format into a regular expression and
    calls [match] on it.  [rmatch r s] lists, in the priority order of a
    backtracking matcher, the suffixes of [s] left after a match of [r]
    at the start of [s]. *)

Inductive regex : Type :=
| RSet (p : ascii -> bool)          (* one character of a class *)
| RSeq (r1 r2 : regex)              (* r1 r2 *)
| RAlt (r1 r2 : regex)              (* r1|r2 *)
| RPlus (p : ascii -> bool).        (* class+, greedy *)

Fixpoint plus_rests (p : ascii -> bool) (s : string) : list string :=
  match s with
  | String c s' => if p c then plus_rests p s' ++ [s'] else []
  | EmptyString => []
  end.

Fixpoint rmatch (r : regex) (s : string) : list string :=
  match r with
  | RSet p =>
      match s with
      | String c s' => if p c then [s'] else []
      | EmptyString => []
      end
  | RSeq r1 r2 => rmatch r1 s ≫= rmatch r2
  | RAlt r1 r2 => rmatch r1 s ++ rmatch r2 s
  | RPlus p => plus_rests p s
  end.

(** The text consumed between [s] and its suffix [rest]. *)
Definition consumed (s rest : string) : string :=
  substring 0 (String.length s - String.length rest) s.

Module Re.
Definition d : regex := RSet PyStr.isdigit.
Definition rng (lo hi : ascii) : regex :=
  RSet (fun c => (N_of_ascii lo <=? N_of_ascii c)%N
                 && (N_of_ascii c <=? N_of_ascii hi)%N).
(** A literal character under [re.IGNORECASE]. *)
Definition chr (a : ascii) : regex :=
  RSet (fun c => bool_decide (PyStr.lower c = PyStr.lower a)).
(** The literal word [a :: w]. *)
Fixpoint lit (a : ascii) (w : string) : regex :=
  match w with
  | EmptyString => chr a
  | String c w' => RSeq (chr a) (lit c w')
  end.
Definition word (w : string) : regex :=
  match w with
  | String a w' => lit a w'
  | EmptyString => RSet (fun _ => false)
  end.
Fixpoint alts (r : regex) (rs : list regex) : regex :=
  match rs with
  | [] => r
  | r' :: rs' => RAlt r (alts r' rs')
  end.
Infix "·" := RSeq (at level 41, right associativity).
Infix "∣" := RAlt (at level 42, right associativity).
End Re.

(** ** [datetime.strptime]

    The fields a match fills in; an absent field takes the default of
    [_strptime] (year 1900, month 1, day 1, time 00:00:00). *)

Inductive campo : Type := FY | Fm | Fd | FH | FM | FS | Fb | FB.

Inductive item : Type :=
| IField (f : campo)     (* a directive %Y %m %d %H %M %S %b %B *)
| IChr (c : ascii)       (* any other character, matched literally *)
| ISpace.                (* a run of white space in the format: \s+ *)

Record campos : Type := Campos {
  c_year : option Z; c_month : option Z; c_day : option Z;
  c_hour : option Z; c_minute : option Z; c_second : option Z }.

Definition campos_vazios : campos := Campos None None None None None None.

Record datetime : Type := DateTime {
  year : Z; month : Z; day : Z; hour : Z; minute : Z; second : Z }.

Record date : Type := Date { d_year : Z; d_month : Z; d_day : Z }.

Module Strptime.
Import Re.

(** The locale's month names, lower-cased, as [_strptime.LocaleTime]
    keeps them (the program never calls [setlocale]: the C locale). *)
Definition a_month : list string :=
  ["jan"; "feb"; "mar"; "apr"; "may"; "jun";
   "jul"; "aug"; "sep"; "oct"; "nov"; "dec"].
Definition f_month : list string :=
  ["january"; "february"; "march"; "april"; "may"; "june"; "july";
   "august"; "september"; "october"; "november"; "december"].

(** [__seqToRE]: the names sorted by [len], longest first ([sorted] is
    stable, also with [reverse=True]), as one alternation. *)
Fixpoint insert_by_len (x : string) (l : list string) : list string :=
  match l with
  | [] => [x]
  | y :: l' =>
      if (String.length y <? String.length x)%nat then x :: l
      else y :: insert_by_len x l'
  end.
Definition sorted_by_len (names : list string) : list string :=
  foldl (fun acc x => insert_by_len x acc) [] names.

Definition seqToRE (names : list string) : regex :=
  match sorted_by_len names with
  | n :: ns => alts (word n) (word <$> ns)
  | [] => RSet (fun _ => false)
  end.

Definition re_of (f : campo) : regex :=
  match f with
  | FY => d · d · d · d
  | Fm => (chr "1" · rng "0" "2") ∣ (chr "0" · rng "1" "9") ∣ rng "1" "9"
  | Fd => (chr "3" · rng "0" "1") ∣ (rng "1" "2" · d)
          ∣ (chr "0" · rng "1" "9") ∣ rng "1" "9" ∣ (chr " " · rng "1" "9")
  | FH => (chr "2" · rng "0" "3") ∣ (rng "0" "1" · d) ∣ d
  | FM => (rng "0" "5" · d) ∣ d
  | FS => (chr "6" · rng "0" "1") ∣ (rng "0" "5" · d) ∣ d
  | Fb => seqToRE a_month
  | FB => seqToRE f_month
  end.

Definition directive (c : ascii) : option item :=
  match c with
  | "Y" => Some (IField FY) | "m" => Some (IField Fm)
  | "d" => Some (IField Fd) | "H" => Some (IField FH)
  | "M" => Some (IField FM) | "S" => Some (IField FS)
  | "b" => Some (IField Fb) | "B" => Some (IField FB)
  | "%" => Some (IChr "%")
  | _ => None
  end%char.

(** [TimeRE.pattern]: white-space runs become [\s+], [%x] a directive,
    every other character itself.  [None] is a directive outside the
    ones the program's formats use. *)
Fixpoint pattern_go (in_ws : bool) (fmt : string) : option (list item) :=
  match fmt with
  | EmptyString => Some []
  | String c fmt' =>
      if PyStr.isspace c then
        if in_ws then pattern_go true fmt'
        else cons ISpace <$> pattern_go true fmt'
      else if bool_decide (c = "%"%char) then
        match fmt' with
        | String x fmt'' =>
            match directive x with
            | Some i => cons i <$> pattern_go false fmt''
            | None => None
            end
        | EmptyString => None
        end
      else cons (IChr c) <$> pattern_go false fmt'
  end.
Definition pattern : string -> option (list item) := pattern_go false.

Definition index_of (names : list string) (w : string) : option Z :=
  (fun p : nat * string => Z.of_nat (S p.1)) <$>
    list_find (fun n => n = PyStr.lower_str w) names.
Arguments index_of : simpl never.

(** What [_strptime] does with the text of a named group. *)
Definition set_field (f : campo) (text : string) (cs : campos)
  : option campos :=
  match f with
  | FY => (fun v => Campos (Some v) (c_month cs) (c_day cs) (c_hour cs)
                      (c_minute cs) (c_second cs)) <$> PyStr.int text
  | Fm => (fun v => Campos (c_year cs) (Some v) (c_day cs) (c_hour cs)
                      (c_minute cs) (c_second cs)) <$> PyStr.int text
  | Fd => (fun v => Campos (c_year cs) (c_month cs) (Some v) (c_hour cs)
                      (c_minute cs) (c_second cs)) <$> PyStr.int text
  | FH => (fun v => Campos (c_year cs) (c_month cs) (c_day cs) (Some v)
                      (c_minute cs) (c_second cs)) <$> PyStr.int text
  | FM => (fun v => Campos (c_year cs) (c_month cs) (c_day cs) (c_hour cs)
                      (Some v) (c_second cs)) <$> PyStr.int text
  | FS => (fun v => Campos (c_year cs) (c_month cs) (c_day cs) (c_hour cs)
                      (c_minute cs) (Some v)) <$> PyStr.int text
  | Fb => (fun v => Campos (c_year cs) (Some v) (c_day cs) (c_hour cs)
                      (c_minute cs) (c_second cs)) <$> index_of a_month text
  | FB => (fun v => Campos (c_year cs) (Some v) (c_day cs) (c_hour cs)
                      (c_minute cs) (c_second cs)) <$> index_of f_month text
  end.

(** The matches of a compiled format, in backtracking order, each with
    the fields captured and the input left over. *)
Fixpoint matches (its : list item) (cs : campos) (s : string)
  : list (campos * string) :=
  match its with
  | [] => [(cs, s)]
  | IField f :: its' =>
      rmatch (re_of f) s ≫= fun rest =>
        match set_field f (consumed s rest) cs with
        | Some cs' => matches its' cs' rest
        | None => []
        end
  | IChr c :: its' => rmatch (chr c) s ≫= matches its' cs
  | ISpace :: its' => rmatch (RPlus PyStr.isspace) s ≫= matches its' cs
  end.

Definition is_leap (y : Z) : bool :=
  (y mod 4 =? 0) && (negb (y mod 100 =? 0) || (y mod 400 =? 0)).

Definition days_in_month (y m : Z) : Z :=
  if m =? 2 then (if is_leap y then 29 else 28)
  else if (m =? 4) || (m =? 6) || (m =? 9) || (m =? 11) then 30 else 31.

(** The checks of the [date] and [datetime] constructors. *)
Definition valid_date (y m d : Z) : bool :=
  (1 <=? y) && (y <=? 9999) && (1 <=? m) && (m <=? 12)
  && (1 <=? d) && (d <=? days_in_month y m).
Definition valid_time (h mi s : Z) : bool :=
  (0 <=? h) && (h <=? 23) && (0 <=? mi) && (mi <=? 59)
  && (0 <=? s) && (s <=? 59).

Definition build (cs : campos) : option datetime :=
  let m := default 1 (c_month cs) in
  let d := default 1 (c_day cs) in
  let y := match c_year cs with
           | Some y => y
           | None => if (m =? 2) && (d =? 29) then 1904 else 1900
           end in
  let h := default 0 (c_hour cs) in
  let mi := default 0 (c_minute cs) in
  let s := default 0 (c_second cs) in
  if valid_date y m d && valid_time h mi s
  then Some (DateTime y m d h mi s) else None.

(** [datetime.strptime(s, fmt)]; [None] is [ValueError]: no match,
    unconverted data after the first match, or a date that does not
    exist. *)
Definition strptime (s fmt : string) : option datetime :=
  match pattern fmt with
  | None => None
  | Some its =>
      match matches its campos_vazios s with
      | (cs, EmptyString) :: _ => build cs
      | _ => None
      end
  end.

End Strptime.

Definition to_date (t : datetime) : date := Date (year t) (month t) (day t).

(** Comparison of naive [datetime] values: field by field. *)
Definition datetime_key (t : datetime) : list Z :=
  [year t; month t; day t; hour t; minute t; second t].

Fixpoint lex_ltb (a b : list Z) : bool :=
  match a, b with
  | x :: a', y :: b' => (x <? y) || ((x =? y) && lex_ltb a' b')
  | [], _ :: _ => true
  | _, [] => false
  end.

Definition datetime_ltb (a b : datetime) : bool :=
  lex_ltb (datetime_key a) (datetime_key b).

(** ** [strftime("%Y-%m-%d %H:%M:%S")]

    How the batch processor prints the receipt time of a document (line
    592): four digits of year (for the years 1000 to 9999), two digits for
    each other field. *)

Definition digito (a : Z) : ascii := ascii_of_N (Z.to_N (48 + a)).

Definition dois_digitos (n : Z) (resto : string) : string :=
  String (digito (n / 10)) (String (digito (n mod 10)) resto).

Definition quatro_digitos (n : Z) (resto : string) : string :=
  String (digito (n / 1000))
    (String (digito (n / 100 mod 10)) (dois_digitos (n mod 100) resto)).

Definition strftime (t : datetime) : string :=
  quatro_digitos (year t) (String "-"
    (dois_digitos (month t) (String "-"
      (dois_digitos (day t) (String " "
        (dois_digitos (hour t) (String ":"
          (dois_digitos (minute t) (String ":"
            (dois_digitos (second t) EmptyString)))))))))).

(** The timestamps a [datetime] object can hold, from the year 1000 on. *)
Definition datetime_valido (t : datetime) : bool :=
  Strptime.valid_date (year t) (month t) (day t)
  && Strptime.valid_time (hour t) (minute t) (second t)
  && (1000 <=? year t).

(** ** Conflict resolver (main.py, lines 296-307) *)

Definition formato_data : string := "%Y-%m-%d %H:%M:%S".

Definition comparar_datas_email (data_nova_str data_existente_str : string)
  : bool :=
  match Strptime.strptime data_nova_str formato_data with
  | None => true
  | Some data_nova =>
      match Strptime.strptime data_existente_str formato_data with
      | None => true
      | Some data_existente => datetime_ltb data_existente data_nova
      end
  end.

(** ** Documents and the document store

    A field of an extracted record is a JSON scalar (the prompt asks the
    extraction service for strings; JSON floats, arrays and objects as
    field values are outside the embedding). *)

Inductive JVal : Type :=
| JNull
| JBool (b : bool)
| JInt (n : Z)
| JStr (s : string).

(** [bool(v)] *)
Definition py_truthy (v : JVal) : bool :=
  match v with
  | JNull => false
  | JBool b => b
  | JInt n => negb (n =? 0)
  | JStr s => PyStr.truthy s
  end.

Abbreviation Registro := (gmap string JVal).

Record Metadata : Type := {
  numero_email : Z;
  assunto : string;
  data_recebimento : string;
  endereco_email_remetente : string;
  processamento_timestamp : string }.

(** [email_processado]: {"metadata": ..., "dados_exportacao": ...} *)
Record Email : Type := {
  metadata : Metadata;
  dados_exportacao : Registro }.

Record StoreMetadata : Type := {
  sm_processamento_timestamp : string;
  total_emails_processados : Z;
  emails_com_dados : Z;
  ultima_atualizacao : string;
  ordens_unicas : list string }.

(** The snapshot: {"metadata": ..., "emails": [...]} *)
Record Dados : Type := {
  store_metadata : StoreMetadata;
  emails : list Email }.

(** [dados_exportacao.get("Ordem", "").strip()]; [None] is the
    [AttributeError] of calling [strip] on a value that is not a string. *)
Definition ordem_de (r : Registro) : option string :=
  match r !! "Ordem" with
  | None => Some (PyStr.strip "")
  | Some (JStr s) => Some (PyStr.strip s)
  | Some _ => None
  end.

(** main.py, lines 284-287 *)
Definition verificar_duplicidade_ordem_rapida
    (r : Registro) (ordens_existentes : gset string) : option bool :=
  ordem ← ordem_de r;
  Some (PyStr.truthy ordem && bool_decide (ordem ∈ ordens_existentes)).

(** main.py, lines 289-294: the index and the document of the first stored
    document with that order, [Some None] for [(-1, None)], [None] when
    the scan raises. *)
Fixpoint encontrar_desde (i : nat) (es : list Email) (ordem : string)
  : option (option (nat * Email)) :=
  match es with
  | [] => Some None
  | email :: es' =>
      o ← ordem_de (dados_exportacao email);
      if bool_decide (o = ordem) then Some (Some (i, email))
      else encontrar_desde (S i) es' ordem
  end.

Definition encontrar_email_por_ordem (dados_existentes : Dados)
    (ordem : string) : option (option (nat * Email)) :=
  encontrar_desde 0 (emails dados_existentes) ordem.

(** The test of lines 371-372:
    [get('status') != 'SEM_DADOS_EXPORTACAO' and not get('erro')]. *)
Definition com_dados (email : Email) : bool :=
  let r := dados_exportacao email in
  match r !! "status" with
  | Some (JStr s) => negb (bool_decide (s = "SEM_DADOS_EXPORTACAO"))
  | _ => true
  end
  && match r !! "erro" with
     | Some v => negb (py_truthy v)
     | None => true
     end.

Definition contar_com_dados (es : list Email) : Z :=
  Z.of_nat (length (filter (fun e => com_dados e = true) es)).

(** ** The process state: the store file, the cache and the heap

    The snapshot dictionaries are mutable objects that the cache, the
    save operation and the batch processor share, so they live in a heap
    and are passed by address. *)

Inductive Arquivo : Type :=
| Ausente                   (* no file *)
| Conteudo (d : Dados)      (* the file holds the JSON text of [d] *)
| Truncado.                 (* the file holds a strict prefix of a JSON text *)

Record Mundo : Type := {
  heap : gmap nat Dados;
  prox : nat;                       (* next free address *)
  json_cache : option nat;          (* [_json_cache]; [None] is Python's None *)
  json_cache_time : Q;              (* [_json_cache_time] *)
  arquivo : Arquivo }.

Definition mundo_inicial : Mundo :=
  {| heap := ∅; prox := 0%nat; json_cache := None; json_cache_time := 0%Q;
     arquivo := Ausente |}.

(** What the environment decides at a write [open(nome, 'w')] followed by
    [json.dump]: [open] truncates the file before anything is written. *)
Inductive Escrita : Type :=
| EscritaOk             (* the whole text is written *)
| FalhaAoAbrir          (* [open] raises: the file is untouched *)
| FalhaAoGravar.        (* [json.dump] raises after [open] truncated the file *)

Record Amb : Type := {
  agora : Q;                (* [time.time()] *)
  agora_iso : string;       (* [datetime.now().isoformat()] *)
  escrita : Escrita }.

Definition alocar (d : Dados) (w : Mundo) : nat * Mundo :=
  (prox w,
   {| heap := <[prox w := d]> (heap w); prox := S (prox w);
      json_cache := Some (prox w); json_cache_time := json_cache_time w;
      arquivo := arquivo w |}).

Definition empty_data (iso : string) : Dados :=
  {| store_metadata :=
       {| sm_processamento_timestamp := iso;
          total_emails_processados := 0;
          emails_com_dados := 0;
          ultima_atualizacao := iso;
          ordens_unicas := [] |};
     emails := [] |}.

(** main.py, lines 248-277.  The result is the address of the snapshot;
    it is always the object the cache holds on return. *)
Definition carregar_json_existente_rapido (amb : Amb) (w : Mundo)
  : nat * Mundo :=
  let recarregar :=
    match arquivo w with
    | Conteudo d =>
        let '(l, w') := alocar d w in
        (l, {| heap := heap w'; prox := prox w'; json_cache := json_cache w';
               json_cache_time := agora amb; arquivo := arquivo w' |})
    | Ausente | Truncado => alocar (empty_data (agora_iso amb)) w
    end in
  match json_cache w with
  | Some l =>
      if negb (Qle_bool 30 (agora amb - json_cache_time w)) then (l, w)
      else recarregar
  | None => recarregar
  end.

(** main.py, lines 279-282 *)
Definition obter_ordens_unicas_existentes_rapido (amb : Amb) (w : Mundo)
  : gset string * Mundo :=
  let '(l, w') := carregar_json_existente_rapido amb w in
  (match heap w' !! l with
   | Some dados => list_to_set (ordens_unicas (store_metadata dados))
   | None => ∅
   end, w').

Definition com_emails (es : list Email) (d : Dados) : Dados :=
  {| store_metadata := store_metadata d; emails := es |}.

Definition com_metadata (f : StoreMetadata -> StoreMetadata) (d : Dados)
  : Dados :=
  {| store_metadata := f (store_metadata d); emails := emails d |}.

Definition set_ultima_atualizacao (iso : string) (m : StoreMetadata) :=
  {| sm_processamento_timestamp := sm_processamento_timestamp m;
     total_emails_processados := total_emails_processados m;
     emails_com_dados := emails_com_dados m;
     ultima_atualizacao := iso;
     ordens_unicas := ordens_unicas m |}.

Definition set_ordens_unicas (l : list string) (m : StoreMetadata) :=
  {| sm_processamento_timestamp := sm_processamento_timestamp m;
     total_emails_processados := total_emails_processados m;
     emails_com_dados := emails_com_dados m;
     ultima_atualizacao := ultima_atualizacao m;
     ordens_unicas := l |}.

Definition set_contagens (total validos : Z) (m : StoreMetadata) :=
  {| sm_processamento_timestamp := sm_processamento_timestamp m;
     total_emails_processados := total;
     emails_com_dados := validos;
     ultima_atualizacao := ultima_atualizacao m;
     ordens_unicas := ordens_unicas m |}.

Definition com_heap (h : gmap nat Dados) (w : Mundo) : Mundo :=
  {| heap := h; prox := prox w; json_cache := json_cache w;
     json_cache_time := json_cache_time w; arquivo := arquivo w |}.

Definition com_arquivo (a : Arquivo) (w : Mundo) : Mundo :=
  {| heap := heap w; prox := prox w; json_cache := json_cache w;
     json_cache_time := json_cache_time w; arquivo := a |}.

(** [with open(nome_arquivo, 'w') as f: json.dump(dados, f, ...)] followed
    by [_json_cache = dados_existentes]; [false] is an exception, which the
    [except Exception] of the save operation turns into [return False]. *)
Definition gravar (amb : Amb) (l : nat) (dados : Dados) (w : Mundo)
  : bool * Mundo :=
  match escrita amb with
  | EscritaOk =>
      (true, {| heap := heap w; prox := prox w; json_cache := Some l;
                json_cache_time := json_cache_time w;
                arquivo := Conteudo dados |})
  | FalhaAoAbrir => (false, w)
  | FalhaAoGravar => (false, com_arquivo Truncado w)
  end.

(** Lines 338-341: the stored document is replaced in place. *)
Definition substituir_email (iso : string) (indice_existente : nat)
    (email_processado : Email) (dados_existentes : Dados) : Dados :=
  com_metadata (set_ultima_atualizacao iso)
    (com_emails
       (<[indice_existente := email_processado]> (emails dados_existentes))
       dados_existentes).

(** Lines 362-363: [if ordem: ordens_existentes.add(ordem)]. *)
Definition ordens_apos (ordem : string) (ordens_existentes : gset string)
  : gset string :=
  if PyStr.truthy ordem then {[ordem]} ∪ ordens_existentes
  else ordens_existentes.

(** Lines 359-374: the document is appended, the key list and the counts
    of the metadata are recomputed.  [list(ordens_existentes)] is the
    elements of the set in some order; the embedding takes [elements]. *)
Definition acrescentar_email (iso : string) (email_processado : Email)
    (ordem : string) (ordens_existentes : gset string)
    (dados_existentes : Dados) : Dados :=
  let es := emails dados_existentes ++ [email_processado] in
  let m := store_metadata dados_existentes in
  let m := if PyStr.truthy ordem
           then set_ordens_unicas
                  (elements (ordens_apos ordem ordens_existentes)) m
           else m in
  let m := set_contagens (Z.of_nat (length es)) (contar_com_dados es) m in
  let m := set_ultima_atualizacao iso m in
  {| store_metadata := m; emails := es |}.

(** The snapshot object at [l] has been mutated into [dados]; it is then
    written to the file.  A failed write leaves the mutation of the
    in-memory object (and of the key set) in place. *)
Definition persistir (amb : Amb) (l : nat) (dados : Dados)
    (ordens : gset string) (w : Mundo) : (bool * gset string) * Mundo :=
  let w := com_heap (<[l := dados]> (heap w)) w in
  let '(ok, w) := gravar amb l dados w in
  ((ok, ordens), w).

(** main.py, lines 312-387.  The set [ordens_existentes] is mutated in place
    and returned: the second component is its value after the call. *)
Definition salvar_json_incremental_rapido
    (amb : Amb) (email_processado : Email) (ordens_existentes : gset string)
    (w : Mundo) : (bool * gset string) * Mundo :=
  match ordem_de (dados_exportacao email_processado) with
  | None => ((false, ordens_existentes), w)
  | Some ordem =>
      let data_nova_email := data_recebimento (metadata email_processado) in
      let '(l, w) := carregar_json_existente_rapido amb w in
      match heap w !! l with
      | None => ((false, ordens_existentes), w)
      | Some dados_existentes =>
          if PyStr.truthy ordem && bool_decide (ordem ∈ ordens_existentes)
          then
            match encontrar_email_por_ordem dados_existentes ordem with
            | None => ((false, ordens_existentes), w)
            | Some (Some (indice_existente, email_existente)) =>
                let data_existente_email :=
                  data_recebimento (metadata email_existente) in
                if comparar_datas_email data_nova_email data_existente_email
                then
                  persistir amb l
                    (substituir_email (agora_iso amb) indice_existente
                       email_processado dados_existentes)
                    ordens_existentes w
                else ((false, ordens_existentes), w)
            | Some None => ((false, ordens_existentes), w)
            end
          else
            persistir amb l
              (acrescentar_email (agora_iso amb) email_processado ordem
                 ordens_existentes dados_existentes)
              (ordens_apos ordem ordens_existentes) w
      end
  end.

(** What the callers do with the store between two polls: save a
    document with the key set they hold, or read the key set again from
    the store ([monitorar_novos_emails_continuamente] does so at every
    poll). *)
Inductive Acao : Type :=
| Salvar (amb : Amb) (email : Email)
| RecarregarOrdens (amb : Amb).

(** A run: the key set goes from one call to the next as in
    [processar_lote_emails]
    ([sucesso, ordens_unicas = salvar_json_incremental_rapido(...)]). *)
Fixpoint executar (acoes : list Acao) (ordens : gset string) (w : Mundo)
  : gset string * Mundo :=
  match acoes with
  | [] => (ordens, w)
  | Salvar amb email :: acoes' =>
      let '((_, ordens'), w') :=
        salvar_json_incremental_rapido amb email ordens w in
      executar acoes' ordens' w'
  | RecarregarOrdens amb :: acoes' =>
      let '(ordens', w') := obter_ordens_unicas_existentes_rapido amb w in
      executar acoes' ordens' w'
  end.

(** The trimmed order key of a stored document. *)
Definition chave (e : Email) : option string :=
  ordem_de (dados_exportacao e).

(** Lookup by key: all the stored documents with key [k]. *)
Definition com_chave (k : string) (d : Dados) : list Email :=
  filter (fun e => chave e = Some k) (emails d).

(** The snapshots a reader can observe: the content of the store file and
    the snapshot the cache holds. *)
Definition visivel (w : Mundo) (d : Dados) : Prop :=
  arquivo w = Conteudo d
  ∨ ∃ l, json_cache w = Some l ∧ heap w !! l = Some d.

(** ** Invariants of the store *)

Definition chaves (es : list Email) : list string :=
  filter (fun k => k ≠ "") (omap chave es).

(** A snapshot is well formed for a key set: the scan by key never
    raises, every non-empty stored key is in the key set and in the key
    list of the metadata, no non-empty key is stored twice, and the total
    is the number of documents. *)
Record bem_formado (ordens : gset string) (d : Dados) : Prop := {
  bf_chaves : Forall (fun e => is_Some (chave e)) (emails d);
  bf_ordens : ∀ k, k ∈ chaves (emails d) → k ∈ ordens;
  bf_lista : ∀ k, k ∈ chaves (emails d) →
                  k ∈ ordens_unicas (store_metadata d);
  bf_nodup : NoDup (chaves (emails d));
  bf_total : total_emails_processados (store_metadata d)
             = Z.of_nat (length (emails d)) }.

(** The file and the snapshot the cache holds are well formed, and the
    key list of the cached snapshot covers the keys of the file. *)
Record inv (ordens : gset string) (w : Mundo) : Prop := {
  inv_cache : ∀ l, json_cache w = Some l →
    ∃ d, heap w !! l = Some d ∧ bem_formado ordens d
         ∧ ∀ f k, arquivo w = Conteudo f → k ∈ chaves (emails f) →
                  k ∈ ordens_unicas (store_metadata d);
  inv_arquivo : ∀ d, arquivo w = Conteudo d → bem_formado ordens d }.

(** ** Notions the statements use *)

(** "Strictly later", stated on the fields of two timestamps. *)
Definition datetime_lt (a b : datetime) : Prop :=
  year a < year b ∨ (year a = year b ∧
  (month a < month b ∨ (month a = month b ∧
  (day a < day b ∨ (day a = day b ∧
  (hour a < hour b ∨ (hour a = hour b ∧
  (minute a < minute b ∨ (minute a = minute b ∧
   second a < second b))))))))).

(** The file and the cached snapshot agree on [d]. *)
Definition coerente (w : Mundo) (d : Dados) : Prop :=
  arquivo w = Conteudo d
  ∧ ∃ l, json_cache w = Some l ∧ heap w !! l = Some d.

(** The snapshot a save operation run under [amb] in [w] starts from. *)
Definition carregado (amb : Amb) (w : Mundo) (d : Dados) : Prop :=
  ∃ l w1, carregar_json_existente_rapido amb w = (l, w1)
          ∧ heap w1 !! l = Some d.

(** Validity of a record as the specification words it (not a definition
    of the code): a non-empty order key and no error / no-data marker. *)
Definition registro_valido_spec (e : Email) : bool :=
  match chave e with
  | Some k => PyStr.truthy k
  | None => false
  end && com_dados e.

(** ** Coercions of the relational sync *)

Module PyStrOps.
Fixpoint filter (p : ascii -> bool) (s : string) : string :=
  match s with
  | String c s' => if p c then String c (filter p s') else filter p s'
  | EmptyString => EmptyString
  end.
Fixpoint map (f : ascii -> ascii) (s : string) : string :=
  match s with
  | String c s' => String (f c) (map f s')
  | EmptyString => EmptyString
  end.
Fixpoint forallb (p : ascii -> bool) (s : string) : bool :=
  match s with
  | String c s' => p c && forallb p s'
  | EmptyString => true
  end.
Fixpoint existsb (p : ascii -> bool) (s : string) : bool :=
  match s with
  | String c s' => p c || existsb p s'
  | EmptyString => false
  end.
(** The longest prefix of characters satisfying [p], and the rest. *)
Fixpoint span (p : ascii -> bool) (s : string) : string * string :=
  match s with
  | String c s' =>
      if p c then let '(a, b) := span p s' in (String c a, b)
      else (EmptyString, s)
  | EmptyString => (EmptyString, EmptyString)
  end.
(** The number a run of decimal digits denotes. *)
Definition valor (s : string) : Z := default 0 (PyStr.digits_acc 0 s).
End PyStrOps.

(** [str(v)] *)
Definition py_str (v : JVal) : string :=
  match v with
  | JNull => "None"
  | JBool true => "True"
  | JBool false => "False"
  | JInt n => pretty n
  | JStr s => s
  end.

(** The binary64 number nearest to [m / 10^k] (ties to even), for
    [m >= 0]: the value of a decimal literal with digits [m] and [k] of
    them after the point. *)
Definition float_decimal (m : Z) (k : nat) : spec_float :=
  match m with
  | Zpos _ =>
      let '(q, e, l) := SFdiv_core_binary 53 1024 m 0 (10 ^ Z.of_nat k) 0 in
      binary_round_aux 53 1024 false q e l
  | _ => S754_zero false
  end.

(** [float(s)] for a text of digits and points, which is all the cleaning
    of [converter_para_decimal] leaves; [None] is [ValueError]. *)
Definition float_de_limpo (s : string) : option spec_float :=
  let '(i, r) := PyStrOps.span PyStr.isdigit s in
  match r with
  | EmptyString =>
      if PyStr.truthy i then Some (float_decimal (PyStrOps.valor i) 0)
      else None
  | String c f =>
      if bool_decide (c = "."%char) && PyStrOps.forallb PyStr.isdigit f
         && (PyStr.truthy i || PyStr.truthy f)
      then Some (float_decimal (PyStrOps.valor (i +:+ f)) (String.length f))
      else None
  end.

(** main.py, lines 426-441 *)
Definition converter_para_decimal (valor_str : JVal) : option spec_float :=
  if negb (py_truthy valor_str) then None
  else
    (* re.sub(r'[^\d,]', '', str(valor_str)) *)
    let valor_limpo :=
      PyStrOps.filter
        (fun c => PyStr.isdigit c || bool_decide (c = ","%char))
        (py_str valor_str) in
    (* .replace(',', '.') *)
    let valor_limpo :=
      PyStrOps.map
        (fun c => if bool_decide (c = ","%char) then "."%char else c)
        valor_limpo in
    if PyStr.truthy valor_limpo then float_de_limpo valor_limpo else None.

(** The real number a finite float denotes, as a reduced fraction. *)
Definition valor_exato (f : spec_float) : option Q :=
  match f with
  | S754_zero _ => Some 0%Q
  | S754_finite s m e =>
      let q := if (0 <=? e) then inject_Z (Zpos m * 2 ^ e)
               else (Zpos m # Z.to_pos (2 ^ (- e)))%Q in
      Some (Qred (if s then Qopp q else q))
  | _ => None
  end.

Definition formatos_data : list string :=
  ["%Y-%m-%d"; "%d/%m/%Y"; "%d-%m-%Y"; "%m/%d/%Y";
   "%Y/%m/%d"; "%d.%m.%Y"; "%d %b %Y"; "%d %B %Y"].

(** The loop of lines 412-416: the first layout that parses. *)
Fixpoint tentar_formatos (formatos : list string) (data_str : string)
  : option date :=
  match formatos with
  | [] => None
  | formato :: resto =>
      match Strptime.strptime data_str formato with
      | Some t => Some (to_date t)
      | None => tentar_formatos resto data_str
      end
  end.

Section Sincronizacao.

(** [dateutil.parser.parse(s, dayfirst=True).date()], a library outside
    the repository; [None] is any exception it raises. *)
Variable dateutil_parse : string -> option date.

(** [hashlib.md5(s.encode()).hexdigest()] *)
Variable md5_hexdigest : string -> string.

(** main.py, lines 389-424 *)
Definition converter_para_data (data_str : JVal) : option date :=
  if negb (py_truthy data_str) then None
  else
    let data_str := PyStr.strip (py_str data_str) in
    match tentar_formatos formatos_data data_str with
    | Some d => Some d
    | None => dateutil_parse data_str
    end.

(** A row of the table [dbCONTAINER] (class [ExportacaoDB], lines 31-53)
    as the relational sync assigns it.  The row is not all the database
    keeps:
    - the audit timestamps [data_processamento] and [data_atualizacao],
      which column defaults maintain ([onupdate=datetime.now] refreshes
      the second on every UPDATE), are not part of it;
    - a text column holds the value the sync assigns, of whatever JSON
      type.  The database stores a string as it is; any other scalar it
      converts to text or refuses, so the row is what the table stores
      only for a record whose values are strings;
    - the amount is the float the sync assigns, not the [Decimal] the
      [Numeric(15, 2)] column gives back. *)
Record ExportacaoDB : Type := {
  db_id : string;
  db_data_embarque : option date;
  db_planta_carregamento : JVal;
  db_tipo_embarque : JVal;
  db_temperatura : JVal;
  db_ordem : string;
  db_porto_saida : JVal;
  db_porto_chegada : JVal;
  db_companhia : JVal;
  db_navio : JVal;
  db_dline : JVal;
  db_reserva_booking : JVal;
  db_id_autorizacao : JVal;
  db_resumo_embarque : JVal;
  db_transportador_ter : JVal;
  db_eta : option date;
  db_valor_pedido : option spec_float }.

(** [dados_exportacao.get(nome, "")] *)
Definition obter (r : Registro) (nome : string) : JVal :=
  default (JStr "") (r !! nome).

(** The key "ID_(autorização)": c-cedilla and a-tilde are the code
    points 231 and 227. *)
Definition chave_id_autorizacao : string :=
  "ID_(autoriza" +:+ String "231" (String "227" "o)").

(** Lines 490-537: the row built from a record, with identifier [i]. *)
Definition linha_de (i : string) (ordem : string) (r : Registro)
  : ExportacaoDB :=
  {| db_id := i;
     db_data_embarque := converter_para_data (obter r "data_embarque");
     db_planta_carregamento := obter r "planta_carregamento";
     db_tipo_embarque := obter r "Tipo_de_embarque";
     db_temperatura := obter r "Temperatura";
     db_ordem := ordem;
     db_porto_saida := obter r "Porto_de_saida";
     db_porto_chegada := obter r "Porto_de_chegada";
     db_companhia := obter r "Companhia";
     db_navio := obter r "Navio";
     db_dline := obter r "DLine";
     db_reserva_booking := obter r "Reserva_(Booking)";
     db_id_autorizacao := obter r chave_id_autorizacao;
     db_resumo_embarque := obter r "Resumo_embarque";
     db_transportador_ter := obter r "Transportador_Ter";
     db_eta := converter_para_data (obter r "ETA");
     db_valor_pedido := converter_para_decimal (obter r "Valor_Pedido_(R$)")
  |}.

(** [session.query(ExportacaoDB).filter_by(ordem=ordem).first()], with
    the index of the row. *)
Definition buscar (ordem : string) (tabela : list ExportacaoDB)
  : option (nat * ExportacaoDB) :=
  list_find (fun r => db_ordem r = ordem) tabela.

Record Estatisticas : Type := {
  total_inseridos : Z;
  total_atualizados : Z;
  total_ignorados : Z }.

Inductive Passo : Type :=
| Continua (e : Estatisticas) (tabela : list ExportacaoDB)
| Falha.     (* an exception that ends in [session.rollback()] *)

(** One iteration of the loop of lines 475-547.  A new row whose
    identifier is already taken violates the primary key: the flush
    raises, the session can only be rolled back. *)
Definition sincronizar_email (email : Email) (e : Estatisticas)
    (tabela : list ExportacaoDB) : Passo :=
  let r := dados_exportacao email in
  if negb (com_dados email) then
    Continua {| total_inseridos := total_inseridos e;
                total_atualizados := total_atualizados e;
                total_ignorados := total_ignorados e + 1 |} tabela
  else
    match ordem_de r with
    | None => Falha
    | Some ordem =>
        if negb (PyStr.truthy ordem) then
          Continua {| total_inseridos := total_inseridos e;
                      total_atualizados := total_atualizados e;
                      total_ignorados := total_ignorados e + 1 |} tabela
        else
          match buscar ordem tabela with
          | Some (i, registro_existente) =>
              Continua {| total_inseridos := total_inseridos e;
                          total_atualizados := total_atualizados e + 1;
                          total_ignorados := total_ignorados e |}
                (<[i := linha_de (db_id registro_existente) ordem r]>
                   tabela)
          | None =>
              let novo := linha_de (md5_hexdigest ordem) ordem r in
              if bool_decide (db_id novo ∈ db_id <$> tabela) then Falha
              else
                Continua {| total_inseridos := total_inseridos e + 1;
                            total_atualizados := total_atualizados e;
                            total_ignorados := total_ignorados e |}
                  (tabela ++ [novo])
          end
    end.

Fixpoint sincronizar_emails (es : list Email) (e : Estatisticas)
    (tabela : list ExportacaoDB) : Passo :=
  match es with
  | [] => Continua e tabela
  | email :: es' =>
      match sincronizar_email email e tabela with
      | Continua e' tabela' => sincronizar_emails es' e' tabela'
      | Falha => Falha
      end
  end.

(** main.py, lines 463-569: [True] with the committed table, or [False]
    with the table rolled back to what it was. *)
Definition sincronizar_json_para_banco (amb : Amb) (w : Mundo)
    (tabela : list ExportacaoDB)
  : (bool * list ExportacaoDB) * Mundo :=
  let '(l, w) := carregar_json_existente_rapido amb w in
  match heap w !! l with
  | None => ((false, tabela), w)
  | Some dados_json =>
      match sincronizar_emails (emails dados_json)
              {| total_inseridos := 0; total_atualizados := 0;
                 total_ignorados := 0 |} tabela with
      | Continua _ tabela' => ((true, tabela'), w)
      | Falha => ((false, tabela), w)
      end
  end.

(** ** Batch processor (main.py, lines 571-628) *)

(** A raw document as the batch processor uses it: subject, receipt time
    ([ReceivedTime], a datetime), sender, and the record the extraction
    collaborator returned for its body. *)
Record EmailBruto : Type := {
  eb_assunto : string;
  eb_received_time : datetime;
  eb_remetente : string;
  eb_dados_exportacao : Registro }.

(** The environment of one iteration: of the save, and of the relational
    sync that follows a successful save. *)
Record Chegada : Type := {
  bruto : EmailBruto;
  amb_salvar : Amb;
  amb_sync : Amb }.

Record Contadores : Type := {
  emails_processados : Z;
  emails_duplicados : Z;
  emails_atualizados : Z }.

(** What a batch leaves: the counters it returns ([None] when an exception
    leaves the function), the key set, the table of the database session
    ([None] when there is no session) and the process state. *)
Record Lote : Type := {
  contadores : option Contadores;
  ordens_finais : gset string;
  sessao_final : option (list ExportacaoDB);
  mundo_final : Mundo }.

(** The loop of [processar_lote_emails].  [dados_existentes] is the address
    of the snapshot the caller passed. *)
Fixpoint processar_lote_desde (lote : list Chegada) (dados_existentes : nat)
    (session_db : option (list ExportacaoDB)) (c : Contadores)
    (ordens_unicas : gset string) (w : Mundo) : Lote :=
  match lote with
  | [] => {| contadores := Some c; ordens_finais := ordens_unicas;
             sessao_final := session_db; mundo_final := w |}
  | ch :: lote' =>
      let levanta := {| contadores := None; ordens_finais := ordens_unicas;
                        sessao_final := session_db; mundo_final := w |} in
      let dados_exportacao := eb_dados_exportacao (bruto ch) in
      let data_str := strftime (eb_received_time (bruto ch)) in
      match heap w !! dados_existentes with
      | None => levanta
      | Some snapshot =>
          let email_processado :=
            {| metadata :=
                 {| numero_email :=
                      total_emails_processados (store_metadata snapshot)
                      + emails_processados c + 1;
                    assunto := eb_assunto (bruto ch);
                    data_recebimento := data_str;
                    endereco_email_remetente := eb_remetente (bruto ch);
                    processamento_timestamp := agora_iso (amb_salvar ch) |};
               dados_exportacao := dados_exportacao |} in
          match ordem_de dados_exportacao with
          | None => levanta
          | Some ordem =>
              let atualizacao :=
                if PyStr.truthy ordem && bool_decide (ordem ∈ ordens_unicas)
                then
                  match encontrar_email_por_ordem snapshot ordem with
                  | None => None
                  | Some (Some (_, email_existente)) =>
                      Some (comparar_datas_email data_str
                              (data_recebimento (metadata email_existente)))
                  | Some None => Some false
                  end
                else Some false in
              match atualizacao with
              | None => levanta
              | Some atualizado =>
                  let atualizados :=
                    if atualizado then emails_atualizados c + 1
                    else emails_atualizados c in
                  let '((sucesso, ordens_unicas), w) :=
                    salvar_json_incremental_rapido (amb_salvar ch)
                      email_processado ordens_unicas w in
                  if sucesso then
                    let '(session_db, w) :=
                      match session_db with
                      | Some tabela =>
                          let '((_, tabela), w) :=
                            sincronizar_json_para_banco (amb_sync ch) w
                              tabela in
                          (Some tabela, w)
                      | None => (None, w)
                      end in
                    processar_lote_desde lote' dados_existentes session_db
                      {| emails_processados := emails_processados c + 1;
                         emails_duplicados := emails_duplicados c;
                         emails_atualizados := atualizados |}
                      ordens_unicas w
                  else
                    processar_lote_desde lote' dados_existentes session_db
                      {| emails_processados := emails_processados c;
                         emails_duplicados := emails_duplicados c + 1;
                         emails_atualizados := atualizados |}
                      ordens_unicas w
              end
          end
      end
  end.

Definition processar_lote_emails (emails_lote : list Chegada)
    (dados_existentes : nat) (ordens_unicas : gset string)
    (session_db : option (list ExportacaoDB)) (w : Mundo) : Lote :=
  processar_lote_desde emails_lote dados_existentes session_db
    {| emails_processados := 0; emails_duplicados := 0;
       emails_atualizados := 0 |}
    ordens_unicas w.

(** One polling cycle of [monitorar_novos_emails_continuamente] (lines
    663-679): load the snapshot, load the key set, process the batch. *)
Definition ciclo_monitoramento (amb1 amb2 : Amb) (novos_emails : list Chegada)
    (session_db : option (list ExportacaoDB)) (w : Mundo) : Lote :=
  let '(dados_existentes, w) := carregar_json_existente_rapido amb1 w in
  let '(ordens_unicas, w) := obter_ordens_unicas_existentes_rapido amb2 w in
  processar_lote_emails novos_emails dados_existentes ordens_unicas
    session_db w.

End Sincronizacao.

(** The sequence numbers of the documents in the store file. *)
Definition numeros_armazenados (w : Mundo) : list Z :=
  match arquivo w with
  | Conteudo d => (fun e => numero_email (metadata e)) <$> emails d
  | _ => []
  end.

(** ** Spreadsheet reconciliation (main.py, lines 931-1038)

    A pandas frame is its column names and its rows; a row maps a column
    to its cell, an absent column being NaN.  The scalar values of pandas
    are a parameter (an interface [CellOps]): all the reconciliation does
    with a cell is to turn the key cell into a string ([astype(str)]). *)

(** A string as a cell, and [str(c)] of a cell. *)
Class CellOps (Cell : Type) : Type := {
  of_str : string -> Cell;
  cell_str : Cell -> string }.

Abbreviation Linha Cell := (gmap string Cell).

Record Frame (Cell : Type) : Type := {
  colunas : list string;
  linhas : list (Linha Cell) }.
Arguments colunas {Cell} _.
Arguments linhas {Cell} _.

Section Planilha.

Context {Cell : Type} `{!CellOps Cell}.
Local Abbreviation Linha := (Linha Cell).
Local Abbreviation Frame := (Frame Cell).

Definition mapeamento : list (string * string) :=
  [("data_embarque", "DT EMBARQUE"); ("planta_carregamento", "UNIDADE");
   ("Tipo_de_embarque", "TIPO EMBARQUE"); ("Temperatura", "TEMPERATURA");
   ("ordem", "CONTRATO"); ("porto_saida", "PORTO SAIDA");
   ("porto_chegada", "PORTO CHEGADA"); ("companhia", "ARMADOR");
   ("navio", "NAVIO"); ("dline", "DEADLINE");
   ("reserva_booking", "BOOKING")].

(** [mapeamento['ordem']] *)
Definition coluna_ordem : string := "CONTRATO".

Definition novo_nome (c : string) : string :=
  match list_find (fun p : string * string => p.1 = c) mapeamento with
  | Some (_, (_, novo)) => novo
  | None => c
  end.

(** [.rename(columns=mapeamento)] *)
Definition rename (f : Frame) : Frame :=
  {| colunas := novo_nome <$> colunas f;
     linhas := (fun r : Linha =>
                  list_to_map ((fun p => (novo_nome p.1, p.2))
                               <$> map_to_list r) : Linha)
               <$> linhas f |}.

(** The key of a row once the key column is a string; NaN prints as
    "nan". *)
Definition chave_linha (r : Linha) : string :=
  match r !! coluna_ordem with
  | Some c => cell_str c
  | None => "nan"
  end.

(** [.astype(str)] on the key column, row by row. *)
Definition astype_str (r : Linha) : Linha :=
  <[coluna_ordem := of_str (chave_linha r)]> r.

(** [.drop_duplicates(subset=[coluna_ordem])]: the first row of each
    key. *)
Fixpoint drop_duplicates (vistos : list string) (rs : list Linha)
  : list Linha :=
  match rs with
  | [] => []
  | r :: rs' =>
      if bool_decide (chave_linha r ∈ vistos) then drop_duplicates vistos rs'
      else r :: drop_duplicates (chave_linha r :: vistos) rs'
  end.

Inductive Indicador : Type := left_only | right_only | both.

Global Instance Indicador_eq_dec : EqDecision Indicador.
Proof. solve_decision. Defined.

(** [pd.merge(esq, dir, on=coluna_ordem, how='outer', indicator=True)]
    on two key columns, the right one without duplicates. *)
Definition merge_outer (esq dir : list string)
  : list (string * Indicador) :=
  ((fun k => (k, if bool_decide (k ∈ dir) then both else left_only))
   <$> esq)
  ++ ((fun k => (k, right_only))
      <$> filter (fun k => k ∉ esq) dir).

(** [merge_info[merge_info['_merge'] == ind][coluna_ordem]] *)
Definition chaves_com (ind : Indicador)
    (merge_info : list (string * Indicador)) : list string :=
  fst <$> filter (fun p => p.2 = ind) merge_info.

(** [df[df[coluna_ordem].isin(chaves)]] *)
Definition isin (chaves : list string) (rs : list Linha) : list Linha :=
  filter (fun r => chave_linha r ∈ chaves) rs.

Definition por_chave (r1 r2 : Linha) : Prop :=
  String.le (chave_linha r1) (chave_linha r2).

Global Instance por_chave_dec : RelDecision por_chave.
Proof. intros r1 r2. unfold por_chave. apply _. Defined.

Global Instance por_chave_total : Total por_chave.
Proof. intros r1 r2. unfold por_chave. apply total, _. Qed.

(** [.sort_values(by=coluna_ordem)]; pandas leaves the order among equal
    keys unspecified, the embedding sorts stably. *)
Definition sort_values (rs : list Linha) : list Linha :=
  merge_sort por_chave rs.

(** Columns of a [pd.concat]: those of the first frame, then the new
    ones. *)
Definition unir_colunas (a b : list string) : list string :=
  a ++ filter (fun c => c ∉ a) b.

(** Steps 4 to 6: the outer merge on the key and the three cases. *)
Definition df_final_de (dados_banco_preparados excel : list Linha)
  : list Linha :=
  let merge_info :=
    merge_outer (chave_linha <$> excel)
      (chave_linha <$> dados_banco_preparados) in
  let apenas_excel := chaves_com left_only merge_info in
  let apenas_banco := chaves_com right_only merge_info in
  let em_ambos := chaves_com both merge_info in
  let df_final := isin apenas_excel excel in
  let df_final :=
    if bool_decide (em_ambos = []) then df_final
    else df_final ++ isin em_ambos dados_banco_preparados in
  if bool_decide (apenas_banco = []) then df_final
  else df_final ++ isin apenas_banco dados_banco_preparados.

(** Step 3 on the relational rows. *)
Definition preparar (dados_banco : Frame) : list Linha :=
  drop_duplicates [] (astype_str <$> linhas (rename dados_banco)).

(** The reconciliation: what the function returns ([Some true],
    [Some false] after an exception, [None] for the bare [return]) and
    the content of the sheet afterwards. *)
Definition atualizar_planilha_avancado (dados_banco df_excel : Frame)
  : option bool * Frame :=
  if bool_decide (linhas dados_banco = [] ∨ colunas dados_banco = [])
  then (None, df_excel)
  else
    if bool_decide (coluna_ordem ∈ colunas (rename dados_banco)
                    ∧ coluna_ordem ∈ colunas df_excel) then
      let dados_banco_preparados := preparar dados_banco in
      let excel := astype_str <$> linhas df_excel in
      (Some true,
       {| colunas := unir_colunas (colunas df_excel)
                       (colunas (rename dados_banco));
          linhas := sort_values
                      (df_final_de dados_banco_preparados excel) |})
    else (Some false, df_excel).

End Planilha.

(** ** Sample documents and environments, used to run the model *)

Module Amostras.

Definition email (n : Z) (recebido : string) (r : Registro) : Email :=
  {| metadata :=
       {| numero_email := n; assunto := "PROGRAMACAO EXPORTACAO";
          data_recebimento := recebido;
          endereco_email_remetente := "export@example.com";
          processamento_timestamp := "2024-01-03T08:00:00" |};
     dados_exportacao := r |}.

Definition com_ordem (o : string) : Registro :=
  {[ "Ordem" := JStr o; "Navio" := JStr "MSC AURORA" ]}.

(** A clock reading [t] with a write that succeeds. *)
Definition amb_ok (t : Z) : Amb :=
  {| agora := inject_Z t; agora_iso := "2024-01-03T08:00:00";
     escrita := EscritaOk |}.

Definition amb_falha (t : Z) (e : Escrita) : Amb :=
  {| agora := inject_Z t; agora_iso := "2024-01-03T08:00:00";
     escrita := e |}.

Definition doc_A : Email := email 1 "2024-01-01 10:00:00" (com_ordem "ORD1").
Definition doc_B : Email := email 2 "2024-01-02 09:00:00" (com_ordem "ORD1").

End Amostras.

Module AmostrasLote.

Definition chegada (t : Z) (recebido : datetime) (ordem : string)
  : Chegada :=
  {| bruto := {| eb_assunto := "PROGRAMACAO EXPORTACAO";
                 eb_received_time := recebido;
                 eb_remetente := "export@example.com";
                 eb_dados_exportacao := Amostras.com_ordem ordem |};
     amb_salvar := Amostras.amb_ok t;
     amb_sync := Amostras.amb_ok (t + 1) |}.

(** First poll: order X, a later document for X, order Z. *)
Definition lote1 : list Chegada :=
  [chegada 1700000010 (DateTime 2024 1 1 10 0 0) "X";
   chegada 1700000020 (DateTime 2024 1 2 10 0 0) "X";
   chegada 1700000030 (DateTime 2024 1 3 10 0 0) "Z"].

(** Second poll, a minute later: order W. *)
Definition lote2 : list Chegada :=
  [chegada 1700000110 (DateTime 2024 1 4 10 0 0) "W"].

(** Two polling cycles from the empty store and an empty table; the
    permissive date parser and the hash are stand-ins, no date or
    identifier matters to the numbering. *)
Definition apos_dois_ciclos (com_sessao : bool) : Mundo :=
  let c1 := ciclo_monitoramento (fun _ => None) id
              (Amostras.amb_ok 1700000000) (Amostras.amb_ok 1700000000)
              lote1 (if com_sessao then Some [] else None) mundo_inicial in
  mundo_final
    (ciclo_monitoramento (fun _ => None) id
       (Amostras.amb_ok 1700000100) (Amostras.amb_ok 1700000100)
       lote2 (sessao_final c1) (mundo_final c1)).

End AmostrasLote.

(** A sheet and a relational table with string cells: the relational rows
    ORD3 and ORD4 against the sheet rows ORD3 and ORD5. *)
Module AmostrasPlanilha.

Definition linha_banco (ordem navio : string) : gmap string string :=
{[ "ordem" := ordem; "navio" := navio; "id" := ordem ]}.

Definition linha_excel (contrato navio obs : string) : gmap string string :=
{[ "CONTRATO" := contrato; "NAVIO" := navio; "OBS" := obs ]}.

Global Instance celula_texto : CellOps string :=
{| of_str := id; cell_str := id |}.

Definition banco : Frame string :=
{| colunas := ["id"; "ordem"; "navio"];
   linhas := [linha_banco "ORD4" "MSC AURORA";
              linha_banco "ORD3" "MAERSK LIMA"] |}.

Definition excel : Frame string :=
{| colunas := ["CONTRATO"; "NAVIO"; "OBS"];
   linhas := [linha_excel "ORD5" "CMA TIGRIS" "manual";
              linha_excel "ORD3" "?" "pendente"] |}.

Definition reconciliar (b e : Frame string) : option bool * Frame string :=
atualizar_planilha_avancado b e.

End AmostrasPlanilha.

(** ** The first spreadsheet routine (main.py, lines 797-929)

    The nested [def atualizar_planilha_excel_com_banco] holds a docstring
    only; the routine is the code that follows it, which runs at the end
    of [pipeline_principal_otimizada].  It meets a workbook that exists
    and the rows of the relational table. *)

Section PlanilhaSimples.

Context {Cell : Type} `{!CellOps Cell}.
Local Abbreviation Linha := (Linha Cell).
Local Abbreviation Frame := (Frame Cell).

(** The eleven attributes of a relational row the routine reads. *)
Record ItemBanco : Type := {
  it_data_embarque : Cell;
  it_planta_carregamento : Cell;
  it_tipo_embarque : Cell;
  it_temperatura : Cell;
  it_ordem : Cell;
  it_porto_saida : Cell;
  it_porto_chegada : Cell;
  it_companhia : Cell;
  it_navio : Cell;
  it_dline : Cell;
  it_reserva_booking : Cell }.

(** The dict built for an item (lines 826-838). *)
Definition registro_do_item (item : ItemBanco) : Linha :=
  list_to_map
    [("data_embarque", it_data_embarque item);
     ("planta_carregamento", it_planta_carregamento item);
     ("Tipo_de_embarque", it_tipo_embarque item);
     ("Temperatura", it_temperatura item);
     ("ordem", it_ordem item);
     ("porto_saida", it_porto_saida item);
     ("porto_chegada", it_porto_chegada item);
     ("companhia", it_companhia item);
     ("navio", it_navio item);
     ("dline", it_dline item);
     ("reserva_booking", it_reserva_booking item)].

Definition colunas_do_banco : list string :=
  ["data_embarque"; "planta_carregamento"; "Tipo_de_embarque";
   "Temperatura"; "ordem"; "porto_saida"; "porto_chegada"; "companhia";
   "navio"; "dline"; "reserva_booking"].

(** [pd.DataFrame([{...} for item in query])] *)
Definition quadro_do_banco (query : list ItemBanco) : Frame :=
  {| colunas := if bool_decide (query = []) then [] else colunas_do_banco;
     linhas := registro_do_item <$> query |}.

(** [set(df[coluna_ordem].dropna().unique())]; the column holds strings
    by then, none is dropped. *)
Definition ordens_de (rs : list Linha) : gset string :=
  list_to_set (chave_linha <$> rs).

(** [df[df[coluna_ordem].isin(ordens)]] and [df[~df[coluna_ordem].isin(ordens)]]
    for a set of keys. *)
Definition isin_conjunto (ordens : gset string) (rs : list Linha)
  : list Linha :=
  filter (fun r => chave_linha r ∈ ordens) rs.

Definition fora_do_conjunto (ordens : gset string) (rs : list Linha)
  : list Linha :=
  filter (fun r => chave_linha r ∉ ordens) rs.

(** The relational rows as the routine compares them: renamed, the key
    cell a string. *)
Definition linhas_do_banco (query : list ItemBanco) : list Linha :=
  astype_str <$> linhas (rename (quadro_do_banco query)).

(** What the routine returns ([None] for the bare [return]) and the
    content of the sheet afterwards. *)
Definition atualizar_planilha_excel_com_banco (query : list ItemBanco)
    (df_excel : Frame) : option bool * Frame :=
  let dados_banco := quadro_do_banco query in
  if bool_decide (linhas dados_banco = [] ∨ colunas dados_banco = [])
  then (None, df_excel)
  else if bool_decide (coluna_ordem ∉ colunas df_excel)
  then (None, df_excel)
  else
    let dados_banco_renomeado :=
      {| colunas := colunas (rename dados_banco);
         linhas := astype_str <$> linhas (rename dados_banco) |} in
    let df_excel :=
      {| colunas := colunas df_excel;
         linhas := astype_str <$> linhas df_excel |} in
    let ordens_excel := ordens_de (linhas df_excel) in
    let ordens_banco := ordens_de (linhas dados_banco_renomeado) in
    let ordens_para_atualizar := ordens_excel ∩ ordens_banco in
    let ordens_para_adicionar := ordens_banco ∖ ordens_excel in
    let df_excel :=
      if bool_decide (ordens_para_atualizar ≠ ∅) then
        {| colunas := unir_colunas (colunas df_excel)
                        (colunas dados_banco_renomeado);
           linhas := fora_do_conjunto ordens_para_atualizar (linhas df_excel)
                     ++ isin_conjunto ordens_para_atualizar
                          (linhas dados_banco_renomeado) |}
      else df_excel in
    let df_excel :=
      if bool_decide (ordens_para_adicionar ≠ ∅) then
        {| colunas := unir_colunas (colunas df_excel)
                        (colunas dados_banco_renomeado);
           linhas := linhas df_excel
                     ++ isin_conjunto ordens_para_adicionar
                          (linhas dados_banco_renomeado) |}
      else df_excel in
    (Some true, df_excel).

End PlanilhaSimples.

Arguments ItemBanco _ : clear implicits.

(** Relational rows with string cells for the first spreadsheet
    routine. *)
Module AmostrasPlanilhaSimples.

Definition item (ordem navio : string) : ItemBanco string :=
{| it_data_embarque := "2024-01-10"; it_planta_carregamento := "P1";
   it_tipo_embarque := "FCL"; it_temperatura := "-18";
   it_ordem := ordem; it_porto_saida := "SANTOS";
   it_porto_chegada := "ROTTERDAM"; it_companhia := "MSC";
   it_navio := navio; it_dline := "2024-01-05";
   it_reserva_booking := "B1" |}.

Definition query : list (ItemBanco string) :=
[item "ORD4" "MSC AURORA"; item "ORD3" "MAERSK LIMA"].

End AmostrasPlanilhaSimples.

(** ** The callers of the batch processor (main.py, lines 654-791) *)

(** What one poll of the monitoring loop meets: the environment of the
    two loads, and the new documents the mail client hands over. *)
Record Consulta : Type := {
  amb_dados : Amb;
  amb_ordens : Amb;
  novos_emails : list Chegada }.

(** The loop of [monitorar_novos_emails_continuamente] (lines 663-679)
    over the polls of a list: the session table and the process state
    when the polls are over.  An exception of the batch processor leaves
    the loop ([except Exception]).  The checkpoint file of
    [salvar_ultima_verificacao] is not part of the state. *)
Fixpoint monitorar_novos_emails_continuamente
    (dateutil_parse : string -> option date)
    (md5_hexdigest : string -> string) (consultas : list Consulta)
    (session_db : option (list ExportacaoDB)) (w : Mundo)
  : option (list ExportacaoDB) * Mundo :=
  match consultas with
  | [] => (session_db, w)
  | c :: consultas' =>
      let '(dados_existentes, w) :=
        carregar_json_existente_rapido (amb_dados c) w in
      let '(ordens_unicas, w) :=
        obter_ordens_unicas_existentes_rapido (amb_ordens c) w in
      if bool_decide (novos_emails c = []) then
        monitorar_novos_emails_continuamente dateutil_parse md5_hexdigest
          consultas' session_db w
      else
        let l := processar_lote_emails dateutil_parse md5_hexdigest
                   (novos_emails c) dados_existentes ordens_unicas
                   session_db w in
        match contadores l with
        | Some _ =>
            monitorar_novos_emails_continuamente dateutil_parse md5_hexdigest
              consultas' (sessao_final l) (mundo_final l)
        | None => (sessao_final l, mundo_final l)
        end
  end.

(** [range(0, stop, step)] for a positive step. *)
Definition py_range (stop step : nat) : list nat :=
  (fun j => (j * step)%nat) <$> seq 0 ((stop + step - 1) / step).

(** Lines 748-749:
    [[emails[i:i + tamanho_lote] for i in range(0, len(emails), tamanho_lote)]] *)
Definition lotes {A : Type} (tamanho_lote : nat) (emails : list A)
  : list (list A) :=
  (fun i => take tamanho_lote (drop i emails))
  <$> py_range (length emails) tamanho_lote.

Definition tamanho_lote : nat := 5.

(** What the single run leaves: the three totals ([None] when an
    exception left the loop, or when there was no document and the run
    returned before reading the key set, which is then empty here), the
    key set, the session table and the process state. *)
Record Execucao : Type := {
  totais : option Contadores;
  ordens_da_execucao : gset string;
  sessao_da_execucao : option (list ExportacaoDB);
  mundo_da_execucao : Mundo }.

(** The loop of lines 751-767 from the lot numbered [i]; [amb_recarga]
    gives the environment of the load that follows each lot.  The key set
    is the one object the saves mutate. *)
Fixpoint processar_lotes
    (dateutil_parse : string -> option date)
    (md5_hexdigest : string -> string) (amb_recarga : nat -> Amb)
    (i : nat) (ls : list (list Chegada)) (dados_existentes : nat)
    (ordens_unicas : gset string)
    (session_db : option (list ExportacaoDB)) (t : Contadores) (w : Mundo)
  : Execucao :=
  match ls with
  | [] => {| totais := Some t; ordens_da_execucao := ordens_unicas;
             sessao_da_execucao := session_db; mundo_da_execucao := w |}
  | lote :: ls' =>
      let l := processar_lote_emails dateutil_parse md5_hexdigest lote
                 dados_existentes ordens_unicas session_db w in
      match contadores l with
      | None => {| totais := None; ordens_da_execucao := ordens_finais l;
                   sessao_da_execucao := sessao_final l;
                   mundo_da_execucao := mundo_final l |}
      | Some c =>
          let t := {| emails_processados :=
                        emails_processados t + emails_processados c;
                      emails_duplicados :=
                        emails_duplicados t + emails_duplicados c;
                      emails_atualizados :=
                        emails_atualizados t + emails_atualizados c |} in
          let '(dados_existentes, w) :=
            carregar_json_existente_rapido (amb_recarga i) (mundo_final l) in
          processar_lotes dateutil_parse md5_hexdigest amb_recarga (S i) ls'
            dados_existentes (ordens_finais l) (sessao_final l) t w
      end
  end.

(** The environment of a single run. *)
Record AmbExecucao : Type := {
  amb_sync_inicial : Amb;
  amb_carga : Amb;
  amb_chaves : Amb;
  amb_recarga : nat -> Amb;
  amb_final : Amb }.

(** The single run of [pipeline_principal_otimizada] (lines 716-778, with
    a mail client at hand and [modo_monitoramento] false) on the documents
    the mail client hands over. *)
Definition pipeline_principal_otimizada
    (dateutil_parse : string -> option date)
    (md5_hexdigest : string -> string) (amb : AmbExecucao)
    (emails : list Chegada) (session_db : option (list ExportacaoDB))
    (w : Mundo) : Execucao :=
  let '(session_db, w) :=
    match session_db with
    | Some tabela =>
        let '((_, tabela), w) :=
          sincronizar_json_para_banco dateutil_parse md5_hexdigest
            (amb_sync_inicial amb) w tabela in
        (Some tabela, w)
    | None => (None, w)
    end in
  if bool_decide (emails = []) then
    {| totais := None; ordens_da_execucao := ∅;
       sessao_da_execucao := session_db; mundo_da_execucao := w |}
  else
    let '(dados_existentes, w) :=
      carregar_json_existente_rapido (amb_carga amb) w in
    let '(ordens_unicas, w) :=
      obter_ordens_unicas_existentes_rapido (amb_chaves amb) w in
    let r := processar_lotes dateutil_parse md5_hexdigest (amb_recarga amb)
               1 (lotes tamanho_lote emails) dados_existentes ordens_unicas
               session_db
               {| emails_processados := 0; emails_duplicados := 0;
                  emails_atualizados := 0 |} w in
    match totais r with
    | None => r
    | Some t =>
        let '(_, w) :=
          carregar_json_existente_rapido (amb_final amb)
            (mundo_da_execucao r) in
        {| totais := Some t; ordens_da_execucao := ordens_da_execucao r;
           sessao_da_execucao := sessao_da_execucao r;
           mundo_da_execucao := w |}
    end.

(** Sample polls and a sample single run over the documents of
    [AmostrasLote]. *)
Module AmostrasExecucao.

Definition consultas : list Consulta :=
  [{| amb_dados := Amostras.amb_ok 1700000000;
      amb_ordens := Amostras.amb_ok 1700000000;
      novos_emails := AmostrasLote.lote1 |};
   {| amb_dados := Amostras.amb_ok 1700000100;
      amb_ordens := Amostras.amb_ok 1700000100;
      novos_emails := AmostrasLote.lote2 |}].

Definition amb : AmbExecucao :=
  {| amb_sync_inicial := Amostras.amb_ok 1700000000;
     amb_carga := Amostras.amb_ok 1700000001;
     amb_chaves := Amostras.amb_ok 1700000002;
     amb_recarga := fun i => Amostras.amb_ok (1700000100 + Z.of_nat i);
     amb_final := Amostras.amb_ok 1700000200 |}.

(** Six documents: two lots. *)
Definition emails : list Chegada := AmostrasLote.lote1 ++ AmostrasLote.lote1.

End AmostrasExecucao.

(** ** Further notions the statements use *)

(** A run made of saves only. *)
Definition salvamentos (docs : list (Amb * Email)) : list Acao :=
  (fun p => Salvar p.1 p.2) <$> docs.

(** A date written year first, [YYYY-MM-DD], day first, [DD/MM/YYYY],
    and month first, [MM/DD/YYYY]. *)
Definition texto_iso (d : date) : string :=
  quatro_digitos (d_year d) (String "-"
    (dois_digitos (d_month d) (String "-"
      (dois_digitos (d_day d) EmptyString)))).

Definition texto_dia_mes_ano (d : date) : string :=
  dois_digitos (d_day d) (String "/"
    (dois_digitos (d_month d) (String "/"
      (quatro_digitos (d_year d) EmptyString)))).

Definition texto_mes_dia_ano (d : date) : string :=
  dois_digitos (d_month d) (String "/"
    (dois_digitos (d_day d) (String "/"
      (quatro_digitos (d_year d) EmptyString)))).

(** The text [converter_para_decimal] hands to [float]: the digits and
    commas of the input, the commas turned into points (lines 434-435). *)
Definition valor_limpo (s : string) : string :=
  PyStrOps.map (fun c => if bool_decide (c = ","%char) then "."%char else c)
    (PyStrOps.filter
       (fun c => PyStr.isdigit c || bool_decide (c = ","%char)) s).

(** The decimal digits of a text. *)
Definition so_digitos (s : string) : string :=
  PyStrOps.filter PyStr.isdigit s.

(** The identity of a relational row: its primary key and its order. *)
Definition id_e_ordem (r : ExportacaoDB) : string * string :=
  (db_id r, db_ordem r).

(** A record whose values are all strings.  The relational sync hands a
    record's values to the text columns as they are; for a string the
    column stores that very string. *)
Definition e_texto (v : JVal) : bool :=
  match v with JStr _ => true | _ => false end.

Definition so_textos (r : Registro) : bool :=
  forallb (fun p : string * JVal => e_texto p.2) (map_to_list r).

(** The string a record has under a name, the empty string without one. *)
Definition texto_de (r : Registro) (nome : string) : string :=
  match r !! nome with
  | Some (JStr s) => s
  | _ => ""
  end.

(** The twelve text columns of a row other than its identifier and its
    order, in the order of the table, and the record keys the relational
    sync fills them from (lines 499-511 and 520-534). *)
Definition colunas_de_texto (row : ExportacaoDB) : list JVal :=
  [db_planta_carregamento row; db_tipo_embarque row; db_temperatura row;
   db_porto_saida row; db_porto_chegada row; db_companhia row;
   db_navio row; db_dline row; db_reserva_booking row;
   db_id_autorizacao row; db_resumo_embarque row;
   db_transportador_ter row].

Definition campos_de_texto : list string :=
  ["planta_carregamento"; "Tipo_de_embarque"; "Temperatura";
   "Porto_de_saida"; "Porto_de_chegada"; "Companhia"; "Navio"; "DLine";
   "Reserva_(Booking)"; chave_id_autorizacao; "Resumo_embarque";
   "Transportador_Ter"].

(** A table after an operation, against the table before: the rows it
    had are still there with their primary key and their order, in their
    place; and distinct orders and distinct primary keys stay distinct. *)
Definition tabela_conservada (t t' : list ExportacaoDB) : Prop :=
  (id_e_ordem <$> t) `prefix_of` (id_e_ordem <$> t')
  ∧ (NoDup (db_ordem <$> t) → NoDup (db_ordem <$> t'))
  ∧ (NoDup (db_id <$> t) → NoDup (db_id <$> t')).

(** The session of a caller: none stays none, a table is conserved. *)
Definition sessao_conservada (s s' : option (list ExportacaoDB)) : Prop :=
  match s with
  | Some t => ∃ t', s' = Some t' ∧ tabela_conservada t t'
  | None => s' = None
  end.

(** The object at address [a0] holds [d0], is not the one the cache
    holds, and lies among the allocated ones: no save reaches it. *)
Definition intocado (a0 : nat) (d0 : Dados) (w : Mundo) : Prop :=
  json_cache w ≠ Some a0 ∧ (a0 < prox w)%nat ∧ heap w !! a0 = Some d0.

(** The state of a run of saves whose writes all succeed: nothing has been
    written yet, or file and cache agree on a snapshot whose key list and
    stored keys are the caller's key set. *)
Definition em_dia (ordens : gset string) (w : Mundo) : Prop :=
  (w = mundo_inicial ∧ ordens = ∅)
  ∨ (∃ d, coerente w d
          ∧ NoDup (ordens_unicas (store_metadata d))
          ∧ list_to_set (ordens_unicas (store_metadata d)) = ordens
          ∧ list_to_set (chaves (emails d)) = ordens).

(** ** The workbook between two runs (main.py, lines 963-965 and 1019-1022)

    [atualizar_planilha_avancado] takes no argument: every run reads the
    sheet with [pd.read_excel], without [dtype], and ends by writing it
    with [to_excel].  A second run therefore works on the sheet the first
    one wrote, as pandas reads it back, and pandas infers the type of each
    column anew: a column whose cells all read as integers comes back as
    integers, whatever the cells were when written.
    [read_excel_de_volta] is that round trip on the columns whose outcome
    is certain, and [None] on every other sheet. *)

(** A cell that is a [str] or an integer; a missing value (NaN, None) is
    the absence of the cell from its row. *)
Inductive Celula : Type :=
| Texto (s : string)
| Inteiro (n : Z).

Global Instance Celula_eq_dec : EqDecision Celula.
Proof. solve_decision. Defined.

Global Instance celula_de_planilha : CellOps Celula :=
{| of_str := Texto;
   cell_str := fun c => match c with
                        | Texto s => s
                        | Inteiro n => pretty n
                        end |}.

(** A run of one to eighteen decimal digits: pandas reads it as an
    integer, and it fits [int64]. *)
Definition texto_inteiro (s : string) : bool :=
  PyStr.truthy s && PyStrOps.forallb PyStr.isdigit s
  && bool_decide (String.length s ≤ 18)%nat.

(** Characters that occur in no number, in no boolean word and in none of
    the markers pandas reads as a missing value. *)
Definition caractere_de_texto (c : ascii) : bool :=
  bool_decide (PyStr.lower c ∈ list_ascii_of_string "bcghkmpvwz:").

(** A text with such a character stays the text it is. *)
Definition texto_certo (s : string) : bool :=
  PyStrOps.existsb caractere_de_texto s.

Inductive Leitura : Type := ComoInteiros | ComoTextos.

Definition celula_inteira (c : option Celula) : bool :=
  match c with
  | Some (Texto s) => texto_inteiro s
  | Some (Inteiro n) => bool_decide (- 2 ^ 63 ≤ n < 2 ^ 63)
  | None => false
  end.

Definition celula_textual (c : option Celula) : bool :=
  match c with
  | Some (Texto s) => negb (PyStr.truthy s) || texto_certo s
  | Some (Inteiro _) => false
  | None => true
  end.

(** How a column is read back: as integers when there is a row and every
    cell is an integer or a run of digits; as texts when every cell is
    missing, empty or a text that cannot be taken for anything else. *)
Definition leitura_da_coluna (rs : list (Linha Celula)) (c : string)
  : option Leitura :=
  let celulas := (fun r : Linha Celula => r !! c) <$> rs in
  if negb (bool_decide (rs = [])) && forallb celula_inteira celulas
  then Some ComoInteiros
  else if forallb celula_textual celulas then Some ComoTextos
  else None.

(** The cell read back; the empty string is read as a missing value. *)
Definition reler_celula (k : Leitura) (c : Celula) : option Celula :=
  match k, c with
  | ComoInteiros, Texto s => Some (Inteiro (PyStrOps.valor s))
  | ComoInteiros, Inteiro n => Some (Inteiro n)
  | ComoTextos, Texto s => if PyStr.truthy s then Some (Texto s) else None
  | ComoTextos, Inteiro _ => None
  end.

Definition reler_linha (leituras : list (string * Leitura))
    (r : Linha Celula) : Linha Celula :=
  list_to_map
    (omap (fun p : string * Leitura =>
             (fun v => (p.1, v)) <$> (r !! p.1 ≫= reler_celula p.2))
       leituras).

(** [pd.read_excel] of the sheet [df_final.to_excel(..., index=False)]
    wrote. *)
Definition read_excel_de_volta (f : Frame Celula) : option (Frame Celula) :=
  if bool_decide (NoDup (colunas f)) then
    leituras ← mapM (leitura_da_coluna (linhas f)) (colunas f);
    Some {| colunas := colunas f;
            linhas := reler_linha (zip (colunas f) leituras)
                      <$> linhas f |}
  else None.

(** A further run of the routine, on the sheet the run before wrote. *)
Definition nova_execucao (dados_banco escrita : Frame Celula)
  : option (option bool * Frame Celula) :=
  atualizar_planilha_avancado dados_banco <$> read_excel_de_volta escrita.

(** What a run returned and the keys of the sheet it left, in order. *)
Definition resumo (r : option bool * Frame Celula)
  : option bool * list string :=
  (r.1, chave_linha <$> linhas r.2).

(** Three runs in a row over the same table, each on the sheet the run
    before wrote. *)
Definition tres_execucoes (dados_banco df_excel : Frame Celula)
  : option (list (option bool * list string)) :=
  let r1 := atualizar_planilha_avancado dados_banco df_excel in
  r2 ← nova_execucao dados_banco r1.2;
  r3 ← nova_execucao dados_banco r2.2;
  Some [resumo r1; resumo r2; resumo r3].

(** The columns of [SELECT * FROM dbCONTAINER], in the order of the class
    [ExportacaoDB] (lines 34-53). *)
Definition colunas_da_tabela : list string :=
  ["id"; "data_embarque"; "planta_carregamento"; "tipo_embarque";
   "temperatura"; "ordem"; "porto_saida"; "porto_chegada"; "companhia";
   "navio"; "dline"; "reserva_booking"; "id_autorizacao";
   "resumo_embarque"; "transportador_ter"; "eta"; "valor_pedido";
   "data_processamento"; "data_atualizacao"].

(** The table as [pd.read_sql] returns it, for rows the relational sync
    inserted from records that carry an order and a ship only: the other
    text columns hold the empty string, the date and amount columns are
    NULL. *)
Module AmostrasReleitura.

Definition linha_sql (id ordem navio : string) : Linha Celula :=
list_to_map
  [("id", Texto id); ("planta_carregamento", Texto "");
   ("tipo_embarque", Texto ""); ("temperatura", Texto "");
   ("ordem", Texto ordem); ("porto_saida", Texto "");
   ("porto_chegada", Texto ""); ("companhia", Texto "");
   ("navio", Texto navio); ("dline", Texto "");
   ("reserva_booking", Texto ""); ("id_autorizacao", Texto "");
   ("resumo_embarque", Texto ""); ("transportador_ter", Texto "");
   ("data_processamento", Texto "2024-01-03 08:00:00.000000");
   ("data_atualizacao", Texto "2024-01-03 08:00:00.000000")].

(** The orders "007" and "0010"; the identifiers are their MD5 digests. *)
Definition banco : Frame Celula :=
{| colunas := colunas_da_tabela;
   linhas := [linha_sql "9e94b15ed312fa42232fd87a55db0d39" "007"
                "MSC AURORA";
              linha_sql "fc1198178c3594bfdda3ca2996eb65cb" "0010"
                "MAERSK LIMA"] |}.

(** A sheet with its header row only. *)
Definition planilha : Frame Celula :=
{| colunas := ["CONTRATO"; "NAVIO"]; linhas := [] |}.

End AmostrasReleitura.

(** The table of [AmostrasPlanilhaSimples.query] as [SELECT *] returns
    it, with string cells; the arrival date and the amount are NULL. *)
Module AmostrasDuasVisoes.

Definition linha_sql (id ordem navio : string) : gmap string string :=
list_to_map
  [("id", id); ("data_embarque", "2024-01-10");
   ("planta_carregamento", "P1"); ("tipo_embarque", "FCL");
   ("temperatura", "-18"); ("ordem", ordem); ("porto_saida", "SANTOS");
   ("porto_chegada", "ROTTERDAM"); ("companhia", "MSC");
   ("navio", navio); ("dline", "2024-01-05");
   ("reserva_booking", "B1"); ("id_autorizacao", "");
   ("resumo_embarque", ""); ("transportador_ter", "");
   ("data_processamento", "2024-01-03 08:00:00.000000");
   ("data_atualizacao", "2024-01-03 08:00:00.000000")].

Definition tabela : Frame string :=
{| colunas := colunas_da_tabela;
   linhas := [linha_sql "1dd153e8dcaabebc1079551386d6c827" "ORD4"
                "MSC AURORA";
              linha_sql "fc234f6a24a4900316ce25bbd7d7483a" "ORD3"
                "MAERSK LIMA"] |}.

End AmostrasDuasVisoes.

(** * Properties *)

(** ** The invariants are preserved *)

Lemma elem_of_chaves k (es : list Email) :
  k ∈ chaves es ↔ k ≠ "" ∧ ∃ e, e ∈ es ∧ chave e = Some k.
Proof.
  unfold chaves. rewrite list_elem_of_filter, list_elem_of_omap. tauto.
Qed.

Lemma truthy_iff (s : string) : PyStr.truthy s = true ↔ s ≠ "".
Proof. destruct s; simpl; split; congruence. Qed.

Lemma bem_formado_troca ordens ordens' d :
  (∀ k, k ∈ chaves (emails d) → k ∈ ordens') →
  bem_formado ordens d → bem_formado ordens' d.
Proof. intros Hsub [H1 H2 H3 H4 H5]. by split. Qed.

Lemma bem_formado_mono ordens ordens' d :
  ordens ⊆ ordens' → bem_formado ordens d → bem_formado ordens' d.
Proof.
  intros Hsub Hbf. eapply bem_formado_troca; [|exact Hbf].
  intros k Hk. apply Hsub. by eapply bf_ordens.
Qed.

Lemma inv_mono ordens ordens' w :
  ordens ⊆ ordens' → inv ordens w → inv ordens' w.
Proof.
  intros Hsub [H1 H2]. split.
  - intros l Hl. destruct (H1 l Hl) as (d & Hd & Hbf & Hx).
    exists d. split_and!; [done| |done]. by eapply bem_formado_mono.
  - intros d Hd. eapply bem_formado_mono; eauto.
Qed.

Lemma bem_formado_empty ordens iso : bem_formado ordens (empty_data iso).
Proof.
  split; simpl; try done; try constructor;
    intros k Hk; by apply elem_of_nil in Hk.
Qed.

Lemma inv_inicial : inv ∅ mundo_inicial.
Proof. split; simpl; [intros l Hl|intros d Hd]; discriminate. Qed.

Lemma alocar_spec d w l w' :
  alocar d w = (l, w') →
  l = prox w ∧ heap w' = <[l := d]> (heap w) ∧ json_cache w' = Some l
  ∧ arquivo w' = arquivo w ∧ json_cache_time w' = json_cache_time w
  ∧ prox w' = S (prox w).
Proof. unfold alocar. intros [= <- <-]. by simpl. Qed.

(** What a load returns: the cached object, a copy of the file, or a
    fresh empty snapshot. *)
Lemma carregar_spec amb w l w' :
  carregar_json_existente_rapido amb w = (l, w') →
  json_cache w' = Some l ∧ arquivo w' = arquivo w ∧
  ((w' = w ∧ json_cache w = Some l)
   ∨ (l = prox w ∧ ∃ d, heap w' = <[l := d]> (heap w)
      ∧ prox w' = S (prox w)
      ∧ (arquivo w = Conteudo d
         ∨ (d = empty_data (agora_iso amb)
            ∧ ∀ d', arquivo w ≠ Conteudo d')))).
Proof.
  unfold carregar_json_existente_rapido.
  set (rec := match arquivo w with
              | Conteudo d => _ | Ausente | Truncado => _ end).
  assert (Hrec : rec = (l, w') →
    json_cache w' = Some l ∧ arquivo w' = arquivo w ∧
    l = prox w ∧ ∃ d, heap w' = <[l := d]> (heap w)
      ∧ prox w' = S (prox w)
      ∧ (arquivo w = Conteudo d
         ∨ (d = empty_data (agora_iso amb)
            ∧ ∀ d', arquivo w ≠ Conteudo d'))).
  { subst rec. destruct (arquivo w) as [|d|] eqn:Ha; simpl.
    - intros [= <- <-]. simpl. rewrite Ha. split_and!; try done.
      eexists. split_and!; try done. right. by split.
    - intros [= <- <-]. simpl. split_and!; try done.
      eexists. split_and!; try done. by left.
    - intros [= <- <-]. simpl. rewrite Ha. split_and!; try done.
      eexists. split_and!; try done. right. by split. }
  destruct (json_cache w) as [l0|] eqn:Hc.
  - destruct (negb _).
    + intros [= <- <-]. split_and!; try done. left. done.
    + intros H. destruct (Hrec H) as (?&?&?&?). split_and!; try done.
      right. done.
  - intros H. destruct (Hrec H) as (?&?&?&?). split_and!; try done.
    right. done.
Qed.

(** A load preserves the invariant and returns the address of the cached
    snapshot, which is well formed. *)
Lemma carregar_inv ordens amb w l w' :
  inv ordens w →
  carregar_json_existente_rapido amb w = (l, w') →
  inv ordens w' ∧ json_cache w' = Some l
  ∧ ∃ d, heap w' !! l = Some d ∧ bem_formado ordens d.
Proof.
  intros Hinv Hc. destruct (carregar_spec _ _ _ _ Hc) as (Hcache & Harq & H).
  destruct H as [[-> Hl] | (-> & d & Hh & Hp & Hd)].
  - split; [done|]. split; [done|].
    destruct (inv_cache _ _ Hinv _ Hl) as (d & Hd & Hbf & _). eauto.
  - assert (bem_formado ordens d) as Hbf.
    { destruct Hd as [Hd | [-> _]].
      - by eapply inv_arquivo.
      - apply bem_formado_empty. }
    assert (heap w' !! prox w = Some d) as Hl
      by (rewrite Hh; apply lookup_insert_eq).
    split; [|eauto]. split.
    + intros l. rewrite Hcache. intros [= <-].
      exists d. split_and!; [done..|].
      intros f k. rewrite Harq. intros Hf Hk.
      destruct Hd as [Hd | [_ Hd]]; [|by destruct (Hd f)].
      assert (f = d) as -> by congruence. by apply (bf_lista ordens).
    + rewrite Harq. by apply inv_arquivo.
Qed.

Lemma encontrar_desde_Some (i : nat) (es : list Email) k j e :
  encontrar_desde i es k = Some (Some (j, e)) →
  ∃ n, j = (i + n)%nat ∧ es !! n = Some e ∧ chave e = Some k.
Proof.
  revert i. induction es as [|x es IH]; intros i; simpl; [done|].
  destruct (ordem_de (dados_exportacao x)) as [o|] eqn:Ho; simpl; [|done].
  case_bool_decide as Hk.
  - intros [= <- <-]. exists 0%nat. split; [lia|]. split; [done|].
    unfold chave. by rewrite Ho, Hk.
  - intros H. destruct (IH _ H) as (n & -> & Hn & He).
    exists (S n). split; [lia|]. done.
Qed.

Lemma encontrar_desde_None i es k :
  encontrar_desde i es k = Some None →
  Forall (fun e => chave e ≠ Some k) es.
Proof.
  revert i. induction es as [|x es IH]; intros i; simpl; [constructor|].
  destruct (ordem_de (dados_exportacao x)) as [o|] eqn:Ho; simpl; [|done].
  case_bool_decide as Hk; [done|].
  intros H. constructor; [|by eapply IH].
  unfold chave. rewrite Ho. congruence.
Qed.

Lemma encontrar_desde_total i es k :
  Forall (fun e => is_Some (chave e)) es →
  is_Some (encontrar_desde i es k).
Proof.
  revert i. induction es as [|x es IH]; intros i; simpl; [eauto|].
  intros H. apply Forall_cons in H as [[o Ho] H]. unfold chave in Ho.
  rewrite Ho. simpl. case_bool_decide; eauto.
Qed.

Lemma omap_chave_insert (es : list Email) (i : nat) ex email :
  es !! i = Some ex → chave ex = chave email →
  omap chave (<[i := email]> es) = omap chave es.
Proof.
  revert i. induction es as [|x es IH]; intros [|i] Hi He;
    simplify_eq/=; [by rewrite He|].
  by rewrite (IH i).
Qed.

Lemma substituir_bem_formado ordens iso i email d ex k :
  bem_formado ordens d →
  emails d !! i = Some ex → chave ex = Some k → chave email = Some k →
  bem_formado ordens (substituir_email iso i email d).
Proof.
  intros [H1 H2 H3 H4 H5] Hi Hex Hem.
  assert (chaves (<[i := email]> (emails d)) = chaves (emails d)) as Hch.
  { unfold chaves. rewrite (omap_chave_insert _ _ ex); [done..|congruence]. }
  split; simpl; rewrite ?Hch; try done.
  - apply Forall_insert; [done|]. rewrite Hem. eauto.
  - by rewrite length_insert.
Qed.

Lemma chaves_app_um (es : list Email) email k :
  chave email = Some k →
  chaves (es ++ [email]) = chaves es ++ (if decide (k = "") then [] else [k]).
Proof.
  intros Hk. unfold chaves. rewrite omap_app, filter_app. simpl.
  rewrite Hk. simpl. destruct (decide (k = "")) as [->|Hne].
  - by rewrite filter_cons_False by (intros ?; done).
  - by rewrite filter_cons_True by done.
Qed.

Lemma acrescentar_bem_formado ordens iso email k d :
  bem_formado ordens d → chave email = Some k →
  PyStr.truthy k && bool_decide (k ∈ ordens) = false →
  bem_formado (ordens_apos k ordens)
    (acrescentar_email iso email k ordens d).
Proof.
  intros [H1 H2 H3 H4 H5] Hk Hb.
  assert (∀ k', k' ∈ chaves (emails d ++ [email]) →
                k' ∈ ordens_apos k ordens) as Hin.
  { intros k'. rewrite (chaves_app_um _ _ k Hk), elem_of_app.
    unfold ordens_apos. intros [Hk'|Hk'].
    - apply H2 in Hk'. destruct (PyStr.truthy k); set_solver.
    - destruct (decide (k = "")) as [->|Hne];
        [by apply elem_of_nil in Hk'|].
      apply list_elem_of_singleton in Hk' as ->.
      rewrite (proj2 (truthy_iff k) Hne). set_solver. }
  split; simpl.
  - apply Forall_app. split; [done|]. constructor; [|constructor].
    rewrite Hk. eauto.
  - exact Hin.
  - intros k' Hk'. destruct (PyStr.truthy k) eqn:Ht; simpl.
    + apply elem_of_elements. by apply Hin.
    + assert (k = "") as ->.
      { destruct (decide (k = "")) as [|Hne]; [done|].
        apply truthy_iff in Hne. congruence. }
      rewrite (chaves_app_um _ _ "" Hk), app_nil_r in Hk'. by apply H3.
  - rewrite (chaves_app_um _ _ k Hk).
    destruct (decide (k = "")) as [->|Hne]; [by rewrite app_nil_r|].
    apply NoDup_app. split; [done|]. split; [|apply NoDup_singleton].
    intros k' Hk' ->%list_elem_of_singleton. apply H2 in Hk'.
    rewrite (proj2 (truthy_iff k) Hne) in Hb. simpl in Hb.
    by apply bool_decide_eq_false in Hb.
  - done.
Qed.

(** The object at the address of the cache is replaced by a well-formed
    snapshot whose key list covers the keys of the file, then written. *)
Lemma persistir_inv amb l dados ordens w r w' :
  inv ordens w → json_cache w = Some l → bem_formado ordens dados →
  (∀ f k, arquivo w = Conteudo f → k ∈ chaves (emails f) →
          k ∈ ordens_unicas (store_metadata dados)) →
  persistir amb l dados ordens w = (r, w') →
  r.2 = ordens ∧ inv ordens w'.
Proof.
  intros [H1 H2] Hc Hbf Hx. unfold persistir, gravar.
  destruct (escrita amb); simpl; intros [= <- <-]; simpl;
    (split; [done|]); split; simpl.
  - intros l' [= <-]. exists dados. rewrite lookup_insert_eq.
    split_and!; [done..|]. intros f k [= <-]. by apply (bf_lista ordens).
  - intros d [= <-]. done.
  - intros l'. rewrite Hc. intros [= <-]. exists dados.
    rewrite lookup_insert_eq. done.
  - done.
  - intros l'. rewrite Hc. intros [= <-]. exists dados.
    rewrite lookup_insert_eq. split_and!; [done..|]. intros f k [=].
  - intros d [=].
Qed.

Lemma ordens_apos_sub k ordens : ordens ⊆ ordens_apos k ordens.
Proof. unfold ordens_apos. destruct (PyStr.truthy k); set_solver. Qed.

(** The save operation preserves the invariant, whatever the clock and
    the outcome of the write. *)
Lemma salvar_inv amb email ordens w ok ordens' w' :
  inv ordens w →
  salvar_json_incremental_rapido amb email ordens w = ((ok, ordens'), w') →
  ordens ⊆ ordens' ∧ inv ordens' w'.
Proof.
  intros Hinv. unfold salvar_json_incremental_rapido.
  destruct (ordem_de (dados_exportacao email)) as [k|] eqn:Hk;
    [|by intros [= <- <- <-]].
  destruct (carregar_json_existente_rapido amb w) as [l w1] eqn:Hc.
  destruct (carregar_inv _ _ _ _ _ Hinv Hc) as (Hinv1 & Hc1 & d & Hd & Hbf).
  destruct (inv_cache _ _ Hinv1 _ Hc1) as (d' & Hd' & _ & Hx).
  assert (d' = d) as -> by congruence.
  rewrite Hd.
  destruct (PyStr.truthy k && bool_decide (k ∈ ordens)) eqn:Hb.
  - destruct (encontrar_email_por_ordem d k) as [[[i ex]|]|] eqn:He;
      try by intros [= <- <- <-].
    destruct (comparar_datas_email _ _); [|by intros [= <- <- <-]].
    intros Hp. apply encontrar_desde_Some in He as (n & -> & Hn & Hex).
    eapply persistir_inv in Hp as [Ho Hi]; simpl in *; subst;
      [done|done|done| |].
    + by eapply substituir_bem_formado.
    + simpl. exact Hx.
  - intros Hp. pose proof (ordens_apos_sub k ordens) as Hsub.
    eapply persistir_inv in Hp as [Ho Hi]; simpl in *; subst;
      [done| |done| |].
    + by eapply inv_mono.
    + by eapply acrescentar_bem_formado.
    + intros f k' Hf Hk'. simpl.
      destruct (PyStr.truthy k) eqn:Ht; simpl; [|by eapply Hx].
      apply elem_of_elements, Hsub.
      eapply bf_ordens; [by eapply (inv_arquivo _ _ Hinv1)|done].
Qed.

(** Reading the key set again from the store preserves the invariant. *)
Lemma recarregar_inv amb ordens w ordens' w' :
  inv ordens w →
  obter_ordens_unicas_existentes_rapido amb w = (ordens', w') →
  inv ordens' w'.
Proof.
  intros Hinv. unfold obter_ordens_unicas_existentes_rapido.
  destruct (carregar_json_existente_rapido amb w) as [l w1] eqn:Hc.
  destruct (carregar_inv _ _ _ _ _ Hinv Hc) as (Hinv1 & Hc1 & d & Hd & Hbf).
  rewrite Hd. intros [= <- <-].
  destruct (inv_cache _ _ Hinv1 _ Hc1) as (d' & Hd' & _ & Hx).
  assert (d' = d) as -> by congruence.
  split.
  - intros l'. rewrite Hc1. intros [= <-]. exists d.
    split_and!; [done| |done].
    eapply bem_formado_troca; [|exact Hbf].
    intros k Hk. apply elem_of_list_to_set. by apply (bf_lista ordens).
  - intros f Hf. eapply bem_formado_troca; [|by eapply inv_arquivo].
    intros k Hk. apply elem_of_list_to_set. by eapply Hx.
Qed.

Lemma executar_inv acoes ordens w :
  inv ordens w →
  inv (executar acoes ordens w).1 (executar acoes ordens w).2.
Proof.
  revert ordens w. induction acoes as [|[amb email|amb] acoes IH];
    intros ordens w Hi; simpl; [done| |].
  - destruct (salvar_json_incremental_rapido amb email ordens w)
      as [[ok ordens'] w'] eqn:Hs.
    apply IH. by eapply salvar_inv.
  - destruct (obter_ordens_unicas_existentes_rapido amb w)
      as [ordens' w'] eqn:Hs.
    apply IH. by eapply recarregar_inv.
Qed.

(** ** Parsing what [strftime] prints *)

Lemma head_bind {A B} (l l' : list A) (k : A → list B) (x : A) (y : B) :
  l = x :: l' → head (k x) = Some y → head (l ≫= k) = Some y.
Proof.
  intros -> Hk. simpl. destruct (k x); simpl in *; [done|congruence].
Qed.

(** Case analysis on an integer between 0 and [hi]. *)
Tactic Notation "enumerar" ident(n) integer(hi) tactic3(tac) :=
  let k := fresh "k" in
  let Hk := fresh "Hk" in
  assert (∃ k : nat, n = Z.of_nat k) as [k Hk]
    by (exists (Z.to_nat n); lia);
  subst n;
  do hi (destruct k as [|k]; [tac|]); lia.

Lemma digito_props (a : Z) :
  0 ≤ a ≤ 9 →
  PyStr.isdigit (digito a) = true ∧ PyStr.isspace (digito a) = false
  ∧ PyStr.digit_value (digito a) = a.
Proof. intros H. enumerar a 10 (by cbv). Qed.

Definition no_intervalo (f : campo) (n : Z) : bool :=
  match f with
  | Fm => (1 <=? n) && (n <=? 12)
  | Fd => (1 <=? n) && (n <=? 31)
  | FH => (0 <=? n) && (n <=? 23)
  | FM | FS => (0 <=? n) && (n <=? 59)
  | _ => false
  end.

Lemma rmatch_dois (f : campo) (n : Z) (rest : string) :
  no_intervalo f n = true →
  ∃ o, rmatch (Strptime.re_of f) (dois_digitos n rest) = rest :: o.
Proof.
  intros H. destruct f; try discriminate; unfold no_intervalo in H;
    apply andb_true_iff in H as [H1%Z.leb_le H2%Z.leb_le].
  - enumerar n 13 (first [lia | eexists; cbv; reflexivity]).
  - enumerar n 32 (first [lia | eexists; cbv; reflexivity]).
  - enumerar n 24 (first [lia | eexists; cbv; reflexivity]).
  - enumerar n 60 (first [lia | eexists; cbv; reflexivity]).
  - enumerar n 60 (first [lia | eexists; cbv; reflexivity]).
Qed.

Lemma int_dois (n : Z) :
  0 ≤ n ≤ 59 → PyStr.int (dois_digitos n EmptyString) = Some n.
Proof. intros H. enumerar n 60 (by cbv). Qed.

Lemma substring_0_0 (s : string) : substring 0 0 s = EmptyString.
Proof. by destruct s. Qed.

Lemma consumed_dois (n : Z) (rest : string) :
  consumed (dois_digitos n rest) rest = dois_digitos n EmptyString.
Proof.
  unfold consumed, dois_digitos. simpl String.length.
  replace (S (S (String.length rest)) - String.length rest)%nat
    with 2%nat by lia.
  simpl. by rewrite substring_0_0.
Qed.

Lemma consumed_quatro (n : Z) (rest : string) :
  consumed (quatro_digitos n rest) rest = quatro_digitos n EmptyString.
Proof.
  unfold consumed, quatro_digitos, dois_digitos. simpl String.length.
  replace (S (S (S (S (String.length rest)))) - String.length rest)%nat
    with 4%nat by lia.
  simpl. by rewrite substring_0_0.
Qed.

Lemma digitos_de_quatro (y : Z) :
  0 ≤ y ≤ 9999 →
  0 ≤ y / 1000 ≤ 9 ∧ 0 ≤ y / 100 mod 10 ≤ 9
  ∧ 0 ≤ y mod 100 / 10 ≤ 9 ∧ 0 ≤ y mod 100 mod 10 ≤ 9
  ∧ 10 * (10 * (10 * (y / 1000) + y / 100 mod 10) + y mod 100 / 10)
    + y mod 100 mod 10 = y.
Proof. intros H. Z.div_mod_to_equations. lia. Qed.

Lemma rmatch_quatro (y : Z) (rest : string) :
  0 ≤ y ≤ 9999 →
  rmatch (Strptime.re_of FY) (quatro_digitos y rest) = [rest].
Proof.
  intros H. destruct (digitos_de_quatro y H) as (H1 & H2 & H3 & H4 & _).
  destruct (digito_props _ H1) as (D1 & _ & _).
  destruct (digito_props _ H2) as (D2 & _ & _).
  destruct (digito_props _ H3) as (D3 & _ & _).
  destruct (digito_props _ H4) as (D4 & _ & _).
  unfold quatro_digitos, dois_digitos. cbn [Strptime.re_of Re.d rmatch].
  rewrite D1. cbn [mbind list_bind app rmatch]. rewrite D2.
  cbn [mbind list_bind app rmatch]. rewrite D3.
  cbn [mbind list_bind app rmatch]. rewrite D4. done.
Qed.

Lemma int_quatro (y : Z) :
  0 ≤ y ≤ 9999 → PyStr.int (quatro_digitos y EmptyString) = Some y.
Proof.
  intros H. destruct (digitos_de_quatro y H) as (H1 & H2 & H3 & H4 & Hy).
  destruct (digito_props _ H1) as (D1 & S1 & V1).
  destruct (digito_props _ H2) as (D2 & _ & V2).
  destruct (digito_props _ H3) as (D3 & _ & V3).
  destruct (digito_props _ H4) as (D4 & S4 & V4).
  unfold PyStr.int, PyStr.strip, quatro_digitos, dois_digitos.
  cbn [PyStr.lstrip]. rewrite S1. cbn [String.rev String.rev_app PyStr.lstrip].
  rewrite S4. cbn [String.rev String.rev_app PyStr.digits_acc].
  rewrite D1, D2, D3, D4, V1, V2, V3, V4. f_equal. lia.
Qed.

(** One step of the match for each kind of item of the layout. *)
Lemma passo_campo (f : campo) (n : Z) (its : list item) (cs cs' : campos)
    (rest : string) (x : campos * string) :
  no_intervalo f n = true →
  Strptime.set_field f (dois_digitos n EmptyString) cs = Some cs' →
  head (Strptime.matches its cs' rest) = Some x →
  head (Strptime.matches (IField f :: its) cs (dois_digitos n rest)) = Some x.
Proof.
  intros Hi Hs Hx. destruct (rmatch_dois f n rest Hi) as [o Ho].
  cbn [Strptime.matches]. eapply head_bind; [exact Ho|].
  by rewrite consumed_dois, Hs.
Qed.

Lemma passo_ano (y : Z) (its : list item) (cs cs' : campos)
    (rest : string) (x : campos * string) :
  0 ≤ y ≤ 9999 →
  Strptime.set_field FY (quatro_digitos y EmptyString) cs = Some cs' →
  head (Strptime.matches its cs' rest) = Some x →
  head (Strptime.matches (IField FY :: its) cs (quatro_digitos y rest))
  = Some x.
Proof.
  intros Hi Hs Hx. cbn [Strptime.matches].
  eapply head_bind; [by apply rmatch_quatro|].
  by rewrite consumed_quatro, Hs.
Qed.

Lemma passo_chr (c : ascii) (its : list item) (cs : campos)
    (rest : string) (x : campos * string) :
  head (Strptime.matches its cs rest) = Some x →
  head (Strptime.matches (IChr c :: its) cs (String c rest)) = Some x.
Proof.
  intros Hx. cbn [Strptime.matches Re.chr rmatch].
  rewrite bool_decide_eq_true_2 by done.
  eapply head_bind; [done|exact Hx].
Qed.

Lemma passo_espaco (n : Z) (its : list item) (cs : campos)
    (rest : string) (x : campos * string) :
  0 ≤ n ≤ 59 →
  head (Strptime.matches its cs (dois_digitos n rest)) = Some x →
  head (Strptime.matches (ISpace :: its) cs
          (String " " (dois_digitos n rest))) = Some x.
Proof.
  intros Hn Hx. cbn [Strptime.matches rmatch].
  assert (plus_rests PyStr.isspace (String " " (dois_digitos n rest))
          = [dois_digitos n rest]) as ->; [|by eapply head_bind].
  assert (0 ≤ n / 10 ≤ 9) as Hd by (Z.div_mod_to_equations; lia).
  destruct (digito_props _ Hd) as (_ & Hs & _).
  unfold dois_digitos. cbn [plus_rests].
  replace (PyStr.isspace " ") with true by (by cbv). by rewrite Hs.
Qed.

Lemma days_in_month_le (y m : Z) : Strptime.days_in_month y m ≤ 31.
Proof.
  unfold Strptime.days_in_month.
  repeat match goal with |- context [if ?b then _ else _] => destruct b end;
    lia.
Qed.

(** Every valid timestamp from the year 1000 on is read back from what
    [strftime] prints for it. *)
Lemma strptime_strftime (t : datetime) :
  datetime_valido t = true →
  Strptime.strptime (strftime t) formato_data = Some t.
Proof.
  destruct t as [y m d h mi s]. unfold datetime_valido. simpl.
  intros Hv. pose proof Hv as Hv'.
  unfold Strptime.valid_date, Strptime.valid_time in Hv'.
  rewrite !andb_true_iff, !Z.leb_le in Hv'. destruct_and!.
  pose proof (days_in_month_le y m).
  unfold Strptime.strptime.
  replace (Strptime.pattern formato_data)
    with (Some [IField FY; IChr "-"; IField Fm; IChr "-"; IField Fd; ISpace;
                IField FH; IChr ":"; IField FM; IChr ":"; IField FS])
    by (by vm_compute).
  assert (head (Strptime.matches
                  [IField FY; IChr "-"; IField Fm; IChr "-"; IField Fd;
                   ISpace; IField FH; IChr ":"; IField FM; IChr ":";
                   IField FS]
                  campos_vazios (strftime (DateTime y m d h mi s)))
          = Some (Campos (Some y) (Some m) (Some d) (Some h) (Some mi)
                    (Some s), EmptyString)) as Hhead.
  { unfold strftime. cbn [year month day hour minute second].
    eapply passo_ano; [lia|unfold Strptime.set_field;
                           by rewrite int_quatro by lia|].
    apply passo_chr.
    eapply (passo_campo Fm); [simpl; lia|unfold Strptime.set_field;
                                          by rewrite int_dois by lia|].
    apply passo_chr.
    eapply (passo_campo Fd); [simpl; lia|unfold Strptime.set_field;
                                          by rewrite int_dois by lia|].
    apply passo_espaco; [lia|].
    eapply (passo_campo FH); [simpl; lia|unfold Strptime.set_field;
                                          by rewrite int_dois by lia|].
    apply passo_chr.
    eapply (passo_campo FM); [simpl; lia|unfold Strptime.set_field;
                                          by rewrite int_dois by lia|].
    apply passo_chr.
    eapply (passo_campo FS); [simpl; lia|unfold Strptime.set_field;
                                          by rewrite int_dois by lia|].
    done. }
  destruct (Strptime.matches _ _ _) as [|[cs r] l]; [done|].
  simpl in Hhead. injection Hhead as -> ->.
  unfold Strptime.build. simpl.
  apply andb_true_iff in Hv as [Hv _]. by rewrite Hv.
Qed.

(** ** The conflict resolver *)

Lemma datetime_ltb_lt (a b : datetime) :
  datetime_ltb a b = true ↔ datetime_lt a b.
Proof.
  unfold datetime_ltb, datetime_lt, datetime_key. simpl.
  repeat (rewrite orb_true_iff || rewrite andb_true_iff
          || rewrite Z.ltb_lt || rewrite Z.eqb_eq).
  intuition (try lia; try discriminate).
Qed.

Lemma datetime_lt_irrefl (a : datetime) : ¬ datetime_lt a a.
Proof. unfold datetime_lt. lia. Qed.


(** C2: with both timestamps parsed in the layout [%Y-%m-%d %H:%M:%S],
    the comparison answers REPLACE ([true]) exactly when the candidate is
    strictly later than the stored one; equal timestamps give KEEP
    ([false]); if either string fails to parse the answer is REPLACE.  In
    particular, on the texts [strftime] prints for two valid timestamps
    the answer is REPLACE exactly when the candidate is the later one. *)
Theorem comparar_datas_email_correta (data_nova_str data_existente_str : string) :
  let nova := Strptime.strptime data_nova_str formato_data in
  let existente := Strptime.strptime data_existente_str formato_data in
  (∀ tn te, nova = Some tn → existente = Some te →
     (comparar_datas_email data_nova_str data_existente_str = true
      ↔ datetime_lt te tn))
  ∧ (∀ t, nova = Some t → existente = Some t →
       comparar_datas_email data_nova_str data_existente_str = false)
  ∧ (nova = None ∨ existente = None →
       comparar_datas_email data_nova_str data_existente_str = true)
  ∧ (∀ tn te, datetime_valido tn = true → datetime_valido te = true →
       data_nova_str = strftime tn → data_existente_str = strftime te →
       (comparar_datas_email data_nova_str data_existente_str = true
        ↔ datetime_lt te tn)).
Proof.
  intros nova existente.
  assert (∀ tn te, nova = Some tn → existente = Some te →
            (comparar_datas_email data_nova_str data_existente_str = true
             ↔ datetime_lt te tn)) as Hcmp.
  { intros tn te Hn He. unfold comparar_datas_email.
    fold nova existente. rewrite Hn, He. apply datetime_ltb_lt. }
  split_and!.
  - exact Hcmp.
  - intros t Hn He. apply not_true_is_false. rewrite (Hcmp t t Hn He).
    apply datetime_lt_irrefl.
  - unfold comparar_datas_email. fold nova existente.
    intros [-> | ->]; [done|]. by destruct nova.
  - intros tn te Hvn Hve -> ->. apply Hcmp; by apply strptime_strftime.
Qed.

Lemma comparar_datas_email_correta_witness :
  comparar_datas_email "2024-01-02 09:00:00" "2024-01-01 10:00:00" = true
  ∧ comparar_datas_email "2024-01-01 10:00:00" "2024-01-02 09:00:00" = false
  ∧ comparar_datas_email "2024-01-01 10:00:00" "2024-01-01 10:00:00" = false
  ∧ comparar_datas_email "01/02/2024 10:00" "2024-01-01 10:00:00" = true
  ∧ comparar_datas_email "2024-01-01 10:00:00" "" = true.
Proof.
  split_and!.
  - apply (proj1 (comparar_datas_email_correta _ _)
             (DateTime 2024 1 2 9 0 0) (DateTime 2024 1 1 10 0 0));
      [vm_compute; reflexivity..|].
    unfold datetime_lt. simpl. lia.
  - apply not_true_is_false.
    rewrite (proj1 (comparar_datas_email_correta _ _)
               (DateTime 2024 1 1 10 0 0) (DateTime 2024 1 2 9 0 0));
      [|vm_compute; reflexivity..].
    unfold datetime_lt. simpl. lia.
  - eapply (proj1 (proj2 (comparar_datas_email_correta _ _))); reflexivity.
  - apply (proj1 (proj2 (proj2 (comparar_datas_email_correta _ _)))).
    left. reflexivity.
  - apply (proj1 (proj2 (proj2 (comparar_datas_email_correta _ _)))).
    right. reflexivity.
Defined.

(** ** At most one document per order key *)

Lemma com_chave_no_maximo_um (es : list Email) (k : string) :
  NoDup (chaves es) → k ≠ "" →
  (length (filter (fun e => chave e = Some k) es) ≤ 1)%nat.
Proof.
  intros Hnd Hk. induction es as [|x es IH]; simpl; [lia|].
  destruct (decide (chave x = Some k)) as [Hx|Hx].
  - rewrite filter_cons_True by done. simpl.
    unfold chaves in Hnd. simpl in Hnd. rewrite Hx in Hnd.
    rewrite filter_cons_True in Hnd by done.
    apply NoDup_cons in Hnd as [Hnin _].
    assert (filter (fun e => chave e = Some k) es = []) as ->; [|simpl; lia].
    destruct (filter _ es) as [|e l] eqn:Hf; [done|]. exfalso.
    assert (e ∈ filter (fun e => chave e = Some k) es) as He
      by (rewrite Hf; left).
    apply list_elem_of_filter in He as [He1 He2].
    apply Hnin. apply elem_of_chaves. eauto.
  - rewrite filter_cons_False by done. apply IH.
    unfold chaves in *. simpl in Hnd. destruct (chave x) as [k'|]; [|done].
    destruct (decide (k' ≠ "")).
    + rewrite filter_cons_True in Hnd by done. by apply NoDup_cons in Hnd as [_ ?].
    + by rewrite filter_cons_False in Hnd by done.
Qed.

Lemma persistir_heap amb l dados ordens w :
  heap (persistir amb l dados ordens w).2 !! l = Some dados.
Proof.
  unfold persistir, gravar. destruct (escrita amb); simpl;
    by rewrite lookup_insert_eq.
Qed.

(** C1: after any run from the empty store (saves, and re-readings of
    the key set from the store), whatever the clock readings and the
    outcomes of the writes, every observable snapshot holds at most one
    document per non-empty order key; and a candidate whose key is already
    stored is either rejected (snapshot unchanged) or put in the place of
    the stored document, never appended. *)
Theorem no_maximo_um_por_chave (ps : list Acao) :
  let ordens := (executar ps ∅ mundo_inicial).1 in
  let w := (executar ps ∅ mundo_inicial).2 in
  (∀ d k, visivel w d → k ≠ "" → (length (com_chave k d) ≤ 1)%nat)
  ∧ (∀ amb email k l w1 d,
       chave email = Some k → k ≠ "" →
       carregar_json_existente_rapido amb w = (l, w1) →
       heap w1 !! l = Some d →
       com_chave k d ≠ [] →
       ∃ d', heap (salvar_json_incremental_rapido amb email ordens w).2 !! l
             = Some d'
         ∧ length (emails d') = length (emails d)
         ∧ (d' = d
            ∨ ∃ i ex, emails d !! i = Some ex ∧ chave ex = Some k
                ∧ d' = substituir_email (agora_iso amb) i email d)).
Proof.
  intros ordens w.
  pose proof (executar_inv ps ∅ mundo_inicial inv_inicial) as Hinv.
  fold ordens w in Hinv. split.
  - intros d k Hv Hk. apply com_chave_no_maximo_um; [|done].
    destruct Hv as [Ha | (l & Hc & Hl)].
    + by eapply bf_nodup, inv_arquivo.
    + destruct (inv_cache _ _ Hinv _ Hc) as (d' & Hd' & Hbf & _).
      assert (d' = d) as -> by congruence. by eapply bf_nodup.
  - intros amb email k l w1 d Hem Hk Hc Hd Hne.
    destruct (carregar_inv _ _ _ _ _ Hinv Hc) as (_ & _ & d' & Hd' & Hbf).
    assert (d' = d) as -> by congruence.
    destruct (com_chave k d) as [|e0 rest] eqn:Hf; [done|].
    assert (e0 ∈ com_chave k d) as He0 by (rewrite Hf; left).
    apply list_elem_of_filter in He0 as [He0k He0].
    pose proof (bf_chaves _ _ Hbf) as Hall.
    assert (k ∈ ordens) as Hin.
    { apply (bf_ordens _ _ Hbf). apply elem_of_chaves. eauto. }
    unfold salvar_json_incremental_rapido. unfold chave in Hem.
    rewrite Hem, Hc, Hd.
    rewrite (proj2 (truthy_iff k) Hk), bool_decide_eq_true_2 by done. simpl.
    destruct (encontrar_email_por_ordem d k) as [[[i ex]|]|] eqn:He.
    + apply encontrar_desde_Some in He as (n & -> & Hn & Hex). simpl.
      destruct (comparar_datas_email _ _).
      * eexists. split; [apply persistir_heap|]. split.
        { simpl. by rewrite length_insert. }
        right. eauto.
      * exists d. simpl. eauto.
    + apply encontrar_desde_None in He. rewrite Forall_forall in He.
      by destruct (He _ He0).
    + exfalso. destruct (encontrar_desde_total 0 (emails d) k) as [? Hs].
      * exact Hall.
      * unfold encontrar_email_por_ordem in He. congruence.
Qed.

(** ** One successful save, case by case *)

Lemma coerente_visivel w d d' : coerente w d → visivel w d' → d' = d.
Proof.
  intros [Ha (l & Hc & Hl)] [Ha' | (l' & Hc' & Hl')]; congruence.
Qed.

Lemma carregar_coerente amb w d l w' :
  coerente w d → carregar_json_existente_rapido amb w = (l, w') →
  heap w' !! l = Some d ∧ coerente w' d.
Proof.
  intros [Ha (l0 & Hc0 & Hl0)] Hc.
  destruct (carregar_spec _ _ _ _ Hc) as (Hcache & Harq & H).
  destruct H as [[-> Hl] | (-> & d1 & Hh & Hp & Hd)].
  - assert (l = l0) as -> by congruence. split; [done|]. split; eauto.
  - assert (d1 = d) as ->.
    { destruct Hd as [Hd | [_ Hd]]; [congruence|]. by destruct (Hd d). }
    assert (heap w' !! prox w = Some d) as Hl
      by (rewrite Hh; apply lookup_insert_eq).
    split; [done|]. split; [congruence|]. eauto.
Qed.

Lemma persistir_ok amb l dados ordens w :
  escrita amb = EscritaOk →
  ∃ w', persistir amb l dados ordens w = ((true, ordens), w')
        ∧ coerente w' dados.
Proof.
  intros He. unfold persistir, gravar. rewrite He. simpl.
  eexists. split; [done|]. split; simpl; [done|].
  exists l. split; [done|]. apply lookup_insert_eq.
Qed.

Lemma salvar_acrescenta amb email ordens w l w1 d0 k :
  carregar_json_existente_rapido amb w = (l, w1) →
  heap w1 !! l = Some d0 →
  chave email = Some k →
  PyStr.truthy k && bool_decide (k ∈ ordens) = false →
  escrita amb = EscritaOk →
  ∃ w', salvar_json_incremental_rapido amb email ordens w
        = ((true, ordens_apos k ordens), w')
        ∧ coerente w' (acrescentar_email (agora_iso amb) email k ordens d0).
Proof.
  intros Hc Hd Hk Hb He. unfold salvar_json_incremental_rapido.
  unfold chave in Hk. rewrite Hk, Hc, Hd, Hb. by apply persistir_ok.
Qed.

Lemma salvar_substitui amb email ordens w l w1 d0 k i ex :
  carregar_json_existente_rapido amb w = (l, w1) →
  heap w1 !! l = Some d0 →
  chave email = Some k → k ≠ "" → k ∈ ordens →
  encontrar_email_por_ordem d0 k = Some (Some (i, ex)) →
  comparar_datas_email (data_recebimento (metadata email))
    (data_recebimento (metadata ex)) = true →
  escrita amb = EscritaOk →
  ∃ w', salvar_json_incremental_rapido amb email ordens w
        = ((true, ordens), w')
        ∧ coerente w' (substituir_email (agora_iso amb) i email d0).
Proof.
  intros Hc Hd Hk Hne Hin Hf Hcmp He. unfold salvar_json_incremental_rapido.
  unfold chave in Hk. rewrite Hk, Hc, Hd.
  rewrite (proj2 (truthy_iff k) Hne), bool_decide_eq_true_2 by done. simpl.
  rewrite Hf, Hcmp. by apply persistir_ok.
Qed.

Lemma salvar_rejeita amb email ordens w l w1 d0 k i ex :
  carregar_json_existente_rapido amb w = (l, w1) →
  heap w1 !! l = Some d0 →
  chave email = Some k → k ≠ "" → k ∈ ordens →
  encontrar_email_por_ordem d0 k = Some (Some (i, ex)) →
  comparar_datas_email (data_recebimento (metadata email))
    (data_recebimento (metadata ex)) = false →
  salvar_json_incremental_rapido amb email ordens w = ((false, ordens), w1).
Proof.
  intros Hc Hd Hk Hne Hin Hf Hcmp. unfold salvar_json_incremental_rapido.
  unfold chave in Hk. rewrite Hk, Hc, Hd.
  rewrite (proj2 (truthy_iff k) Hne), bool_decide_eq_true_2 by done. simpl.
  by rewrite Hf, Hcmp.
Qed.

Lemma encontrar_desde_app_novo (i : nat) (es : list Email) e k :
  Forall (fun e' => ∃ k', chave e' = Some k' ∧ k' ≠ k) es →
  chave e = Some k →
  encontrar_desde i (es ++ [e]) k = Some (Some ((i + length es)%nat, e)).
Proof.
  intros Hall Hk. revert i. induction Hall as [|x es (k' & Hx & Hne) _ IH];
    intros i; simpl.
  - unfold chave in Hk. rewrite Hk. simpl.
    rewrite bool_decide_eq_true_2 by done. do 3 f_equal. lia.
  - unfold chave in Hx. rewrite Hx. simpl.
    rewrite bool_decide_eq_false_2 by done. rewrite IH. do 3 f_equal. lia.
Qed.


(** In a well-formed snapshot whose keys all lie in [ordens], a key outside
    [ordens] is not stored. *)
Lemma bem_formado_ausente ordens d k :
  bem_formado ordens d → k ≠ "" → k ∉ ordens →
  Forall (fun e' => ∃ k', chave e' = Some k' ∧ k' ≠ k) (emails d).
Proof.
  intros Hbf Hne Hnin. apply Forall_forall. intros e He.
  pose proof (bf_chaves _ _ Hbf) as Hall. rewrite Forall_forall in Hall.
  destruct (Hall e He) as [k' Hk']. exists k'. split; [done|].
  intros ->. apply Hnin, (bf_ordens _ _ Hbf), elem_of_chaves. eauto.
Qed.

(** ** Recency convergence *)




Lemma no_maximo_um_por_chave_witness :
  ∃ d, arquivo (executar [Salvar (Amostras.amb_ok 1700000000) Amostras.doc_A;
                          Salvar (Amostras.amb_ok 1700000060) Amostras.doc_B]
                  ∅ mundo_inicial).2 = Conteudo d
       ∧ (length (com_chave "ORD1" d) ≤ 1)%nat.
Proof.
  eexists. split; [vm_compute; reflexivity|].
  apply (proj1 (no_maximo_um_por_chave
                  [Salvar (Amostras.amb_ok 1700000000) Amostras.doc_A;
                   Salvar (Amostras.amb_ok 1700000060) Amostras.doc_B])).
  - left. vm_compute. reflexivity.
  - discriminate.
Defined.

(** ** Documents without an order key *)

Lemma carregado_inicial amb d :
  carregado amb mundo_inicial d → d = empty_data (agora_iso amb).
Proof.
  intros (l & w1 & Hc & Hd).
  unfold carregar_json_existente_rapido, alocar in Hc. simpl in Hc.
  injection Hc as <- <-. simpl in Hd. rewrite lookup_insert_eq in Hd.
  congruence.
Qed.

Lemma acrescentar_sem_chave iso email ordens d0 :
  let d := acrescentar_email iso email "" ordens d0 in
  emails d = emails d0 ++ [email]
  ∧ ordens_unicas (store_metadata d) = ordens_unicas (store_metadata d0).
Proof. done. Qed.

(** C7: a document whose trimmed order key is empty (or absent) is always
    appended, a second one as well: the save answers [True], the stored
    sequence grows by the document, and neither the key set of the caller
    nor [ordens_unicas] in the metadata changes.  From the empty store, two
    such documents leave a store of exactly these two documents and an
    empty [ordens_unicas]. *)
Theorem chave_vazia_sempre_acrescenta (ps : list Acao)
    (amb1 amb2 : Amb) (e1 e2 : Email) :
  let ordens := (executar ps ∅ mundo_inicial).1 in
  let w := (executar ps ∅ mundo_inicial).2 in
  chave e1 = Some "" → chave e2 = Some "" →
  escrita amb1 = EscritaOk → escrita amb2 = EscritaOk →
  ∃ d0 d1 d2 w1 w2,
    carregado amb1 w d0
    ∧ salvar_json_incremental_rapido amb1 e1 ordens w = ((true, ordens), w1)
    ∧ coerente w1 d1
    ∧ emails d1 = emails d0 ++ [e1]
    ∧ ordens_unicas (store_metadata d1) = ordens_unicas (store_metadata d0)
    ∧ salvar_json_incremental_rapido amb2 e2 ordens w1 = ((true, ordens), w2)
    ∧ coerente w2 d2
    ∧ emails d2 = emails d0 ++ [e1; e2]
    ∧ ordens_unicas (store_metadata d2) = ordens_unicas (store_metadata d0)
    ∧ (ps = [] → ordens = ∅ ∧ emails d2 = [e1; e2]
                 ∧ ordens_unicas (store_metadata d2) = []).
Proof.
  intros ordens w Hk1 Hk2 Hok1 Hok2.
  pose proof (executar_inv ps ∅ mundo_inicial inv_inicial) as Hinv.
  fold ordens w in Hinv.
  destruct (carregar_json_existente_rapido amb1 w) as [l w0] eqn:Hc.
  destruct (carregar_inv _ _ _ _ _ Hinv Hc) as (_ & _ & d0 & Hd0 & _).
  destruct (salvar_acrescenta _ _ ordens _ _ _ _ _ Hc Hd0 Hk1 eq_refl Hok1)
    as (w1 & Hs1 & Hco1).
  destruct (carregar_json_existente_rapido amb2 w1) as [l2 w1'] eqn:Hc2.
  destruct (carregar_coerente _ _ _ _ _ Hco1 Hc2) as [Hd1 _].
  destruct (salvar_acrescenta _ _ ordens _ _ _ _ _ Hc2 Hd1 Hk2 eq_refl Hok2)
    as (w2 & Hs2 & Hco2).
  exists d0. do 4 eexists.
  split; [by exists l, w0|].
  split; [exact Hs1|]. split; [exact Hco1|].
  split; [done|]. split; [done|].
  split; [exact Hs2|]. split; [exact Hco2|].
  split; [simpl; by rewrite <- app_assoc|]. split; [done|].
  intros ->. split; [done|].
  assert (carregado amb1 mundo_inicial d0) as Hi by (by exists l, w0).
  apply carregado_inicial in Hi as ->. done.
Qed.

Lemma chave_vazia_sempre_acrescenta_witness :
  let e1 := Amostras.email 1 "2024-01-01 10:00:00"
              {[ "status" := JStr "TEXTO_MUITO_CURTO" ]} in
  let e2 := Amostras.email 2 "2024-01-01 11:00:00"
              {[ "Ordem" := JStr "  "; "Navio" := JStr "MSC AURORA" ]} in
  ∃ d, coerente (executar [Salvar (Amostras.amb_ok 1700000000) e1;
                           Salvar (Amostras.amb_ok 1700000060) e2]
                   ∅ mundo_inicial).2 d
       ∧ emails d = [e1; e2] ∧ ordens_unicas (store_metadata d) = [].
Proof.
  intros e1 e2.
  destruct (chave_vazia_sempre_acrescenta [] (Amostras.amb_ok 1700000000)
              (Amostras.amb_ok 1700000060) e1 e2)
    as (d0 & d1 & d2 & w1 & w2 & _ & Hs1 & _ & _ & _ & Hs2 & Hco & _ & _ & Hf).
  - vm_compute. reflexivity.
  - vm_compute. reflexivity.
  - reflexivity.
  - reflexivity.
  - exists d2. simpl in Hs1, Hs2. simpl. rewrite Hs1, Hs2.
    destruct (Hf eq_refl) as (_ & He & Ho). done.
Defined.

(** ** Metadata counts *)

(** C5, a record the count of the code and the validity of the
    specification disagree on: the extraction returned the fields of the
    template with an empty order.  After the save [emails_com_dados] is 1,
    while no stored document is valid. *)
Lemma metadados_contraexemplo :
  let e := Amostras.email 1 "2024-01-01 10:00:00"
             {[ "Ordem" := JStr ""; "Navio" := JStr "MSC AURORA" ]} in
  ∃ d, arquivo (executar [Salvar (Amostras.amb_ok 1700000000) e]
                  ∅ mundo_inicial).2 = Conteudo d
       ∧ emails_com_dados (store_metadata d) = 1
       ∧ Z.of_nat (length (filter (fun x => registro_valido_spec x = true)
                             (emails d))) = 0.
Proof.
  intros e. eexists. split; [vm_compute; reflexivity|].
  split; vm_compute; reflexivity.
Qed.

(** C5 as the code has it: after any run from the empty store every
    observable snapshot has [total_emails_processados] equal to the number
    of stored documents; and a save that appends (the key is empty or not
    yet known; the write succeeds) leaves a snapshot in which
    [emails_com_dados] is the number of stored documents whose record has
    a status other than SEM_DADOS_EXPORTACAO and no truthy [erro]; the
    order key plays no part in that count. *)
Theorem metadados_apos_acrescimo (ps : list Acao) :
  let ordens := (executar ps ∅ mundo_inicial).1 in
  let w := (executar ps ∅ mundo_inicial).2 in
  (∀ d, visivel w d →
     total_emails_processados (store_metadata d)
     = Z.of_nat (length (emails d)))
  ∧ (∀ amb email k,
       chave email = Some k → k = "" ∨ k ∉ ordens →
       escrita amb = EscritaOk →
       ∃ ordens' w' d,
         salvar_json_incremental_rapido amb email ordens w
         = ((true, ordens'), w')
         ∧ coerente w' d
         ∧ total_emails_processados (store_metadata d)
           = Z.of_nat (length (emails d))
         ∧ emails_com_dados (store_metadata d)
           = contar_com_dados (emails d)).
Proof.
  intros ordens w.
  pose proof (executar_inv ps ∅ mundo_inicial inv_inicial) as Hinv.
  fold ordens w in Hinv. split.
  - intros d [Ha | (l & Hc & Hl)].
    + by eapply bf_total, inv_arquivo.
    + destruct (inv_cache _ _ Hinv _ Hc) as (d' & Hd' & Hbf & _).
      assert (d' = d) as -> by congruence. by eapply bf_total.
  - intros amb email k Hk Hcond Hok.
    destruct (carregar_json_existente_rapido amb w) as [l w0] eqn:Hc.
    destruct (carregar_inv _ _ _ _ _ Hinv Hc) as (_ & _ & d0 & Hd0 & _).
    assert (PyStr.truthy k && bool_decide (k ∈ ordens) = false) as Hb.
    { destruct Hcond as [-> | Hnin]; [done|].
      rewrite bool_decide_eq_false_2 by done. apply andb_false_r. }
    destruct (salvar_acrescenta _ _ _ _ _ _ _ _ Hc Hd0 Hk Hb Hok)
      as (w' & Hs & Hco).
    do 3 eexists. split; [exact Hs|]. split; [exact Hco|]. done.
Qed.

Lemma metadados_apos_acrescimo_witness :
  ∃ ordens' w' d,
    salvar_json_incremental_rapido (Amostras.amb_ok 1700000060)
      Amostras.doc_B ∅ mundo_inicial = ((true, ordens'), w')
    ∧ coerente w' d
    ∧ total_emails_processados (store_metadata d)
      = Z.of_nat (length (emails d))
    ∧ emails_com_dados (store_metadata d) = contar_com_dados (emails d).
Proof.
  apply (proj2 (metadados_apos_acrescimo []) (Amostras.amb_ok 1700000060)
           Amostras.doc_B "ORD1").
  - vm_compute. reflexivity.
  - right. apply not_elem_of_empty.
  - reflexivity.
Defined.

(** ** Persistence *)




(** ** The numeric coercion *)

Lemma filter_sem_virgula (s : string) :
  PyStrOps.existsb (fun c => bool_decide (c = ","%char)) s = false →
  PyStrOps.filter (fun c => PyStr.isdigit c || bool_decide (c = ","%char)) s
  = PyStrOps.filter PyStr.isdigit s.
Proof.
  induction s as [|c s IH]; simpl; [done|].
  intros [Hc Hs]%orb_false_iff. rewrite Hc, orb_false_r, (IH Hs). done.
Qed.

Lemma forallb_filter_isdigit (s : string) :
  PyStrOps.forallb PyStr.isdigit (PyStrOps.filter PyStr.isdigit s) = true.
Proof.
  induction s as [|c s IH]; simpl; [done|].
  destruct (PyStr.isdigit c) eqn:Hc; simpl; [|done]. by rewrite Hc, IH.
Qed.

Lemma truthy_filter_isdigit (s : string) :
  PyStrOps.existsb PyStr.isdigit s = true →
  PyStr.truthy (PyStrOps.filter PyStr.isdigit s) = true.
Proof.
  induction s as [|c s IH]; simpl; [done|].
  destruct (PyStr.isdigit c); simpl; auto.
Qed.

Lemma isdigit_nao_virgula (c : ascii) :
  PyStr.isdigit c = true → c ≠ ","%char.
Proof. intros H ->. vm_compute in H. discriminate. Qed.

Lemma map_digitos (t : string) :
  PyStrOps.forallb PyStr.isdigit t = true →
  PyStrOps.map (fun c => if bool_decide (c = ","%char) then "."%char else c) t
  = t.
Proof.
  induction t as [|c t IH]; simpl; [done|].
  intros [Hc Ht]%andb_true_iff.
  rewrite bool_decide_eq_false_2 by (by apply isdigit_nao_virgula).
  by rewrite (IH Ht).
Qed.

Lemma span_digitos (t : string) :
  PyStrOps.forallb PyStr.isdigit t = true →
  PyStrOps.span PyStr.isdigit t = (t, EmptyString).
Proof.
  induction t as [|c t IH]; simpl; [done|].
  intros [Hc Ht]%andb_true_iff. by rewrite Hc, (IH Ht).
Qed.

(** C10: on a non-empty text with a decimal digit and no comma the
    coercion keeps the digits only (the point goes too) and answers the
    float of the integer they spell.  "1234.56" gives 123456.0, which is
    not the float of 1234.56. *)
Theorem converter_para_decimal_sem_virgula (s : string) :
  s ≠ "" →
  PyStrOps.existsb PyStr.isdigit s = true →
  PyStrOps.existsb (fun c => bool_decide (c = ","%char)) s = false →
  converter_para_decimal (JStr s)
  = Some (float_decimal
            (PyStrOps.valor (PyStrOps.filter PyStr.isdigit s)) 0)
  ∧ converter_para_decimal (JStr "1234.56") = Some (float_decimal 123456 0)
  ∧ valor_exato (float_decimal 123456 0) = Some (inject_Z 123456)
  ∧ float_decimal 123456 0 ≠ float_decimal 123456 2.
Proof.
  intros Hne Hd Hv. split; [|split; [|split]].
  - unfold converter_para_decimal. simpl.
    rewrite (proj2 (truthy_iff s) Hne). simpl.
    rewrite (filter_sem_virgula s Hv).
    rewrite (map_digitos _ (forallb_filter_isdigit s)).
    rewrite (truthy_filter_isdigit s Hd).
    unfold float_de_limpo.
    rewrite (span_digitos _ (forallb_filter_isdigit s)).
    by rewrite (truthy_filter_isdigit s Hd).
  - vm_compute. reflexivity.
  - vm_compute. reflexivity.
  - vm_compute. discriminate.
Qed.

Lemma converter_para_decimal_sem_virgula_witness :
  converter_para_decimal (JStr "R$ 1.234.56")
  = Some (float_decimal
            (PyStrOps.valor (PyStrOps.filter PyStr.isdigit "R$ 1.234.56")) 0).
Proof.
  apply (converter_para_decimal_sem_virgula "R$ 1.234.56");
    [discriminate|reflexivity|reflexivity].
Defined.

(** ** The date coercion and the relational sync *)

Lemma tentar_formatos_primeiro (formatos : list string) (t : string)
    (i : nat) (formato : string) (dt : datetime) :
  formatos !! i = Some formato →
  Strptime.strptime t formato = Some dt →
  (∀ j f, (j < i)%nat → formatos !! j = Some f →
          Strptime.strptime t f = None) →
  tentar_formatos formatos t = Some (to_date dt).
Proof.
  revert i. induction formatos as [|f0 fs IH]; intros [|i] Hi Ht Hprev;
    simplify_eq/=.
  - by rewrite Ht.
  - rewrite (Hprev 0%nat f0) by (simpl; first [lia|done]).
    apply (IH i); [done|done|].
    intros j f Hj Hf. apply (Hprev (S j) f); [lia|done].
Qed.

Lemma tentar_formatos_nenhum (formatos : list string) (t : string) :
  Forall (fun f => Strptime.strptime t f = None) formatos →
  tentar_formatos formatos t = None.
Proof. induction 1 as [|f fs Hf _ IH]; simpl; [done|]. by rewrite Hf. Qed.

Lemma converter_para_data_texto (dateutil_parse : string -> option date)
    (s : string) :
  s ≠ "" →
  converter_para_data dateutil_parse (JStr s)
  = match tentar_formatos formatos_data (PyStr.strip s) with
    | Some d => Some d
    | None => dateutil_parse (PyStr.strip s)
    end.
Proof.
  intros Hne. unfold converter_para_data, py_truthy, py_str.
  by rewrite (proj2 (truthy_iff s) Hne).
Qed.

Lemma converter_10_07_2024 (dateutil_parse : string -> option date) :
  converter_para_data dateutil_parse (JStr "10/07/2024")
  = Some (Date 2024 7 10).
Proof. vm_compute. reflexivity. Qed.

Lemma buscar_insert (tabela : list ExportacaoDB) k i r novo :
  buscar k tabela = Some (i, r) → db_ordem novo = k →
  buscar k (<[i := novo]> tabela) = Some (i, novo).
Proof.
  unfold buscar. intros (Hi & Hr & Hprev)%list_find_Some Hn.
  apply list_find_Some. split_and!; [|done|].
  - apply list_lookup_insert_eq. by eapply lookup_lt_Some.
  - intros j y Hj Hlt. rewrite list_lookup_insert_ne in Hj by lia. eauto.
Qed.

Lemma buscar_app_novo (tabela : list ExportacaoDB) k novo :
  buscar k tabela = None → db_ordem novo = k →
  buscar k (tabela ++ [novo]) = Some (length tabela, novo).
Proof.
  unfold buscar. intros Hnone%list_find_None Hn.
  apply list_find_Some. split_and!; [|done|].
  - by rewrite lookup_app_r, Nat.sub_diag by lia.
  - intros j y Hj Hlt. rewrite lookup_app_l in Hj by done.
    rewrite Forall_forall in Hnone. apply Hnone.
    by eapply list_elem_of_lookup_2.
Qed.

(** C9: the date coercion answers the date of the first layout of the
    fixed list that parses the trimmed text, otherwise what the permissive
    parser answers, hence null when that fails too.  And a sync over a
    store whose one record is valid and carries ETA "10/07/2024" commits a
    row for its order whose ETA is 2024-07-10, whatever the permissive
    parser and the hash are (the table holding no foreign row under the
    identifier of that order). *)
Theorem converter_para_data_e_sync
    (dateutil_parse : string -> option date)
    (md5_hexdigest : string -> string) (s : string) :
  s ≠ "" →
  let t := PyStr.strip s in
  (∀ i formato dt,
     formatos_data !! i = Some formato →
     Strptime.strptime t formato = Some dt →
     (∀ j f, (j < i)%nat → formatos_data !! j = Some f →
             Strptime.strptime t f = None) →
     converter_para_data dateutil_parse (JStr s) = Some (to_date dt))
  ∧ (Forall (fun f => Strptime.strptime t f = None) formatos_data →
     converter_para_data dateutil_parse (JStr s) = dateutil_parse t)
  ∧ (∀ amb w d email k tabela,
       carregado amb w d → emails d = [email] →
       com_dados email = true → chave email = Some k → k ≠ "" →
       dados_exportacao email !! "ETA" = Some (JStr "10/07/2024") →
       (∀ r, r ∈ tabela → db_id r = md5_hexdigest k → db_ordem r = k) →
       ∃ tabela' w' i r,
         sincronizar_json_para_banco dateutil_parse md5_hexdigest amb w tabela
         = ((true, tabela'), w')
         ∧ buscar k tabela' = Some (i, r)
         ∧ db_eta r = Some (Date 2024 7 10)).
Proof.
  intros Hne t. split_and!.
  - intros i formato dt Hi Ht Hprev.
    rewrite converter_para_data_texto by done. fold t.
    by rewrite (tentar_formatos_primeiro _ _ _ _ _ Hi Ht Hprev).
  - intros Hall. rewrite converter_para_data_texto by done. fold t.
    by rewrite (tentar_formatos_nenhum _ _ Hall).
  - intros amb w d email k tabela (l & w1 & Hc & Hd) Hes Hcd Hk Hkne Heta Hid.
    unfold sincronizar_json_para_banco. rewrite Hc, Hd, Hes. simpl.
    unfold sincronizar_email. rewrite Hcd. simpl. unfold chave in Hk.
    rewrite Hk, (proj2 (truthy_iff k) Hkne). simpl.
    assert (db_eta (linha_de dateutil_parse (md5_hexdigest k) k
                      (dados_exportacao email)) = Some (Date 2024 7 10))
      as Heta1.
    { simpl. unfold obter. rewrite Heta. apply converter_10_07_2024. }
    destruct (buscar k tabela) as [[i r]|] eqn:Hb.
    + do 4 eexists. split; [done|]. split.
      * eapply buscar_insert; [exact Hb|done].
      * simpl. unfold obter. rewrite Heta. apply converter_10_07_2024.
    + rewrite bool_decide_eq_false_2.
      * do 4 eexists. split; [done|]. split.
        -- by apply buscar_app_novo.
        -- exact Heta1.
      * simpl. intros (r & Hr & Hin)%list_elem_of_fmap.
        unfold buscar in Hb. apply list_find_None in Hb.
        rewrite Forall_forall in Hb. apply (Hb r Hin). apply Hid; done.
Qed.

Lemma converter_para_data_e_sync_witness :
  let doc := Amostras.email 1 "2024-07-01 08:00:00"
               {[ "Ordem" := JStr "ORD2"; "ETA" := JStr "10/07/2024" ]} in
  let w := (executar [Salvar (Amostras.amb_ok 1700000000) doc] ∅ mundo_inicial).2 in
  converter_para_data (fun _ => None) (JStr " 10/07/2024 ")
  = Some (Date 2024 7 10)
  ∧ ∃ tabela' w' i r,
      sincronizar_json_para_banco (fun _ => None) (fun s => s)
        (Amostras.amb_ok 1700000001) w []
      = ((true, tabela'), w')
      ∧ buscar "ORD2" tabela' = Some (i, r)
      ∧ db_eta r = Some (Date 2024 7 10).
Proof.
  intros doc w.
  destruct (converter_para_data_e_sync (fun _ => None) (fun s => s)
              " 10/07/2024 ") as (H1 & _ & H3); [discriminate|].
  split.
  - apply (H1 1%nat "%d/%m/%Y" (DateTime 2024 7 10 0 0 0)).
    + reflexivity.
    + vm_compute. reflexivity.
    + intros [|j] f Hj Hf; [|lia]. injection Hf as <-.
      vm_compute. reflexivity.
  - eapply (H3 _ _ _ doc "ORD2").
    + do 2 eexists. split; vm_compute; reflexivity.
    + vm_compute. reflexivity.
    + vm_compute. reflexivity.
    + vm_compute. reflexivity.
    + discriminate.
    + vm_compute. reflexivity.
    + intros r Hr. by apply elem_of_nil in Hr.
Defined.

(** ** Sequence numbers across batches *)

(** C8, the code at a failing input: from the empty store a poll brings
    orders X, X again (later) and Z, the next poll order W.  The stored
    documents end up numbered 2, 3, 3: the replacement of X advanced the
    counter of the batch but not the total of the store, so the number
    given to Z is given again to W. *)
Theorem numeros_repetidos_entre_lotes :
  numeros_armazenados (AmostrasLote.apos_dois_ciclos true) = [2; 3; 3]
  ∧ numeros_armazenados (AmostrasLote.apos_dois_ciclos false) = [2; 3; 3]
  ∧ ¬ NoDup (numeros_armazenados (AmostrasLote.apos_dois_ciclos true)).
Proof.
  assert (numeros_armazenados (AmostrasLote.apos_dois_ciclos true)
          = [2; 3; 3]) as H by (vm_compute; reflexivity).
  split; [exact H|]. split; [vm_compute; reflexivity|].
  rewrite H. intros Hnd. apply NoDup_cons in Hnd as [_ Hnd].
  apply NoDup_cons in Hnd as [Hnin _]. apply Hnin. left.
Qed.

(** ** Spreadsheet reconciliation *)

Section ReconciliacaoProvas.

Context {Cell : Type} `{!CellOps Cell}.
(** [str] of a string is the string. *)
Hypothesis cell_str_of_str : ∀ s : string, cell_str (of_str s) = s.
Local Abbreviation Linha := (Linha Cell).
Local Abbreviation Frame := (Frame Cell).

Lemma chave_astype (r : Linha) : chave_linha (astype_str r) = chave_linha r.
Proof.
  unfold astype_str. unfold chave_linha at 1.
  by rewrite lookup_insert_eq, cell_str_of_str.
Qed.

Lemma astype_idem (r : Linha) : astype_str (astype_str r) = astype_str r.
Proof.
  unfold astype_str at 1. rewrite chave_astype. unfold astype_str.
  by rewrite insert_insert_eq.
Qed.

Lemma drop_duplicates_sub (vistos : list string) (rs : list Linha) r :
  r ∈ drop_duplicates vistos rs → r ∈ rs.
Proof.
  revert vistos. induction rs as [|x rs IH]; intros vistos; simpl; [done|].
  case_bool_decide.
  - intros Hr. right. by eapply IH.
  - intros [->|Hr]%elem_of_cons; [left|right; by eapply IH].
Qed.

Lemma elem_of_chaves_com (ind : Indicador) (esq dir : list string) k :
  k ∈ chaves_com ind (merge_outer esq dir) ↔
  match ind with
  | left_only => k ∈ esq ∧ k ∉ dir
  | right_only => k ∈ dir ∧ k ∉ esq
  | both => k ∈ esq ∧ k ∈ dir
  end.
Proof.
  unfold chaves_com, merge_outer. rewrite list_elem_of_fmap. split.
  - intros ([k' i] & -> & [Hi Hin]%list_elem_of_filter). simpl in *.
    apply elem_of_app in Hin as [Hin|Hin];
      apply list_elem_of_fmap in Hin as (k0 & Heq & Hk0).
    + case_bool_decide; simplify_eq; done.
    + apply list_elem_of_filter in Hk0 as [? ?]. simplify_eq. done.
  - intros H. exists (k, ind). split; [done|].
    apply list_elem_of_filter. split; [done|]. apply elem_of_app.
    destruct ind.
    + left. apply list_elem_of_fmap. exists k.
      rewrite bool_decide_eq_false_2 by tauto. tauto.
    + right. apply list_elem_of_fmap. exists k. split; [done|].
      apply list_elem_of_filter. tauto.
    + left. apply list_elem_of_fmap. exists k.
      rewrite bool_decide_eq_true_2 by tauto. tauto.
Qed.

Lemma filter_ext_in {A} (P1 P2 : A → Prop)
    `{!∀ x, Decision (P1 x), !∀ x, Decision (P2 x)} (l : list A) :
  (∀ x, x ∈ l → (P1 x ↔ P2 x)) → filter P1 l = filter P2 l.
Proof.
  induction l as [|a l IH]; intros Hall; [done|].
  rewrite !filter_cons. rewrite IH by (intros; apply Hall; by right).
  assert (P1 a ↔ P2 a) as Ha by (apply Hall; left).
  destruct (decide (P1 a)), (decide (P2 a)); tauto.
Qed.

Lemma filter_nenhum {A} (P : A → Prop) `{!∀ x, Decision (P x)}
    (l : list A) :
  (∀ x, x ∈ l → ¬ P x) → filter P l = [].
Proof.
  induction l as [|a l IH]; intros Hall; [done|].
  rewrite filter_cons_False by (apply Hall; left).
  apply IH. intros; apply Hall; by right.
Qed.

(** The three cases amount to: the sheet rows whose key the relational
    rows do not have, and all the relational rows. *)
Lemma df_final_perm (P E : list Linha) :
  df_final_de P E
  ≡ₚ filter (fun r => chave_linha r ∉ chave_linha <$> P) E ++ P.
Proof.
  unfold df_final_de.
  set (kE := chave_linha <$> E). set (kP := chave_linha <$> P).
  assert (isin (chaves_com left_only (merge_outer kE kP)) E
          = filter (fun r => chave_linha r ∉ kP) E) as ->.
  { apply filter_ext_in. intros r Hr.
    rewrite (elem_of_chaves_com left_only).
    assert (chave_linha r ∈ kE) by (by apply list_elem_of_fmap_2).
    tauto. }
  assert (isin (chaves_com both (merge_outer kE kP)) P
          = filter (fun r => chave_linha r ∈ kE) P) as Hb.
  { apply filter_ext_in. intros r Hr.
    rewrite (elem_of_chaves_com both).
    assert (chave_linha r ∈ kP) by (by apply list_elem_of_fmap_2).
    tauto. }
  assert (isin (chaves_com right_only (merge_outer kE kP)) P
          = filter (fun r => ¬ chave_linha r ∈ kE) P) as Hr.
  { apply filter_ext_in. intros r Hr.
    rewrite (elem_of_chaves_com right_only).
    assert (chave_linha r ∈ kP) by (by apply list_elem_of_fmap_2).
    tauto. }
  assert (∀ ks F, (if bool_decide (ks = []) then F else F ++ isin ks P)
                  = F ++ isin ks P) as Hif.
  { intros ks F. case_bool_decide as Hks; [|done]. subst ks.
    unfold isin. rewrite filter_nenhum; [by rewrite app_nil_r|].
    intros x _ Hx. by apply elem_of_nil in Hx. }
  rewrite !Hif, Hb, Hr, <- app_assoc.
  by rewrite (filter_app_complement (fun r => chave_linha r ∈ kE) P).
Qed.

(** X27: one run of the reconciliation on the table and the sheet it has
    read.  It returns nothing exactly when the table is empty, [False]
    exactly when the table is not empty and the key column is missing
    from the renamed table or from the sheet, and [True] otherwise; unless
    it returns [True] the sheet is left as it was.  When it returns
    [True] the sheet it writes has the columns of the sheet followed by
    the new columns of the renamed table, and its rows are, sorted by
    key: the sheet rows whose key no relational row has, as they were
    (the key cell as a string), and every prepared relational row (first
    of its key), which stands both for the rows it overwrites and for the
    new ones. *)
Theorem reconciliacao_uma_execucao (dados_banco df_excel : Frame) :
  let r := atualizar_planilha_avancado dados_banco df_excel in
  let vazio := linhas dados_banco = [] ∨ colunas dados_banco = [] in
  let com_chave := coluna_ordem ∈ colunas (rename dados_banco)
                   ∧ coluna_ordem ∈ colunas df_excel in
  (r.1 = None ↔ vazio)
  ∧ (r.1 = Some false ↔ ¬ vazio ∧ ¬ com_chave)
  ∧ (r.1 = Some true ↔ ¬ vazio ∧ com_chave)
  ∧ (r.1 ≠ Some true → r.2 = df_excel)
  ∧ (r.1 = Some true →
     colunas r.2 = unir_colunas (colunas df_excel)
                     (colunas (rename dados_banco))
     ∧ linhas r.2
       ≡ₚ filter (fun r => chave_linha r
                           ∉ chave_linha <$> preparar dados_banco)
             (astype_str <$> linhas df_excel)
          ++ preparar dados_banco
     ∧ Sorted por_chave (linhas r.2)).
Proof.
  intros r vazio com_chave. subst r vazio com_chave.
  unfold atualizar_planilha_avancado.
  case_bool_decide as Hvazio; [|case_bool_decide as Hcols]; simpl.
  - split_and!; try done; try (split; [done|tauto]).
  - split_and!; try done; try (split; [done|tauto]).
    intros _. split_and!; [done| |apply Sorted_merge_sort, _].
    unfold sort_values. rewrite merge_sort_Permutation.
    apply df_final_perm.
  - split_and!; try done; try (split; [done|tauto]).
Qed.

(** On frames held in memory, with cells whose string is the string they
    were made from, reconciling the result of a reconciliation again
    changes no row.  Two runs of the routine are not that composition:
    the second run reads the workbook the first one wrote, see
    [read_excel_de_volta]. *)
Lemma reconciliacao_em_memoria (dados_banco df_excel : Frame) :
  let r1 := atualizar_planilha_avancado dados_banco df_excel in
  let r2 := atualizar_planilha_avancado dados_banco r1.2 in
  linhas r2.2 ≡ₚ linhas r1.2.
Proof.
  intros r1 r2. subst r2 r1.
  destruct (decide (linhas dados_banco = [] ∨ colunas dados_banco = []))
    as [Hvazio|Hvazio].
  { assert (∀ X, atualizar_planilha_avancado dados_banco X = (None, X))
      as Hr.
    { intros X. unfold atualizar_planilha_avancado.
      by rewrite bool_decide_eq_true_2. }
    rewrite !Hr. simpl. done. }
  destruct (decide (coluna_ordem ∈ colunas (rename dados_banco)
                    ∧ coluna_ordem ∈ colunas df_excel)) as [Hcols|Hcols].
  2:{ assert (atualizar_planilha_avancado dados_banco df_excel
              = (Some false, df_excel)) as Hr.
      { unfold atualizar_planilha_avancado.
        rewrite bool_decide_eq_false_2 by done.
        by rewrite bool_decide_eq_false_2. }
      rewrite !Hr. simpl. rewrite Hr. done. }
  set (P := preparar dados_banco).
  set (E := astype_str <$> linhas df_excel).
  set (G := filter (fun r => chave_linha r ∉ chave_linha <$> P) E).
  set (S1 := {| colunas := unir_colunas (colunas df_excel)
                             (colunas (rename dados_banco));
                linhas := sort_values (df_final_de P E) |}).
  assert (atualizar_planilha_avancado dados_banco df_excel
          = (Some true, S1)) as Hr1.
  { unfold atualizar_planilha_avancado.
    rewrite bool_decide_eq_false_2 by done.
    by rewrite bool_decide_eq_true_2. }
  assert (atualizar_planilha_avancado dados_banco S1
          = (Some true,
             {| colunas := unir_colunas (colunas S1)
                             (colunas (rename dados_banco));
                linhas := sort_values
                            (df_final_de P (astype_str <$> linhas S1)) |}))
    as Hr2.
  { unfold atualizar_planilha_avancado.
    rewrite bool_decide_eq_false_2 by done.
    rewrite bool_decide_eq_true_2; [done|].
    split; [tauto|]. simpl. unfold unir_colunas. apply elem_of_app. tauto. }
  rewrite Hr1. simpl. rewrite Hr2. simpl.
  assert (sort_values (df_final_de P E) ≡ₚ G ++ P) as HS1.
  { unfold sort_values. rewrite merge_sort_Permutation.
    apply df_final_perm. }
  assert (astype_str <$> sort_values (df_final_de P E)
          = sort_values (df_final_de P E)) as ->.
  { rewrite <- (list_fmap_id (sort_values (df_final_de P E))) at 2.
    apply list_fmap_ext. intros i r Hr. simpl.
    apply list_elem_of_lookup_2 in Hr. rewrite HS1 in Hr.
    apply elem_of_app in Hr as [Hr|Hr].
    - apply list_elem_of_filter in Hr as [_ Hr].
      apply list_elem_of_fmap in Hr as (r0 & -> & _). apply astype_idem.
    - apply drop_duplicates_sub in Hr.
      apply list_elem_of_fmap in Hr as (r0 & -> & _). apply astype_idem. }
  unfold sort_values at 1. rewrite merge_sort_Permutation.
  rewrite df_final_perm. rewrite HS1 at 2. apply Permutation_app_tail.
  rewrite HS1, filter_app.
  assert (filter (fun r => chave_linha r ∉ chave_linha <$> P) P = [])
    as ->.
  { apply filter_nenhum. intros r Hr Hn. apply Hn.
    by apply list_elem_of_fmap_2. }
  rewrite app_nil_r. subst G. rewrite list_filter_filter.
  erewrite list_filter_iff; [done|]. tauto.
Qed.

End ReconciliacaoProvas.

Example reconciliacao_cenario :
  let r1 := AmostrasPlanilha.reconciliar AmostrasPlanilha.banco
              AmostrasPlanilha.excel in
  r1.1 = Some true
  ∧ linhas r1.2
    = [ {[ "CONTRATO" := "ORD3"; "NAVIO" := "MAERSK LIMA"; "id" := "ORD3" ]};
        {[ "CONTRATO" := "ORD4"; "NAVIO" := "MSC AURORA"; "id" := "ORD4" ]};
        {[ "CONTRATO" := "ORD5"; "NAVIO" := "CMA TIGRIS";
           "OBS" := "manual" ]} ].
Proof. split; vm_compute; reflexivity. Qed.

Lemma tres_execucoes_Some (dados_banco df_excel : Frame Celula) l :
  tres_execucoes dados_banco df_excel = Some l →
  let r1 := atualizar_planilha_avancado dados_banco df_excel in
  ∃ r2 r3,
    nova_execucao dados_banco r1.2 = Some r2
    ∧ nova_execucao dados_banco r2.2 = Some r3
    ∧ l = [resumo r1; resumo r2; resumo r3].
Proof.
  unfold tres_execucoes. intros H. cbv zeta.
  destruct (nova_execucao dados_banco _) as [r2|] eqn:H2; [|done].
  simpl in H.
  destruct (nova_execucao dados_banco r2.2) as [r3|] eqn:H3; [|done].
  simpl in H. exists r2, r3. split_and!; congruence.
Qed.

(** C6: run again on the sheet it wrote, with the relational rows
    unchanged, the reconciliation does not yield a set-equal result.  For
    the table with the orders "007" and "0010" and a sheet with its header
    row only, the first run writes the two relational rows; the second
    reads their keys back as the integers 10 and 7, takes both rows for
    rows of the sheet alone, keeps them and appends the relational rows
    again; the third does the same.  Every run returns [True]; the sheet
    holds two, four, then six rows. *)
Theorem reconciliacao_cresce_na_releitura :
  let r1 := atualizar_planilha_avancado AmostrasReleitura.banco
              AmostrasReleitura.planilha in
  ∃ r2 r3,
    nova_execucao AmostrasReleitura.banco r1.2 = Some r2
    ∧ nova_execucao AmostrasReleitura.banco r2.2 = Some r3
    ∧ resumo r1 = (Some true, ["0010"; "007"])
    ∧ resumo r2 = (Some true, ["0010"; "007"; "10"; "7"])
    ∧ resumo r3 = (Some true, ["0010"; "007"; "10"; "10"; "7"; "7"])
    ∧ ¬ linhas r2.2 ≡ₚ linhas r1.2.
Proof.
  intros r1.
  assert (tres_execucoes AmostrasReleitura.banco AmostrasReleitura.planilha
          = Some [(Some true, ["0010"; "007"]);
                  (Some true, ["0010"; "007"; "10"; "7"]);
                  (Some true, ["0010"; "007"; "10"; "10"; "7"; "7"])])
    as H by (vm_compute; reflexivity).
  apply tres_execucoes_Some in H as (r2 & r3 & H2 & H3 & Hl).
  fold r1 in H2, Hl. clearbody r1.
  assert (resumo r1 = (Some true, ["0010"; "007"])
          ∧ resumo r2 = (Some true, ["0010"; "007"; "10"; "7"])
          ∧ resumo r3 = (Some true, ["0010"; "007"; "10"; "10"; "7"; "7"]))
    as (Hr1 & Hr2 & Hr3) by (split_and!; congruence).
  exists r2, r3. split_and!; try done.
  intros Hp%Permutation_length.
  apply (f_equal (fun p => length p.2)) in Hr1, Hr2.
  unfold resumo in Hr1, Hr2. simpl in Hr1, Hr2.
  rewrite length_fmap in Hr1, Hr2. lia.
Qed.

(** * Further properties of the store *)

Lemma encontrar_desde_insert (j n : nat) (es : list Email) k ex email :
  encontrar_desde j es k = Some (Some ((j + n)%nat, ex)) →
  es !! n = Some ex → chave email = Some k →
  encontrar_desde j (<[n := email]> es) k = Some (Some ((j + n)%nat, email)).
Proof.
  revert j n. induction es as [|x es IH]; intros j [|n] Hf Hn Hk;
    simplify_eq/=.
  - unfold chave in Hk. rewrite Hk. simpl.
    rewrite bool_decide_eq_true_2 by done. by rewrite Nat.add_0_r.
  - destruct (ordem_de (dados_exportacao x)) as [o|]; simpl in *; [|done].
    case_bool_decide.
    + injection Hf as Hj _. lia.
    + replace (j + S n)%nat with (S j + n)%nat in * by lia.
      by apply IH.
Qed.

(** What a save that answers [True] leaves. *)
Lemma salvar_true amb email ordens w ordens' w' :
  salvar_json_incremental_rapido amb email ordens w = ((true, ordens'), w') →
  ∃ d, coerente w' d ∧ email ∈ emails d.
Proof.
  unfold salvar_json_incremental_rapido.
  destruct (ordem_de (dados_exportacao email)) as [k|]; [|done].
  destruct (carregar_json_existente_rapido amb w) as [l w1].
  destruct (heap w1 !! l) as [d0|]; [|done].
  assert (∀ dados o, persistir amb l dados o w1 = ((true, ordens'), w') →
                     coerente w' dados) as Hp.
  { intros dados o. unfold persistir, gravar.
    destruct (escrita amb); simpl; intros [= <- <-].
    split; [done|]. exists l. split; [done|]. apply lookup_insert_eq. }
  destruct (PyStr.truthy k && bool_decide (k ∈ ordens)).
  - destruct (encontrar_email_por_ordem d0 k) as [[[i ex]|]|] eqn:He;
      try done.
    destruct (comparar_datas_email _ _); [|done].
    intros H. eexists. split; [by eapply Hp|]. simpl.
    apply encontrar_desde_Some in He as (n & -> & Hn & _).
    apply list_elem_of_lookup. exists n.
    apply list_lookup_insert_eq. by eapply lookup_lt_Some.
  - intros H. eexists. split; [by eapply Hp|]. simpl.
    apply elem_of_app. right. left.
Qed.

(** X1: a save that answers [True] is seen by every later load, whatever
    the clock reads: the load returns exactly the snapshot written to the
    file, and that snapshot holds the document. *)
Theorem carga_apos_salvar (amb amb' : Amb) (email : Email)
    (ordens : gset string) (w : Mundo) :
  let r := salvar_json_incremental_rapido amb email ordens w in
  r.1.1 = true →
  ∃ d l w2,
    arquivo r.2 = Conteudo d
    ∧ email ∈ emails d
    ∧ carregar_json_existente_rapido amb' r.2 = (l, w2)
    ∧ heap w2 !! l = Some d
    ∧ arquivo w2 = Conteudo d.
Proof.
  intros r Ht. subst r.
  destruct (salvar_json_incremental_rapido amb email ordens w)
    as [[ok o] w'] eqn:Hs. simpl in *. subst ok.
  destruct (salvar_true _ _ _ _ _ _ Hs) as (d & Hco & Hin).
  destruct (carregar_json_existente_rapido amb' w') as [l w2] eqn:Hc.
  destruct (carregar_coerente _ _ _ _ _ Hco Hc) as [Hd [Ha _]].
  exists d, l, w2. destruct Hco as [Ha' _]. done.
Qed.

Lemma carga_apos_salvar_witness :
  ∃ d l w2,
    arquivo (salvar_json_incremental_rapido (Amostras.amb_ok 1700000000)
               Amostras.doc_A ∅ mundo_inicial).2 = Conteudo d
    ∧ Amostras.doc_A ∈ emails d
    ∧ carregar_json_existente_rapido (Amostras.amb_ok 1700000500)
        (salvar_json_incremental_rapido (Amostras.amb_ok 1700000000)
           Amostras.doc_A ∅ mundo_inicial).2 = (l, w2)
    ∧ heap w2 !! l = Some d
    ∧ arquivo w2 = Conteudo d.
Proof.
  apply (carga_apos_salvar (Amostras.amb_ok 1700000000)
           (Amostras.amb_ok 1700000500) Amostras.doc_A ∅ mundo_inicial).
  vm_compute. reflexivity.
Defined.

(** X2: after any run from the empty store, a save of a document with a
    non-empty key that answers [True] can be read back by that key: the
    lookup in the written snapshot returns this very document. *)
Theorem consulta_apos_salvar (ps : list Acao) (amb : Amb) (email : Email)
    (k : string) :
  let ordens := (executar ps ∅ mundo_inicial).1 in
  let w := (executar ps ∅ mundo_inicial).2 in
  let r := salvar_json_incremental_rapido amb email ordens w in
  chave email = Some k → k ≠ "" → r.1.1 = true →
  ∃ d i, arquivo r.2 = Conteudo d
         ∧ encontrar_email_por_ordem d k = Some (Some (i, email)).
Proof.
  intros ordens w r Hk Hne Ht. subst r.
  pose proof (executar_inv ps ∅ mundo_inicial inv_inicial) as Hinv.
  fold ordens w in Hinv. revert Ht.
  unfold salvar_json_incremental_rapido. unfold chave in Hk. rewrite Hk.
  destruct (carregar_json_existente_rapido amb w) as [l w1] eqn:Hc.
  destruct (carregar_inv _ _ _ _ _ Hinv Hc) as (_ & _ & d0 & Hd0 & Hbf).
  rewrite Hd0.
  assert (∀ dados o, (persistir amb l dados o w1).1.1 = true →
                     arquivo (persistir amb l dados o w1).2 = Conteudo dados)
    as Hp.
  { intros dados o. unfold persistir, gravar.
    destruct (escrita amb); simpl; done. }
  destruct (PyStr.truthy k && bool_decide (k ∈ ordens)) eqn:Hb.
  - destruct (encontrar_email_por_ordem d0 k) as [[[i ex]|]|] eqn:He;
      try done.
    destruct (comparar_datas_email _ _); [|done].
    intros Ht. eexists _, i. split; [by apply Hp|].
    pose proof He as He'.
    apply encontrar_desde_Some in He' as (n & Hi & Hn & _).
    simpl in Hi. subst i. unfold encontrar_email_por_ordem. simpl.
    by apply (encontrar_desde_insert 0 n _ _ ex).
  - intros Ht. eexists _, _. split; [by apply Hp|].
    apply (encontrar_desde_app_novo 0); [|done].
    apply (bem_formado_ausente ordens); [done|done|].
    rewrite (proj2 (truthy_iff k) Hne) in Hb. simpl in Hb.
    by apply bool_decide_eq_false in Hb.
Qed.

Lemma consulta_apos_salvar_witness :
  ∃ d i,
    arquivo (salvar_json_incremental_rapido (Amostras.amb_ok 1700000060)
               Amostras.doc_B {["ORD1"]}
               (executar [Salvar (Amostras.amb_ok 1700000000) Amostras.doc_A]
                  ∅ mundo_inicial).2).2 = Conteudo d
    ∧ encontrar_email_por_ordem d "ORD1" = Some (Some (i, Amostras.doc_B)).
Proof.
  apply (consulta_apos_salvar
           [Salvar (Amostras.amb_ok 1700000000) Amostras.doc_A]
           (Amostras.amb_ok 1700000060) Amostras.doc_B "ORD1").
  - vm_compute. reflexivity.
  - discriminate.
  - vm_compute. reflexivity.
Defined.

(** ** The key set of the caller and the key list of the metadata *)

Lemma uniao_presente (k : string) (X : gset string) :
  k ∈ X → X = X ∪ {[k]}.
Proof.
  intros Hk. apply set_eq. intros x.
  rewrite elem_of_union, elem_of_singleton. split; [by left|].
  by intros [?| ->].
Qed.

Lemma chaves_um (email : Email) :
  list_to_set (chaves [email]) =@{gset string}
  match chave email with
  | Some k => if PyStr.truthy k then {[k]} else ∅
  | None => ∅
  end.
Proof.
  unfold chaves. simpl. destruct (chave email) as [k|]; simpl; [|done].
  destruct (decide (k = "")) as [->|Hne].
  - by rewrite filter_cons_False by (intros ?; done).
  - rewrite filter_cons_True by done.
    rewrite (proj2 (truthy_iff k) Hne). simpl. apply union_empty_r_L.
Qed.

Lemma chaves_app (es es' : list Email) :
  chaves (es ++ es') = chaves es ++ chaves es'.
Proof. unfold chaves. by rewrite omap_app, filter_app. Qed.

Lemma salvar_ordens amb email ordens w :
  inv ordens w →
  (salvar_json_incremental_rapido amb email ordens w).1.2
  = ordens ∪ list_to_set (chaves [email]).
Proof.
  intros Hinv. rewrite chaves_um. unfold salvar_json_incremental_rapido, chave.
  destruct (ordem_de (dados_exportacao email)) as [k|]; simpl;
    [|by rewrite union_empty_r_L].
  destruct (carregar_json_existente_rapido amb w) as [l w1] eqn:Hc.
  destruct (carregar_inv _ _ _ _ _ Hinv Hc) as (_ & _ & d0 & Hd0 & _).
  rewrite Hd0.
  assert (∀ dados o, (persistir amb l dados o w1).1.2 = o) as Hp.
  { intros dados o. unfold persistir.
    by destruct (gravar amb l dados _). }
  destruct (PyStr.truthy k) eqn:Ht; simpl.
  - case_bool_decide as Hin.
    + destruct (encontrar_email_por_ordem d0 k) as [[[i ex]|]|];
        [destruct (comparar_datas_email _ _)| |]; rewrite ?Hp; simpl;
        by apply uniao_presente.
    + rewrite Hp. unfold ordens_apos. rewrite Ht. apply (comm_L (∪)).
  - rewrite Hp. unfold ordens_apos. rewrite Ht. by rewrite union_empty_r_L.
Qed.

(** X3: the key set a caller holds after a series of saves is the set it
    held before plus the non-empty keys of all the documents it submitted,
    whatever the saves answered and whatever the writes did: the key of a
    document whose write failed is in the set as well. *)
Theorem chaves_apresentadas (ps : list Acao) (docs : list (Amb * Email)) :
  (executar (salvamentos docs) (executar ps ∅ mundo_inicial).1
     (executar ps ∅ mundo_inicial).2).1
  = (executar ps ∅ mundo_inicial).1 ∪ list_to_set (chaves docs.*2).
Proof.
  pose proof (executar_inv ps ∅ mundo_inicial inv_inicial) as Hinv.
  revert Hinv. generalize (executar ps ∅ mundo_inicial).1
    (executar ps ∅ mundo_inicial).2.
  induction docs as [|[amb email] docs IH]; intros ordens w Hinv.
  - simpl. by rewrite union_empty_r_L.
  - pose proof (salvar_ordens amb email ordens w Hinv) as Ho.
    rewrite fmap_cons. unfold salvamentos. rewrite fmap_cons.
    fold (salvamentos docs). cbn [executar fst snd].
    destruct (salvar_json_incremental_rapido amb email ordens w)
      as [[ok ordens'] w'] eqn:Hs. simpl in Ho.
    destruct (salvar_inv _ _ _ _ _ _ _ Hinv Hs) as [_ Hinv'].
    rewrite (IH _ _ Hinv'), Ho.
    pose proof (chaves_app [email] docs.*2) as Hc.
    change ([email] ++ docs.*2) with (email :: docs.*2) in Hc.
    by rewrite Hc, list_to_set_app_L, assoc_L by apply _.
Qed.

Lemma salvar_em_dia amb email ordens w :
  escrita amb = EscritaOk → em_dia ordens w →
  em_dia (salvar_json_incremental_rapido amb email ordens w).1.2
    (salvar_json_incremental_rapido amb email ordens w).2.
Proof.
  intros He HK. unfold em_dia in *.
  destruct (chave email) as [k|] eqn:Hk; cycle 1.
  { unfold salvar_json_incremental_rapido. unfold chave in Hk.
    rewrite Hk. simpl. done. }
  right.
  destruct (carregar_json_existente_rapido amb w) as [l w1] eqn:Hc.
  assert (∃ d0, heap w1 !! l = Some d0
      ∧ NoDup (ordens_unicas (store_metadata d0))
      ∧ list_to_set (ordens_unicas (store_metadata d0)) = ordens
      ∧ list_to_set (chaves (emails d0)) = ordens
      ∧ ((∃ f, arquivo w = Conteudo f) → coerente w1 d0))
    as (d0 & Hd0 & Hnd & Hl & Hch & Hco).
  { destruct HK as [[-> ->] | (d & Hco & Hnd & Hl & Hch)].
    - unfold carregar_json_existente_rapido, alocar in Hc. simpl in Hc.
      injection Hc as <- <-.
      eexists. split; [apply lookup_insert_eq|]. simpl.
      split_and!; try done; [constructor|]. by intros [f Hf].
    - destruct (carregar_coerente _ _ _ _ _ Hco Hc) as [Hd Hco'].
      exists d. by split_and!. }
  destruct (PyStr.truthy k && bool_decide (k ∈ ordens)) eqn:Hb.
  - apply andb_true_iff in Hb as [Ht Hin].
    apply truthy_iff in Ht. apply bool_decide_eq_true in Hin.
    assert (∃ f, arquivo w = Conteudo f) as Hf.
    { destruct HK as [[-> ->] | (d & [Ha _] & _)]; [set_solver|eauto]. }
    specialize (Hco Hf).
    destruct (encontrar_email_por_ordem d0 k) as [[[i ex]|]|] eqn:Hfind.
    + destruct (comparar_datas_email (data_recebimento (metadata email))
                  (data_recebimento (metadata ex))) eqn:Hcmp.
      * destruct (salvar_substitui _ _ _ _ _ _ _ _ _ _ Hc Hd0 Hk Ht Hin
                    Hfind Hcmp He) as (w' & -> & Hco').
        simpl. eexists. split; [exact Hco'|]. simpl.
        split_and!; try done.
        apply encontrar_desde_Some in Hfind as (n & Hi & Hn & Hkx).
        simpl in Hi. subst i.
        unfold chaves. rewrite (omap_chave_insert _ _ ex); [done|done|].
        congruence.
      * rewrite (salvar_rejeita _ _ _ _ _ _ _ _ _ _ Hc Hd0 Hk Ht Hin
                   Hfind Hcmp). simpl. exists d0. by split_and!.
    + unfold salvar_json_incremental_rapido. unfold chave in Hk.
      rewrite Hk, Hc, Hd0, (proj2 (truthy_iff k) Ht),
        bool_decide_eq_true_2, Hfind by done. simpl.
      exists d0. by split_and!.
    + unfold salvar_json_incremental_rapido. unfold chave in Hk.
      rewrite Hk, Hc, Hd0, (proj2 (truthy_iff k) Ht),
        bool_decide_eq_true_2, Hfind by done. simpl.
      exists d0. by split_and!.
  - destruct (salvar_acrescenta _ _ _ _ _ _ _ _ Hc Hd0 Hk Hb He)
      as (w' & -> & Hco').
    simpl. eexists. split; [exact Hco'|]. simpl.
    rewrite chaves_app, list_to_set_app_L, Hch, chaves_um, Hk.
    unfold ordens_apos. destruct (PyStr.truthy k); simpl.
    + split_and!; [apply NoDup_elements| |apply (comm_L (∪))].
      apply set_eq. intros x. rewrite elem_of_list_to_set, elem_of_elements.
      done.
    + split_and!; [done|done|apply union_empty_r_L].
Qed.

(** X4: when every write succeeds, after any series of saves from the
    empty store the key list of the metadata in the file has no repeated
    entry and is, as a set, the caller's key set, which is also the set
    of the non-empty keys of the stored documents. *)
Theorem lista_de_chaves_em_dia (docs : list (Amb * Email)) (d : Dados) :
  Forall (fun p => escrita p.1 = EscritaOk) docs →
  arquivo (executar (salvamentos docs) ∅ mundo_inicial).2 = Conteudo d →
  NoDup (ordens_unicas (store_metadata d))
  ∧ list_to_set (ordens_unicas (store_metadata d))
    = (executar (salvamentos docs) ∅ mundo_inicial).1
  ∧ list_to_set (chaves (emails d))
    = (executar (salvamentos docs) ∅ mundo_inicial).1.
Proof.
  intros Hok.
  assert (em_dia ∅ mundo_inicial) as HK by (by left).
  revert HK. generalize (∅ : gset string) mundo_inicial.
  induction Hok as [|[amb email] docs He _ IH]; intros ordens w HK; simpl.
  - destruct HK as [[-> ->] | (d' & [Ha _] & Hnd & Hl & Hch)]; [done|].
    intros Hd. rewrite Ha in Hd. injection Hd as <-. done.
  - pose proof (salvar_em_dia amb email ordens w He HK) as HK'.
    destruct (salvar_json_incremental_rapido amb email ordens w)
      as [[ok ordens'] w'] eqn:Hs. simpl in HK'.
    by apply IH.
Qed.

Lemma lista_de_chaves_em_dia_witness :
  ∃ d,
    arquivo (executar (salvamentos
               [(Amostras.amb_ok 1700000000, Amostras.doc_A);
                (Amostras.amb_ok 1700000060, Amostras.doc_B)])
               ∅ mundo_inicial).2 = Conteudo d
    ∧ NoDup (ordens_unicas (store_metadata d))
    ∧ list_to_set (ordens_unicas (store_metadata d))
      = (executar (salvamentos
           [(Amostras.amb_ok 1700000000, Amostras.doc_A);
            (Amostras.amb_ok 1700000060, Amostras.doc_B)])
           ∅ mundo_inicial).1
    ∧ list_to_set (chaves (emails d))
      = (executar (salvamentos
           [(Amostras.amb_ok 1700000000, Amostras.doc_A);
            (Amostras.amb_ok 1700000060, Amostras.doc_B)])
           ∅ mundo_inicial).1.
Proof.
  eexists. split; [vm_compute; reflexivity|].
  apply (lista_de_chaves_em_dia
           [(Amostras.amb_ok 1700000000, Amostras.doc_A);
            (Amostras.amb_ok 1700000060, Amostras.doc_B)]).
  - repeat constructor.
  - vm_compute. reflexivity.
Defined.

(** ** Conflicts at the level of the store *)

(** X5: a candidate for a stored key whose timestamp is not strictly later
    than the stored one (equal included) is answered [False], and file
    and cache still agree on the snapshot they held; the write outcome
    of the environment plays no part. *)
Theorem empate_fica_o_armazenado (amb : Amb) (email : Email)
    (ordens : gset string) (w : Mundo) (d : Dados) (k : string) (i : nat)
    (ex : Email) (t t0 : datetime) :
  coerente w d →
  chave email = Some k → k ≠ "" → k ∈ ordens →
  encontrar_email_por_ordem d k = Some (Some (i, ex)) →
  Strptime.strptime (data_recebimento (metadata email)) formato_data
    = Some t →
  Strptime.strptime (data_recebimento (metadata ex)) formato_data
    = Some t0 →
  ¬ datetime_lt t0 t →
  (salvar_json_incremental_rapido amb email ordens w).1 = (false, ordens)
  ∧ coerente (salvar_json_incremental_rapido amb email ordens w).2 d.
Proof.
  intros Hco Hk Hne Hin Hf Ht Ht0 Hnlt.
  destruct (carregar_json_existente_rapido amb w) as [l w1] eqn:Hc.
  destruct (carregar_coerente _ _ _ _ _ Hco Hc) as [Hd Hco'].
  assert (comparar_datas_email (data_recebimento (metadata email))
            (data_recebimento (metadata ex)) = false) as Hcmp.
  { unfold comparar_datas_email. rewrite Ht, Ht0.
    apply not_true_is_false. by rewrite datetime_ltb_lt. }
  by rewrite (salvar_rejeita _ _ _ _ _ _ _ _ _ _ Hc Hd Hk Hne Hin Hf Hcmp).
Qed.

Lemma empate_fica_o_armazenado_witness :
  (salvar_json_incremental_rapido (Amostras.amb_ok 1700000060)
     Amostras.doc_A {["ORD1"]}
     (salvar_json_incremental_rapido (Amostras.amb_ok 1700000000)
        Amostras.doc_B ∅ mundo_inicial).2).1 = (false, {["ORD1"]})
  ∧ coerente
      (salvar_json_incremental_rapido (Amostras.amb_ok 1700000060)
         Amostras.doc_A {["ORD1"]}
         (salvar_json_incremental_rapido (Amostras.amb_ok 1700000000)
            Amostras.doc_B ∅ mundo_inicial).2).2
      (acrescentar_email "2024-01-03T08:00:00" Amostras.doc_B "ORD1" ∅
         (empty_data "2024-01-03T08:00:00")).
Proof.
  apply (empate_fica_o_armazenado (Amostras.amb_ok 1700000060)
           Amostras.doc_A {["ORD1"]} _ _ "ORD1" 0%nat Amostras.doc_B
           (DateTime 2024 1 1 10 0 0) (DateTime 2024 1 2 9 0 0)).
  - split; [vm_compute; reflexivity|]. exists 0%nat.
    split; vm_compute; reflexivity.
  - vm_compute. reflexivity.
  - discriminate.
  - set_solver.
  - vm_compute. reflexivity.
  - vm_compute. reflexivity.
  - vm_compute. reflexivity.
  - unfold datetime_lt. simpl. lia.
Defined.

(** X6: when the timestamp of the stored document or of the candidate
    does not parse in the fixed layout, the candidate replaces the stored
    document, whatever the two texts are: with a successful write the
    save answers [True], the key set is unchanged, and the written
    snapshot is the loaded one with the candidate at the position of the
    stored document and the same number of documents. *)
Theorem data_ilegivel_substitui (amb : Amb) (email : Email)
    (ordens : gset string) (w : Mundo) (d : Dados) (k : string) (i : nat)
    (ex : Email) :
  coerente w d →
  chave email = Some k → k ≠ "" → k ∈ ordens →
  encontrar_email_por_ordem d k = Some (Some (i, ex)) →
  Strptime.strptime (data_recebimento (metadata email)) formato_data = None
  ∨ Strptime.strptime (data_recebimento (metadata ex)) formato_data = None →
  escrita amb = EscritaOk →
  ∃ d',
    (salvar_json_incremental_rapido amb email ordens w).1 = (true, ordens)
    ∧ coerente (salvar_json_incremental_rapido amb email ordens w).2 d'
    ∧ emails d' = <[i := email]> (emails d)
    ∧ emails d' !! i = Some email
    ∧ length (emails d') = length (emails d).
Proof.
  intros Hco Hk Hne Hin Hf Hnone He.
  destruct (carregar_json_existente_rapido amb w) as [l w1] eqn:Hc.
  destruct (carregar_coerente _ _ _ _ _ Hco Hc) as [Hd Hco'].
  assert (comparar_datas_email (data_recebimento (metadata email))
            (data_recebimento (metadata ex)) = true) as Hcmp.
  { unfold comparar_datas_email.
    destruct Hnone as [-> | ->]; [done|]. by destruct (Strptime.strptime _ _). }
  destruct (salvar_substitui _ _ _ _ _ _ _ _ _ _ Hc Hd Hk Hne Hin Hf Hcmp He)
    as (w' & -> & Hco2).
  eexists. split; [done|]. split; [exact Hco2|]. simpl.
  apply encontrar_desde_Some in Hf as (n & Hi & Hn & _).
  simpl in Hi. subst i. split; [done|]. split.
  - apply list_lookup_insert_eq. by eapply lookup_lt_Some.
  - apply length_insert.
Qed.

Lemma data_ilegivel_substitui_witness :
  ∃ d',
    (salvar_json_incremental_rapido (Amostras.amb_ok 1700000060)
       (Amostras.email 3 "01/01/2020 10:00" (Amostras.com_ordem "ORD1"))
       {["ORD1"]}
       (salvar_json_incremental_rapido (Amostras.amb_ok 1700000000)
          Amostras.doc_B ∅ mundo_inicial).2).1 = (true, {["ORD1"]})
    ∧ coerente
        (salvar_json_incremental_rapido (Amostras.amb_ok 1700000060)
           (Amostras.email 3 "01/01/2020 10:00" (Amostras.com_ordem "ORD1"))
           {["ORD1"]}
           (salvar_json_incremental_rapido (Amostras.amb_ok 1700000000)
              Amostras.doc_B ∅ mundo_inicial).2).2 d'
    ∧ emails d'
      = <[0%nat := Amostras.email 3 "01/01/2020 10:00"
                     (Amostras.com_ordem "ORD1")]>
          (emails (acrescentar_email "2024-01-03T08:00:00" Amostras.doc_B
                     "ORD1" ∅ (empty_data "2024-01-03T08:00:00")))
    ∧ emails d' !! 0%nat
      = Some (Amostras.email 3 "01/01/2020 10:00" (Amostras.com_ordem "ORD1"))
    ∧ length (emails d')
      = length (emails (acrescentar_email "2024-01-03T08:00:00"
                          Amostras.doc_B "ORD1" ∅
                          (empty_data "2024-01-03T08:00:00"))).
Proof.
  apply (data_ilegivel_substitui (Amostras.amb_ok 1700000060)
           (Amostras.email 3 "01/01/2020 10:00" (Amostras.com_ordem "ORD1"))
           {["ORD1"]} _ _ "ORD1" 0%nat Amostras.doc_B).
  - split; [vm_compute; reflexivity|]. exists 0%nat.
    split; vm_compute; reflexivity.
  - vm_compute. reflexivity.
  - discriminate.
  - set_solver.
  - vm_compute. reflexivity.
  - left. vm_compute. reflexivity.
  - reflexivity.
Defined.

(** ** A failed write and the key set *)

Lemma carregar_vencido amb w :
  (∀ l, json_cache w = Some l →
        Qle_bool 30 (agora amb - json_cache_time w) = true) →
  ∃ l w1, carregar_json_existente_rapido amb w = (l, w1)
    ∧ arquivo w1 = arquivo w
    ∧ heap w1 !! l = Some (match arquivo w with
                           | Conteudo d => d
                           | Ausente | Truncado => empty_data (agora_iso amb)
                           end).
Proof.
  intros Hv. unfold carregar_json_existente_rapido.
  assert (∃ l w1,
    match arquivo w with
    | Conteudo d =>
        let '(l, w') := alocar d w in
        (l, {| heap := heap w'; prox := prox w'; json_cache := json_cache w';
               json_cache_time := agora amb; arquivo := arquivo w' |})
    | Ausente | Truncado => alocar (empty_data (agora_iso amb)) w
    end = (l, w1)
    ∧ arquivo w1 = arquivo w
    ∧ heap w1 !! l = Some (match arquivo w with
                           | Conteudo d => d
                           | Ausente | Truncado => empty_data (agora_iso amb)
                           end)) as Hrec.
  { destruct (arquivo w) as [|d|] eqn:Ha; unfold alocar; simpl;
      eexists _, _; (split; [reflexivity|]); simpl;
      (split; [done|]); apply lookup_insert_eq. }
  destruct (json_cache w) as [l0|]; [|exact Hrec].
  by rewrite (Hv l0 eq_refl).
Qed.

Lemma encontrar_desde_ausente (i : nat) (es : list Email) k :
  Forall (fun e' => ∃ k', chave e' = Some k' ∧ k' ≠ k) es →
  encontrar_desde i es k = Some None.
Proof.
  intros Hall. revert i. induction Hall as [|x es (k' & Hx & Hne) _ IH];
    intros i; simpl; [done|].
  unfold chave in Hx. rewrite Hx. simpl.
  by rewrite bool_decide_eq_false_2.
Qed.

(** X7: after any run from the empty store, when the write of a document
    with a new non-empty key fails, the save answers [False] but the key is
    in the set handed back.  From then on, a save of any document with that
    key that reads the snapshot from the file (the cache being 30 seconds
    old or more) is answered [False] as a duplicate and leaves the file as
    it is, although the file holds no document with that key. *)
Theorem chave_presa_apos_falha (ps : list Acao) (amb amb' : Amb)
    (email email' : Email) (k : string) :
  let ordens := (executar ps ∅ mundo_inicial).1 in
  let w := (executar ps ∅ mundo_inicial).2 in
  let r := salvar_json_incremental_rapido amb email ordens w in
  let r' := salvar_json_incremental_rapido amb' email' r.1.2 r.2 in
  chave email = Some k → k ≠ "" → k ∉ ordens →
  escrita amb ≠ EscritaOk →
  chave email' = Some k →
  Qle_bool 30 (agora amb' - json_cache_time r.2) = true →
  r.1 = (false, {[k]} ∪ ordens)
  ∧ r'.1 = (false, {[k]} ∪ ordens)
  ∧ arquivo r'.2 = arquivo r.2
  ∧ ∀ f, arquivo r'.2 = Conteudo f → com_chave k f = [].
Proof.
  intros ordens w r r' Hk Hne Hnin Hesc Hk' Hvenc.
  pose proof (executar_inv ps ∅ mundo_inicial inv_inicial) as Hinv.
  fold ordens w in Hinv.
  (* the first save *)
  assert (r.1 = (false, {[k]} ∪ ordens)
          ∧ (arquivo r.2 = arquivo w ∨ arquivo r.2 = Truncado)) as [Hr1 Harq].
  { subst r. unfold salvar_json_incremental_rapido.
    unfold chave in Hk. rewrite Hk.
    destruct (carregar_json_existente_rapido amb w) as [l w1] eqn:Hc.
    destruct (carregar_inv _ _ _ _ _ Hinv Hc) as (_ & _ & d0 & Hd0 & _).
    destruct (carregar_spec _ _ _ _ Hc) as (_ & Ha & _).
    rewrite Hd0, (proj2 (truthy_iff k) Hne), bool_decide_eq_false_2 by done.
    simpl. unfold persistir, gravar, ordens_apos.
    rewrite (proj2 (truthy_iff k) Hne).
    destruct (escrita amb); simpl; [done| |]; split; auto. }
  assert (∀ f, arquivo r.2 = Conteudo f →
               Forall (fun e' => ∃ k', chave e' = Some k' ∧ k' ≠ k) (emails f))
    as Hsem.
  { intros f Hf. apply (bem_formado_ausente ordens); [|done|done].
    apply (inv_arquivo _ _ Hinv). destruct Harq as [<- | Ht]; [done|].
    congruence. }
  split; [done|].
  (* the later save *)
  destruct (carregar_vencido amb' r.2 (fun _ _ => Hvenc))
    as (l & w2 & Hc & Ha & Hd).
  assert (encontrar_email_por_ordem
            match arquivo r.2 with
            | Conteudo d => d
            | Ausente | Truncado => empty_data (agora_iso amb')
            end k = Some None) as Hfind.
  { unfold encontrar_email_por_ordem.
    destruct (arquivo r.2) as [|f|] eqn:Hf; [done| |done].
    by apply encontrar_desde_ausente, Hsem. }
  assert (r' = ((false, {[k]} ∪ ordens), w2)) as ->.
  { subst r'. rewrite Hr1. simpl. unfold salvar_json_incremental_rapido.
    unfold chave in Hk'. rewrite Hk', Hc, Hd.
    rewrite (proj2 (truthy_iff k) Hne), bool_decide_eq_true_2
      by (apply elem_of_union_l, elem_of_singleton_2; done).
    simpl. by rewrite Hfind. }
  simpl. split; [done|]. split; [done|].
  intros f Hf. rewrite Ha in Hf. specialize (Hsem f Hf).
  unfold com_chave. induction Hsem as [|x es (k' & Hx & Hn) _ IH]; [done|].
  rewrite filter_cons_False; [done|]. congruence.
Qed.

Lemma chave_presa_apos_falha_witness :
  (salvar_json_incremental_rapido
     (Amostras.amb_falha 1700000000 FalhaAoAbrir) Amostras.doc_A ∅
     mundo_inicial).1 = (false, {["ORD1"]} ∪ ∅)
  ∧ (salvar_json_incremental_rapido (Amostras.amb_ok 1700000060)
       Amostras.doc_B
       (salvar_json_incremental_rapido
          (Amostras.amb_falha 1700000000 FalhaAoAbrir) Amostras.doc_A ∅
          mundo_inicial).1.2
       (salvar_json_incremental_rapido
          (Amostras.amb_falha 1700000000 FalhaAoAbrir) Amostras.doc_A ∅
          mundo_inicial).2).1 = (false, {["ORD1"]} ∪ ∅)
  ∧ arquivo
      (salvar_json_incremental_rapido (Amostras.amb_ok 1700000060)
         Amostras.doc_B
         (salvar_json_incremental_rapido
            (Amostras.amb_falha 1700000000 FalhaAoAbrir) Amostras.doc_A ∅
            mundo_inicial).1.2
         (salvar_json_incremental_rapido
            (Amostras.amb_falha 1700000000 FalhaAoAbrir) Amostras.doc_A ∅
            mundo_inicial).2).2
    = arquivo
        (salvar_json_incremental_rapido
           (Amostras.amb_falha 1700000000 FalhaAoAbrir) Amostras.doc_A ∅
           mundo_inicial).2
  ∧ ∀ f,
      arquivo
        (salvar_json_incremental_rapido (Amostras.amb_ok 1700000060)
           Amostras.doc_B
           (salvar_json_incremental_rapido
              (Amostras.amb_falha 1700000000 FalhaAoAbrir) Amostras.doc_A ∅
              mundo_inicial).1.2
           (salvar_json_incremental_rapido
              (Amostras.amb_falha 1700000000 FalhaAoAbrir) Amostras.doc_A ∅
              mundo_inicial).2).2 = Conteudo f →
      com_chave "ORD1" f = [].
Proof.
  apply (chave_presa_apos_falha [] (Amostras.amb_falha 1700000000 FalhaAoAbrir)
           (Amostras.amb_ok 1700000060) Amostras.doc_A Amostras.doc_B "ORD1").
  - vm_compute. reflexivity.
  - discriminate.
  - set_solver.
  - discriminate.
  - vm_compute. reflexivity.
  - vm_compute. reflexivity.
Defined.

(** * The callers of the store *)

Section Chamadores.

Variable dateutil_parse : string -> option date.
Variable md5_hexdigest : string -> string.

(** The relational sync touches the process state through its load
    only. *)
Lemma sincronizar_carrega amb w tabela :
  ∃ l, carregar_json_existente_rapido amb w
       = (l, (sincronizar_json_para_banco dateutil_parse md5_hexdigest
                amb w tabela).2).
Proof.
  unfold sincronizar_json_para_banco.
  destruct (carregar_json_existente_rapido amb w) as [l w1].
  exists l. destruct (heap w1 !! l); [|done].
  by destruct (sincronizar_emails _ _ _ _ _).
Qed.

Lemma sincronizar_inv ordens amb w tabela :
  inv ordens w →
  inv ordens (sincronizar_json_para_banco dateutil_parse md5_hexdigest
                amb w tabela).2.
Proof.
  intros Hinv. destruct (sincronizar_carrega amb w tabela) as [l Hc].
  by destruct (carregar_inv _ _ _ _ _ Hinv Hc).
Qed.

Lemma processar_lote_desde_inv lote dados s c ordens w :
  inv ordens w →
  inv (ordens_finais (processar_lote_desde dateutil_parse md5_hexdigest
                        lote dados s c ordens w))
      (mundo_final (processar_lote_desde dateutil_parse md5_hexdigest
                      lote dados s c ordens w)).
Proof.
  revert s c ordens w. induction lote as [|ch lote IH];
    intros s c ordens w Hinv; simpl; [done|].
  destruct (heap w !! dados) as [snapshot|]; [|done].
  destruct (ordem_de (eb_dados_exportacao (bruto ch))) as [ordem|]; [|done].
  match goal with
  | |- context [match ?a with Some _ => _ | None => _ end] =>
      destruct a as [atualizado|]; [|done]
  end.
  match goal with
  | |- context [salvar_json_incremental_rapido ?a ?e ?o ?w] =>
      destruct (salvar_json_incremental_rapido a e o w)
        as [[sucesso ordens'] w'] eqn:Hs
  end.
  destruct (salvar_inv _ _ _ _ _ _ _ Hinv Hs) as [_ Hinv'].
  destruct sucesso; [|by apply IH].
  destruct s as [tabela|]; [|by apply IH].
  pose proof (sincronizar_inv ordens' (amb_sync ch) w' tabela Hinv') as Hi.
  destruct (sincronizar_json_para_banco _ _ _ _ _) as [[ok tabela'] w''].
  by apply IH.
Qed.

Lemma processar_lote_desde_contadores lote dados s c ordens w c' :
  contadores (processar_lote_desde dateutil_parse md5_hexdigest
                lote dados s c ordens w) = Some c' →
  emails_processados c' + emails_duplicados c'
  = emails_processados c + emails_duplicados c + Z.of_nat (length lote)
  ∧ emails_processados c ≤ emails_processados c'
  ∧ emails_duplicados c ≤ emails_duplicados c'
  ∧ emails_atualizados c ≤ emails_atualizados c'
    ≤ emails_atualizados c + Z.of_nat (length lote).
Proof.
  revert s c ordens w. induction lote as [|ch lote IH];
    intros s c ordens w; simpl.
  { intros [= <-]. lia. }
  destruct (heap w !! dados) as [snapshot|]; [|done].
  destruct (ordem_de (eb_dados_exportacao (bruto ch))) as [ordem|]; [|done].
  match goal with
  | |- context [match ?a with Some _ => _ | None => _ end] =>
      destruct a as [atualizado|]; [|done]
  end.
  match goal with
  | |- context [salvar_json_incremental_rapido ?a ?e ?o ?w] =>
      destruct (salvar_json_incremental_rapido a e o w)
        as [[sucesso ordens'] w'] eqn:Hs
  end.
  destruct sucesso.
  - destruct s as [tabela|];
      [destruct (sincronizar_json_para_banco _ _ _ _ _) as [[ok tabela'] w'']|];
      intros H; apply IH in H; simpl in H; destruct atualizado; lia.
  - intros H; apply IH in H; simpl in H; destruct atualizado; lia.
Qed.

(** X8: when the batch processor returns, every document of the batch
    has been counted exactly once, as processed (its save answered [True])
    or as duplicate (its save answered [False]); the count of updates is
    at most the size of the batch. *)
Theorem contadores_do_lote (emails_lote : list Chegada) (dados : nat)
    (ordens : gset string) (s : option (list ExportacaoDB)) (w : Mundo)
    (c : Contadores) :
  contadores (processar_lote_emails dateutil_parse md5_hexdigest
                emails_lote dados ordens s w) = Some c →
  emails_processados c + emails_duplicados c
  = Z.of_nat (length emails_lote)
  ∧ 0 ≤ emails_processados c
  ∧ 0 ≤ emails_duplicados c
  ∧ 0 ≤ emails_atualizados c ≤ Z.of_nat (length emails_lote).
Proof.
  unfold processar_lote_emails. intros H.
  apply processar_lote_desde_contadores in H. simpl in H. lia.
Qed.

Lemma monitorar_inv consultas s ordens w :
  inv ordens w →
  ∃ ordens', inv ordens'
    (monitorar_novos_emails_continuamente dateutil_parse md5_hexdigest
       consultas s w).2.
Proof.
  revert s ordens w. induction consultas as [|q consultas IH];
    intros s ordens w Hinv; simpl; [by exists ordens|].
  destruct (carregar_json_existente_rapido (amb_dados q) w)
    as [dados w1] eqn:Hc.
  destruct (carregar_inv _ _ _ _ _ Hinv Hc) as (Hinv1 & _).
  destruct (obter_ordens_unicas_existentes_rapido (amb_ordens q) w1)
    as [ordens2 w2] eqn:Ho.
  pose proof (recarregar_inv _ _ _ _ _ Hinv1 Ho) as Hinv2.
  case_bool_decide; [by eapply IH|].
  pose proof (processar_lote_desde_inv (novos_emails q) dados s
                {| emails_processados := 0; emails_duplicados := 0;
                   emails_atualizados := 0 |} ordens2 w2 Hinv2) as Hl.
  fold (processar_lote_emails dateutil_parse md5_hexdigest (novos_emails q)
          dados ordens2 s w2) in Hl.
  destruct (contadores _); [by eapply IH|]. simpl. eauto.
Qed.

(** X9: the monitoring loop keeps the store to one document per key.
    After any number of polls from the empty store, whatever documents
    the polls bring, whatever the clock readings and the outcomes of the
    writes, with or without a database session, the store file holds at
    most one document for every non-empty order key. *)
Theorem monitor_no_maximo_um (consultas : list Consulta)
    (s : option (list ExportacaoDB)) (d : Dados) (k : string) :
  arquivo (monitorar_novos_emails_continuamente dateutil_parse md5_hexdigest
             consultas s mundo_inicial).2 = Conteudo d →
  k ≠ "" →
  (length (com_chave k d) ≤ 1)%nat.
Proof.
  intros Ha Hk.
  destruct (monitorar_inv consultas s ∅ mundo_inicial inv_inicial)
    as [ordens Hinv].
  apply com_chave_no_maximo_um; [|done].
  by eapply bf_nodup, inv_arquivo.
Qed.

Lemma lotes_concat {A : Type} (t m : nat) (l : list A) :
  (length l ≤ m * t)%nat →
  concat ((fun i => take t (drop i l)) <$> ((fun j => (j * t)%nat) <$> seq 0 m))
  = l.
Proof.
  revert l. induction m as [|m IH]; intros l Hl.
  - destruct l; [done|]. simpl in Hl. lia.
  - etrans; [|apply (take_drop t l)].
    simpl. rewrite drop_0. f_equal.
    etrans; [|apply (IH (drop t l)); rewrite length_drop; lia].
    f_equal. rewrite <- fmap_S_seq, <- !list_fmap_compose.
    apply list_fmap_ext. intros _ j _. simpl. f_equal.
    by rewrite drop_drop.
Qed.

Lemma teto_div (n t : nat) :
  (0 < t)%nat →
  (n ≤ (n + t - 1) / t * t)%nat
  ∧ (∀ j, j < (n + t - 1) / t → j * t < n)%nat.
Proof.
  intros Ht. pose proof (Nat.div_mod (n + t - 1) t ltac:(lia)) as Hd.
  pose proof (Nat.mod_upper_bound (n + t - 1) t ltac:(lia)) as Hm.
  split; [nia|]. intros j Hj. nia.
Qed.

Lemma lotes_concat_todos {A : Type} (emails : list A) :
  concat (lotes tamanho_lote emails) = emails.
Proof.
  unfold lotes, py_range, tamanho_lote.
  destruct (teto_div (length emails) 5 ltac:(lia)) as [Hn _].
  by apply lotes_concat.
Qed.

(** X10: the lots of the single run are a partition of the documents in
    their order: put end to end they are the list of documents, every
    lot holds between one and five documents, and every lot but the last
    holds five. *)
Theorem lotes_particao {A : Type} (emails : list A) :
  concat (lotes tamanho_lote emails) = emails
  ∧ Forall (fun lote => (1 ≤ length lote ≤ tamanho_lote)%nat)
      (lotes tamanho_lote emails)
  ∧ ∀ j lote, lotes tamanho_lote emails !! j = Some lote →
              (S j < length (lotes tamanho_lote emails))%nat →
              length lote = tamanho_lote.
Proof.
  split; [apply lotes_concat_todos|].
  unfold lotes, py_range, tamanho_lote.
  destruct (teto_div (length emails) 5 ltac:(lia)) as [Hn Hj].
  split.
  - apply Forall_forall. intros lote Hl.
    apply list_elem_of_fmap in Hl as (i & -> & Hi).
    apply list_elem_of_fmap in Hi as (j & -> & Hin).
    apply elem_of_seq in Hin. specialize (Hj j ltac:(lia)).
    rewrite length_take, length_drop. lia.
  - intros j lote Hl Hlt.
    rewrite !length_fmap, length_seq in Hlt.
    rewrite !list_lookup_fmap in Hl.
    destruct (seq 0 ((length emails + 5 - 1) / 5) !! j) as [j'|] eqn:Hs;
      [|done].
    apply lookup_seq in Hs as [-> _]. simpl in Hl. injection Hl as <-.
    specialize (Hj (S j) Hlt).
    rewrite length_take, length_drop. lia.
Qed.

Lemma processar_lotes_totais amb_r i ls dados ordens s t w t' :
  totais (processar_lotes dateutil_parse md5_hexdigest amb_r i ls dados
            ordens s t w) = Some t' →
  emails_processados t' + emails_duplicados t'
  = emails_processados t + emails_duplicados t
    + Z.of_nat (length (concat ls))
  ∧ emails_atualizados t ≤ emails_atualizados t'
    ≤ emails_atualizados t + Z.of_nat (length (concat ls)).
Proof.
  revert i dados ordens s t w. induction ls as [|lote ls IH];
    intros i dados ordens s t w; simpl.
  { intros [= <-]. lia. }
  destruct (contadores _) as [c|] eqn:Hc; [|done].
  unfold processar_lote_emails in Hc.
  apply processar_lote_desde_contadores in Hc. simpl in Hc.
  destruct (carregar_json_existente_rapido _ _) as [dados' w'].
  intros H. apply IH in H. simpl in H. rewrite length_app. lia.
Qed.

(** X11: when the single run ends without an exception, its totals
    account for every document the mail client handed over: processed
    plus duplicates is the number of documents, and the total of updates
    is at most that number. *)
Theorem totais_da_execucao (amb : AmbExecucao) (emails : list Chegada)
    (s : option (list ExportacaoDB)) (w : Mundo) (t : Contadores) :
  totais (pipeline_principal_otimizada dateutil_parse md5_hexdigest amb
            emails s w) = Some t →
  emails_processados t + emails_duplicados t = Z.of_nat (length emails)
  ∧ 0 ≤ emails_atualizados t ≤ Z.of_nat (length emails).
Proof.
  unfold pipeline_principal_otimizada.
  match goal with
  | |- context [let '(_, _) := ?x in _] => destruct x as [s' w']
  end.
  case_bool_decide; [done|].
  destruct (carregar_json_existente_rapido (amb_carga amb) w')
    as [dados w1].
  destruct (obter_ordens_unicas_existentes_rapido (amb_chaves amb) w1)
    as [ordens w2].
  set (r := processar_lotes _ _ _ _ _ _ _ _ _ _).
  destruct (totais r) as [t'|] eqn:Ht; [|by rewrite Ht].
  destruct (carregar_json_existente_rapido (amb_final amb) _) as [? w3].
  simpl. intros [= <-]. subst r.
  apply processar_lotes_totais in Ht. simpl in Ht.
  rewrite (lotes_concat_todos emails) in Ht. lia.
Qed.

Lemma processar_lotes_inv amb_r i ls dados ordens s t w :
  inv ordens w →
  ∃ ordens', inv ordens'
    (mundo_da_execucao (processar_lotes dateutil_parse md5_hexdigest amb_r
                          i ls dados ordens s t w)).
Proof.
  revert i dados ordens s t w. induction ls as [|lote ls IH];
    intros i dados ordens s t w Hinv; simpl; [by exists ordens|].
  pose proof (processar_lote_desde_inv lote dados s
                {| emails_processados := 0; emails_duplicados := 0;
                   emails_atualizados := 0 |} ordens w Hinv) as Hl.
  fold (processar_lote_emails dateutil_parse md5_hexdigest lote dados
          ordens s w) in Hl.
  destruct (contadores _); [|simpl; eauto].
  destruct (carregar_json_existente_rapido _ _) as [dados' w'] eqn:Hc.
  destruct (carregar_inv _ _ _ _ _ Hl Hc) as (Hinv' & _).
  by eapply IH.
Qed.

(** X12: the single run keeps the store to one document per key.  Run
    after any earlier series of saves from the empty store, whatever the
    documents, the clock readings and the outcomes of the writes, with or
    without a database session, whether or not an exception ends it
    early, it leaves a store file with at most one document for every
    non-empty order key. *)
Theorem execucao_no_maximo_um (ps : list Acao) (amb : AmbExecucao)
    (emails : list Chegada) (s : option (list ExportacaoDB)) (d : Dados)
    (k : string) :
  arquivo (mundo_da_execucao
             (pipeline_principal_otimizada dateutil_parse md5_hexdigest amb
                emails s (executar ps ∅ mundo_inicial).2)) = Conteudo d →
  k ≠ "" →
  (length (com_chave k d) ≤ 1)%nat.
Proof.
  intros Ha Hk.
  pose proof (executar_inv ps ∅ mundo_inicial inv_inicial) as Hinv.
  revert Hinv Ha. generalize (executar ps ∅ mundo_inicial).1
    (executar ps ∅ mundo_inicial).2. intros ordens w Hinv.
  assert (∃ ordens',
    inv ordens' (mundo_da_execucao
                   (pipeline_principal_otimizada dateutil_parse md5_hexdigest
                      amb emails s w))) as [ordens' Hinv'].
  { unfold pipeline_principal_otimizada.
    assert (∃ s' w', inv ordens w' ∧
      match s with
      | Some tabela =>
          let '((_, tabela), w) :=
            sincronizar_json_para_banco dateutil_parse md5_hexdigest
              (amb_sync_inicial amb) w tabela in
          (Some tabela, w)
      | None => (None, w)
      end = (s', w')) as (s' & w' & Hinv0 & ->).
    { destruct s as [tabela|]; [|by eexists _, _].
      pose proof (sincronizar_inv ordens (amb_sync_inicial amb) w tabela Hinv)
        as Hi.
      destruct (sincronizar_json_para_banco _ _ _ _ _) as [[ok t'] w'].
      by eexists _, _. }
    case_bool_decide; [simpl; eauto|].
    destruct (carregar_json_existente_rapido (amb_carga amb) w')
      as [dados w1] eqn:Hc.
    destruct (carregar_inv _ _ _ _ _ Hinv0 Hc) as (Hinv1 & _).
    destruct (obter_ordens_unicas_existentes_rapido (amb_chaves amb) w1)
      as [ordens2 w2] eqn:Ho.
    pose proof (recarregar_inv _ _ _ _ _ Hinv1 Ho) as Hinv2.
    destruct (processar_lotes_inv (amb_recarga amb) 1
                (lotes tamanho_lote emails) dados ordens2 s'
                {| emails_processados := 0; emails_duplicados := 0;
                   emails_atualizados := 0 |} w2 Hinv2) as [o3 Hinv3].
    set (r := processar_lotes _ _ _ _ _ _ _ _ _ _) in *.
    destruct (totais r); [|eauto].
    destruct (carregar_json_existente_rapido (amb_final amb) _)
      as [l4 w4] eqn:Hc4.
    destruct (carregar_inv _ _ _ _ _ Hinv3 Hc4) as (Hinv4 & _).
    simpl. eauto. }
  intros Ha. apply com_chave_no_maximo_um; [|done].
  by eapply bf_nodup, inv_arquivo.
Qed.

End Chamadores.

Lemma contadores_do_lote_witness :
  3 + 0 = Z.of_nat (length AmostrasLote.lote1)
  ∧ 0 ≤ 3 ∧ 0 ≤ 0 ∧ 0 ≤ 0 ≤ Z.of_nat (length AmostrasLote.lote1).
Proof.
  apply (contadores_do_lote (fun _ => None) id AmostrasLote.lote1 0 ∅ None
           (carregar_json_existente_rapido (Amostras.amb_ok 1700000000)
              mundo_inicial).2
           {| emails_processados := 3; emails_duplicados := 0;
              emails_atualizados := 0 |}).
  vm_compute. reflexivity.
Defined.

Lemma monitor_no_maximo_um_witness :
  ∃ d,
    arquivo (monitorar_novos_emails_continuamente (fun _ => None) id
               AmostrasExecucao.consultas (Some []) mundo_inicial).2
    = Conteudo d
    ∧ (length (com_chave "X" d) ≤ 1)%nat.
Proof.
  eexists. split; [vm_compute; reflexivity|].
  apply (monitor_no_maximo_um (fun _ => None) id AmostrasExecucao.consultas
           (Some [])).
  - vm_compute. reflexivity.
  - discriminate.
Defined.

Lemma totais_da_execucao_witness :
  3 + 3 = Z.of_nat (length AmostrasExecucao.emails)
  ∧ 0 ≤ 0 ≤ Z.of_nat (length AmostrasExecucao.emails).
Proof.
  apply (totais_da_execucao (fun _ => None) id AmostrasExecucao.amb
           AmostrasExecucao.emails (Some []) mundo_inicial
           {| emails_processados := 3; emails_duplicados := 3;
              emails_atualizados := 0 |}).
  vm_compute. reflexivity.
Defined.

Lemma execucao_no_maximo_um_witness :
  ∃ d,
    arquivo (mundo_da_execucao
               (pipeline_principal_otimizada (fun _ => None) id
                  AmostrasExecucao.amb AmostrasExecucao.emails (Some [])
                  (executar [] ∅ mundo_inicial).2)) = Conteudo d
    ∧ (length (com_chave "X" d) ≤ 1)%nat.
Proof.
  eexists. split; [vm_compute; reflexivity|].
  apply (execucao_no_maximo_um (fun _ => None) id [] AmostrasExecucao.amb
           AmostrasExecucao.emails (Some [])).
  - vm_compute. reflexivity.
  - discriminate.
Defined.

(** * The relational sync *)

Section SincronizacaoProvas.

Variable dateutil_parse : string -> option date.
Variable md5_hexdigest : string -> string.

(** The four outcomes of an iteration that does not raise. *)
Lemma sincronizar_email_passo email e t e' t' :
  sincronizar_email dateutil_parse md5_hexdigest email e t = Continua e' t' →
  (com_dados email = false ∧ t' = t)
  ∨ (com_dados email = true ∧ chave email = Some "" ∧ t' = t)
  ∨ (∃ k i ex, com_dados email = true ∧ chave email = Some k ∧ k ≠ ""
       ∧ buscar k t = Some (i, ex)
       ∧ t' = <[i := linha_de dateutil_parse (db_id ex) k
                        (dados_exportacao email)]> t)
  ∨ (∃ k, com_dados email = true ∧ chave email = Some k ∧ k ≠ ""
       ∧ buscar k t = None
       ∧ (md5_hexdigest k ∉ db_id <$> t)
       ∧ t' = t ++ [linha_de dateutil_parse (md5_hexdigest k) k
                      (dados_exportacao email)]).
Proof.
  unfold sincronizar_email, chave.
  destruct (com_dados email); simpl; [|intros [= _ <-]; by left].
  destruct (ordem_de (dados_exportacao email)) as [k|]; [|done].
  destruct (PyStr.truthy k) eqn:Ht; simpl.
  - apply truthy_iff in Ht.
    destruct (buscar k t) as [[i ex]|] eqn:Hb.
    + intros [= _ <-]. right. right. left. by exists k, i, ex.
    + case_bool_decide as Hid; [done|]. intros [= _ <-].
      right. right. right. by exists k.
  - intros [= _ <-]. right. left. split; [done|]. split; [|done].
    destruct k; [done|]. done.
Qed.

Lemma buscar_Some k t i ex :
  buscar k t = Some (i, ex) → t !! i = Some ex ∧ db_ordem ex = k.
Proof. unfold buscar. by intros (? & ? & _)%list_find_Some. Qed.

Lemma buscar_None k t : buscar k t = None → k ∉ db_ordem <$> t.
Proof.
  unfold buscar. intros Hn%list_find_None (r & -> & Hr)%list_elem_of_fmap.
  rewrite Forall_forall in Hn. by apply (Hn r).
Qed.

Lemma sincronizar_email_identidade email e t e' t' :
  sincronizar_email dateutil_parse md5_hexdigest email e t = Continua e' t' →
  (id_e_ordem <$> t) `prefix_of` (id_e_ordem <$> t')
  ∧ (NoDup (db_ordem <$> t) → NoDup (db_ordem <$> t'))
  ∧ (NoDup (db_id <$> t) → NoDup (db_id <$> t')).
Proof.
  intros H. apply sincronizar_email_passo in H
    as [[_ ->] | [(_ & _ & ->) | [(k & i & ex & _ & _ & _ & Hb & ->)
                                 | (k & _ & _ & _ & Hb & Hid & ->)]]];
    try done.
  - apply buscar_Some in Hb as [Hi Ho].
    rewrite !list_fmap_insert. simpl.
    assert (<[i := id_e_ordem (linha_de dateutil_parse (db_id ex) k
                                 (dados_exportacao email))]>
              (id_e_ordem <$> t) = id_e_ordem <$> t) as ->.
    { apply list_insert_id. rewrite list_lookup_fmap, Hi. simpl.
      unfold id_e_ordem. simpl. by rewrite Ho. }
    assert (<[i := k]> (db_ordem <$> t) = db_ordem <$> t) as ->.
    { apply list_insert_id. rewrite list_lookup_fmap, Hi. simpl.
      by rewrite Ho. }
    assert (<[i := db_id ex]> (db_id <$> t) = db_id <$> t) as ->.
    { apply list_insert_id. by rewrite list_lookup_fmap, Hi. }
    done.
  - apply buscar_None in Hb. rewrite !fmap_app. simpl.
    split; [by apply prefix_app_r|].
    split; intros Hnd; apply NoDup_app; (split; [done|]);
      (split; [|apply NoDup_singleton]);
      intros x Hx ->%list_elem_of_singleton; done.
Qed.

Lemma sincronizar_emails_identidade es e t e' t' :
  sincronizar_emails dateutil_parse md5_hexdigest es e t = Continua e' t' →
  (id_e_ordem <$> t) `prefix_of` (id_e_ordem <$> t')
  ∧ (NoDup (db_ordem <$> t) → NoDup (db_ordem <$> t'))
  ∧ (NoDup (db_id <$> t) → NoDup (db_id <$> t')).
Proof.
  revert e t. induction es as [|x es IH]; intros e t; simpl.
  - by intros [= _ <-].
  - destruct (sincronizar_email _ _ x e t) as [e1 t1|] eqn:Hx; [|done].
    intros H. apply IH in H as (Hp & Ho & Hi).
    apply sincronizar_email_identidade in Hx as (Hp1 & Ho1 & Hi1).
    split; [by etrans|]. split; auto.
Qed.

Lemma sincronizar_resultado amb w tabela :
  ∃ l w1, carregar_json_existente_rapido amb w = (l, w1)
    ∧ (sincronizar_json_para_banco dateutil_parse md5_hexdigest amb w
         tabela).2 = w1
    ∧ ((sincronizar_json_para_banco dateutil_parse md5_hexdigest amb w
          tabela).1 = (false, tabela)
       ∨ ∃ d e', heap w1 !! l = Some d
           ∧ sincronizar_emails dateutil_parse md5_hexdigest (emails d)
               {| total_inseridos := 0; total_atualizados := 0;
                  total_ignorados := 0 |} tabela
             = Continua e' (sincronizar_json_para_banco dateutil_parse
                              md5_hexdigest amb w tabela).1.2
           ∧ (sincronizar_json_para_banco dateutil_parse md5_hexdigest amb w
                tabela).1.1 = true).
Proof.
  unfold sincronizar_json_para_banco.
  destruct (carregar_json_existente_rapido amb w) as [l w1].
  exists l, w1. split; [done|].
  destruct (heap w1 !! l) as [d|]; [|by split; [|left]].
  destruct (sincronizar_emails _ _ _ _ _) as [e' t'|] eqn:Hs;
    (split; [done|]); [right|by left].
  by exists d, e'.
Qed.

(** X13: the relational sync never deletes a row and never changes the
    primary key or the order of a row: the identities of the rows it
    found are, in their order, the first identities of the table it
    leaves.  It never writes the store file, and when it answers [False]
    the table is the one it found. *)
Theorem sincronizar_conserva_linhas (amb : Amb) (w : Mundo)
    (tabela : list ExportacaoDB) :
  let r := sincronizar_json_para_banco dateutil_parse md5_hexdigest amb w
             tabela in
  (id_e_ordem <$> tabela) `prefix_of` (id_e_ordem <$> r.1.2)
  ∧ arquivo r.2 = arquivo w
  ∧ (r.1.1 = false → r.1.2 = tabela).
Proof.
  intros r. subst r.
  destruct (sincronizar_resultado amb w tabela)
    as (l & w1 & Hc & Hw & [Hf | (d & e' & Hd & Hs & Ht)]).
  - rewrite Hw, Hf. simpl. split; [done|].
    by destruct (carregar_spec _ _ _ _ Hc) as (_ & -> & _).
  - rewrite Hw, Ht.
    apply sincronizar_emails_identidade in Hs as (Hp & _).
    split; [done|]. split; [|done].
    by destruct (carregar_spec _ _ _ _ Hc) as (_ & -> & _).
Qed.

(** X14: a table whose orders are pairwise distinct and whose primary
    keys are pairwise distinct is still so after a relational sync,
    whatever the store holds and whatever the sync answers. *)
Theorem sincronizar_sem_repeticao (amb : Amb) (w : Mundo)
    (tabela : list ExportacaoDB) :
  NoDup (db_ordem <$> tabela) → NoDup (db_id <$> tabela) →
  let r := sincronizar_json_para_banco dateutil_parse md5_hexdigest amb w
             tabela in
  NoDup (db_ordem <$> r.1.2) ∧ NoDup (db_id <$> r.1.2).
Proof.
  intros Ho Hi r. subst r.
  destruct (sincronizar_resultado amb w tabela)
    as (l & w1 & Hc & Hw & [Hf | (d & e' & Hd & Hs & Ht)]).
  - by rewrite Hf.
  - apply sincronizar_emails_identidade in Hs as (_ & Ho' & Hi'). auto.
Qed.

Lemma chaves_cons_chave (x : Email) (es : list Email) k :
  chave x = Some k → k ≠ "" → chaves (x :: es) = k :: chaves es.
Proof.
  intros Hk Hne. unfold chaves. simpl. rewrite Hk.
  by rewrite filter_cons_True.
Qed.

Lemma chaves_cons_sub (x : Email) (es : list Email) k :
  k ∈ chaves es → k ∈ chaves (x :: es).
Proof.
  rewrite !elem_of_chaves. intros (Hne & e & He & Hk).
  split; [done|]. exists e. split; [by right|done].
Qed.

Lemma NoDup_chaves_cons (x : Email) (es : list Email) :
  NoDup (chaves (x :: es)) →
  NoDup (chaves es)
  ∧ ∀ k, chave x = Some k → k ≠ "" → k ∉ chaves es.
Proof.
  intros Hnd. destruct (chave x) as [k|] eqn:Hk.
  - destruct (decide (k = "")) as [->|Hne].
    + unfold chaves in *. simpl in Hnd. rewrite Hk in Hnd.
      rewrite filter_cons_False in Hnd by (intros ?; done).
      split; [done|]. by intros ? [= <-].
    + rewrite (chaves_cons_chave x es k Hk Hne) in Hnd.
      apply NoDup_cons in Hnd as [Hnin Hnd]. split; [done|].
      by intros ? [= <-].
  - unfold chaves in *. simpl in Hnd. rewrite Hk in Hnd. by split.
Qed.

(** What a loop that does not raise leaves: the rows of the orders the
    store does not hold are untouched, every document with data has a
    key, and every valid document with a non-empty key has its row. *)
Lemma sincronizar_emails_linhas es e0 t e' t' :
  sincronizar_emails dateutil_parse md5_hexdigest es e0 t = Continua e' t' →
  NoDup (chaves es) →
  (∀ i row, t !! i = Some row → db_ordem row ∉ chaves es →
            t' !! i = Some row)
  ∧ (∀ x, x ∈ es → com_dados x = true → is_Some (chave x))
  ∧ (∀ x k, x ∈ es → com_dados x = true → chave x = Some k → k ≠ "" →
       ∃ i row, t' !! i = Some row ∧ db_ordem row = k
         ∧ row = linha_de dateutil_parse (db_id row) k (dados_exportacao x)).
Proof.
  revert e0 t. induction es as [|x es IH]; intros e0 t; simpl.
  { intros [= _ <-] _. split; [done|].
    split; [intros ? Hx|intros ? ? Hx]; by apply elem_of_nil in Hx. }
  destruct (sincronizar_email _ _ x e0 t) as [e1 t1|] eqn:Hx; [|done].
  intros Hs Hnd. apply NoDup_chaves_cons in Hnd as [Hnd Hfora].
  destruct (IH _ _ Hs Hnd) as (Ha & Hc & Hb).
  apply sincronizar_email_passo in Hx.
  split; [|split].
  - intros i row Hi Hnin.
    apply Ha; [|intros Hin; by apply Hnin, chaves_cons_sub].
    destruct Hx as [[_ ->] | [(_ & _ & ->)
      | [(k & j & ex & _ & Hk & Hne & Hbus & ->)
        | (k & _ & _ & _ & _ & _ & ->)]]]; try done.
    + apply buscar_Some in Hbus as [Hj Ho].
      rewrite list_lookup_insert_ne; [done|]. intros ->.
      apply Hnin. rewrite (chaves_cons_chave x es k Hk Hne).
      assert (row = ex) as -> by congruence. rewrite Ho. left.
    + rewrite lookup_app_l; [done|]. by eapply lookup_lt_Some.
  - intros x0 [-> | Hin]%elem_of_cons Hcd; [|by apply Hc].
    destruct Hx as [[Hn _] | [(_ & Hk & _)
      | [(k & j & ex & _ & Hk & _) | (k & _ & Hk & _)]]];
      [congruence|by rewrite Hk..].
  - intros x0 k [-> | Hin]%elem_of_cons Hcd Hk Hne; [|by eapply Hb].
    specialize (Hfora k Hk Hne).
    destruct Hx as [[Hn _] | [(_ & Hk' & _)
      | [(k' & j & ex & _ & Hk' & _ & Hbus & ->)
        | (k' & _ & Hk' & _ & _ & _ & ->)]]]; [congruence|congruence| |].
    + assert (k' = k) as -> by congruence.
      apply buscar_Some in Hbus as [Hj Ho].
      exists j, (linha_de dateutil_parse (db_id ex) k (dados_exportacao x)).
      split; [|done]. apply Ha; [|done].
      apply list_lookup_insert_eq. by eapply lookup_lt_Some.
    + assert (k' = k) as -> by congruence.
      exists (length t),
        (linha_de dateutil_parse (md5_hexdigest k) k (dados_exportacao x)).
      split; [|done]. apply Ha; [|done].
      by rewrite lookup_app_r, Nat.sub_diag by lia.
Qed.

Lemma obter_texto (r : Registro) (nome : string) :
  so_textos r = true → obter r nome = JStr (texto_de r nome).
Proof.
  intros Hr. unfold obter, texto_de.
  destruct (r !! nome) as [v|] eqn:Hv; [|done]. simpl.
  unfold so_textos in Hr. rewrite forallb_forall in Hr.
  apply elem_of_map_to_list, list_elem_of_In, Hr in Hv.
  by destruct v.
Qed.

(** X15: after a relational sync that answers [True] over a snapshot
    with at most one document per key, whose records hold strings only,
    every stored document that has data and a non-empty order key has its
    row in the table: a row of that order whose twelve text columns hold
    the strings of the record (the empty string for a key the record
    lacks) and whose two date columns hold the dates its date texts
    convert to.  Nothing is said of the amount column. *)
Theorem sincronizar_completa (amb : Amb) (w : Mundo) (d : Dados)
    (tabela : list ExportacaoDB) (x : Email) (k : string) :
  carregado amb w d → NoDup (chaves (emails d)) →
  Forall (fun e => so_textos (dados_exportacao e) = true) (emails d) →
  let r := sincronizar_json_para_banco dateutil_parse md5_hexdigest amb w
             tabela in
  r.1.1 = true →
  x ∈ emails d → com_dados x = true → chave x = Some k → k ≠ "" →
  ∃ i row, r.1.2 !! i = Some row ∧ db_ordem row = k
    ∧ colunas_de_texto row
      = (fun nome => JStr (texto_de (dados_exportacao x) nome))
        <$> campos_de_texto
    ∧ db_data_embarque row
      = converter_para_data dateutil_parse
          (obter (dados_exportacao x) "data_embarque")
    ∧ db_eta row
      = converter_para_data dateutil_parse
          (obter (dados_exportacao x) "ETA").
Proof.
  intros (l & w1 & Hc & Hd) Hnd Htxt r Ht Hx Hcd Hk Hne. subst r.
  destruct (sincronizar_resultado amb w tabela)
    as (l' & w1' & Hc' & Hw & [Hf | (d' & e' & Hd' & Hs & _)]).
  { rewrite Hf in Ht. done. }
  assert (d' = d) as -> by congruence.
  destruct (sincronizar_emails_linhas _ _ _ _ _ Hs Hnd) as (_ & _ & Hb).
  destruct (Hb x k Hx Hcd Hk Hne) as (i & row & Hi & Ho & Hrow).
  exists i, row. split; [done|]. split; [done|].
  rewrite Forall_forall in Htxt. specialize (Htxt x Hx).
  rewrite Hrow. unfold colunas_de_texto, campos_de_texto.
  cbn [linha_de db_planta_carregamento db_tipo_embarque db_temperatura
       db_porto_saida db_porto_chegada db_companhia db_navio db_dline
       db_reserva_booking db_id_autorizacao db_resumo_embarque
       db_transportador_ter db_data_embarque db_eta fmap list_fmap].
  by rewrite !(obter_texto _ _ Htxt).
Qed.

Lemma sincronizar_emails_fixo es e0 t :
  NoDup (db_ordem <$> t) →
  (∀ x, x ∈ es → com_dados x = true →
     ∃ k, chave x = Some k
       ∧ (k ≠ "" → ∃ i row, t !! i = Some row ∧ db_ordem row = k
            ∧ row = linha_de dateutil_parse (db_id row) k
                      (dados_exportacao x))) →
  ∃ e', sincronizar_emails dateutil_parse md5_hexdigest es e0 t
        = Continua e' t.
Proof.
  intros Hnd. revert e0. induction es as [|x es IH]; intros e0 Hall; simpl.
  { by eexists. }
  assert (∃ e1, sincronizar_email dateutil_parse md5_hexdigest x e0 t
                = Continua e1 t) as [e1 ->].
  { unfold sincronizar_email.
    destruct (com_dados x) eqn:Hcd; simpl; [|by eexists].
    destruct (Hall x ltac:(left) Hcd) as (k & Hk & Hrow).
    unfold chave in Hk. rewrite Hk.
    destruct (PyStr.truthy k) eqn:Ht; simpl; [|by eexists].
    apply truthy_iff in Ht.
    destruct (Hrow Ht) as (i & row & Hi & Ho & Hlin).
    assert (buscar k t = Some (i, row)) as ->.
    { unfold buscar. apply list_find_Some. split_and!; [done|done|].
      intros j y Hj Hlt Hy.
      assert (j = i); [|lia].
      apply (NoDup_lookup (db_ordem <$> t) j i k); [done| |];
        rewrite list_lookup_fmap.
      - by rewrite Hj; simpl; rewrite Hy.
      - by rewrite Hi; simpl; rewrite Ho. }
    rewrite <- Hlin, list_insert_id by done. by eexists. }
  apply IH. intros x0 Hx0. apply Hall. by right.
Qed.

(** X16: a second relational sync changes no identifier, no order and no
    data column.  When file and cache agree on a snapshot with at most one
    document per key, whose records hold strings only, and the orders of
    the table are pairwise distinct, a sync that answers [True] followed
    by a second sync, at any later clock reading, leaves every row with
    the identifier, the order and the text, date and amount values the
    first one left, and the second answers [True] as well.  The rows of
    the embedding carry no audit timestamp: the statement does not reach
    [data_processamento] and [data_atualizacao], which the database
    maintains and may refresh on a row the second sync assigns again. *)
Theorem sincronizar_idempotente (amb1 amb2 : Amb) (w : Mundo) (d : Dados)
    (tabela : list ExportacaoDB) :
  coerente w d → NoDup (chaves (emails d)) →
  Forall (fun e => so_textos (dados_exportacao e) = true) (emails d) →
  NoDup (db_ordem <$> tabela) →
  let r1 := sincronizar_json_para_banco dateutil_parse md5_hexdigest amb1 w
              tabela in
  r1.1.1 = true →
  (sincronizar_json_para_banco dateutil_parse md5_hexdigest amb2 r1.2
     r1.1.2).1 = (true, r1.1.2).
Proof.
  intros Hco Hnd _ Ho r1 Ht. subst r1.
  destruct (sincronizar_resultado amb1 w tabela)
    as (l & w1 & Hc & Hw & [Hf | (d' & e' & Hd' & Hs & _)]).
  { rewrite Hf in Ht. done. }
  destruct (carregar_coerente _ _ _ _ _ Hco Hc) as [Hd Hco1].
  assert (d' = d) as -> by congruence.
  rewrite Hw. generalize dependent (sincronizar_json_para_banco
    dateutil_parse md5_hexdigest amb1 w tabela).1.2.
  intros t1 Hs.
  destruct (sincronizar_emails_linhas _ _ _ _ _ Hs Hnd) as (_ & Hcv & Hb).
  destruct (sincronizar_emails_identidade _ _ _ _ _ Hs) as (_ & Ho1 & _).
  unfold sincronizar_json_para_banco.
  destruct (carregar_json_existente_rapido amb2 w1) as [l2 w2] eqn:Hc2.
  destruct (carregar_coerente _ _ _ _ _ Hco1 Hc2) as [Hd2 _].
  rewrite Hd2.
  destruct (sincronizar_emails_fixo (emails d)
              {| total_inseridos := 0; total_atualizados := 0;
                 total_ignorados := 0 |} t1 (Ho1 Ho)) as [e2 ->]; [|done].
  intros x Hx Hcd. destruct (Hcv x Hx Hcd) as [k Hk].
  exists k. split; [done|]. intros Hne. by eapply Hb.
Qed.

End SincronizacaoProvas.

Lemma sincronizar_sem_repeticao_witness :
  NoDup (db_ordem <$>
           (sincronizar_json_para_banco (fun _ => None) id
              (Amostras.amb_ok 1700000001)
              (executar [Salvar (Amostras.amb_ok 1700000000) Amostras.doc_A]
                 ∅ mundo_inicial).2 []).1.2)
  ∧ NoDup (db_id <$>
             (sincronizar_json_para_banco (fun _ => None) id
                (Amostras.amb_ok 1700000001)
                (executar [Salvar (Amostras.amb_ok 1700000000) Amostras.doc_A]
                   ∅ mundo_inicial).2 []).1.2).
Proof.
  apply (sincronizar_sem_repeticao (fun _ => None) id
           (Amostras.amb_ok 1700000001)
           (executar [Salvar (Amostras.amb_ok 1700000000) Amostras.doc_A]
              ∅ mundo_inicial).2 []); simpl; constructor.
Defined.

Lemma sincronizar_completa_witness :
  ∃ i row,
    (sincronizar_json_para_banco (fun _ => None) id
       (Amostras.amb_ok 1700000001)
       (executar [Salvar (Amostras.amb_ok 1700000000) Amostras.doc_A]
          ∅ mundo_inicial).2 []).1.2 !! i = Some row
    ∧ db_ordem row = "ORD1"
    ∧ colunas_de_texto row
      = (fun nome => JStr (texto_de (dados_exportacao Amostras.doc_A) nome))
        <$> campos_de_texto
    ∧ db_data_embarque row
      = converter_para_data (fun _ => None)
          (obter (dados_exportacao Amostras.doc_A) "data_embarque")
    ∧ db_eta row
      = converter_para_data (fun _ => None)
          (obter (dados_exportacao Amostras.doc_A) "ETA").
Proof.
  apply (sincronizar_completa (fun _ => None) id
           (Amostras.amb_ok 1700000001)
           (executar [Salvar (Amostras.amb_ok 1700000000) Amostras.doc_A]
              ∅ mundo_inicial).2
           (acrescentar_email "2024-01-03T08:00:00" Amostras.doc_A "ORD1" ∅
              (empty_data "2024-01-03T08:00:00"))
           [] Amostras.doc_A "ORD1").
  - do 2 eexists. split; vm_compute; reflexivity.
  - vm_compute. apply NoDup_singleton.
  - repeat constructor.
  - vm_compute. reflexivity.
  - vm_compute. left.
  - vm_compute. reflexivity.
  - vm_compute. reflexivity.
  - discriminate.
Defined.

Lemma sincronizar_idempotente_witness :
  (sincronizar_json_para_banco (fun _ => None) id
     (Amostras.amb_ok 1700000100)
     (sincronizar_json_para_banco (fun _ => None) id
        (Amostras.amb_ok 1700000001)
        (executar [Salvar (Amostras.amb_ok 1700000000) Amostras.doc_A]
           ∅ mundo_inicial).2 []).2
     (sincronizar_json_para_banco (fun _ => None) id
        (Amostras.amb_ok 1700000001)
        (executar [Salvar (Amostras.amb_ok 1700000000) Amostras.doc_A]
           ∅ mundo_inicial).2 []).1.2).1
  = (true,
     (sincronizar_json_para_banco (fun _ => None) id
        (Amostras.amb_ok 1700000001)
        (executar [Salvar (Amostras.amb_ok 1700000000) Amostras.doc_A]
           ∅ mundo_inicial).2 []).1.2).
Proof.
  apply (sincronizar_idempotente (fun _ => None) id
           (Amostras.amb_ok 1700000001) (Amostras.amb_ok 1700000100)
           (executar [Salvar (Amostras.amb_ok 1700000000) Amostras.doc_A]
              ∅ mundo_inicial).2
           (acrescentar_email "2024-01-03T08:00:00" Amostras.doc_A "ORD1" ∅
              (empty_data "2024-01-03T08:00:00"))
           []).
  - split; [vm_compute; reflexivity|]. exists 0%nat.
    split; vm_compute; reflexivity.
  - vm_compute. apply NoDup_singleton.
  - repeat constructor.
  - constructor.
  - vm_compute. reflexivity.
Defined.

(** * The coercions of the relational sync *)

Lemma strip_dez (c1 c2 c3 c4 c5 c6 c7 c8 c9 c10 : ascii) :
  PyStr.isspace c1 = false → PyStr.isspace c10 = false →
  PyStr.strip
    (String c1 (String c2 (String c3 (String c4 (String c5 (String c6
      (String c7 (String c8 (String c9 (String c10 EmptyString))))))))))
  = String c1 (String c2 (String c3 (String c4 (String c5 (String c6
      (String c7 (String c8 (String c9 (String c10 EmptyString))))))))).
Proof.
  intros H1 H10. unfold PyStr.strip. cbn [PyStr.lstrip]. rewrite H1.
  cbn [String.rev String.rev_app PyStr.lstrip]. rewrite H10. done.
Qed.

Lemma digito_de_dois (n : Z) :
  0 ≤ n ≤ 99 → 0 ≤ n / 10 ≤ 9 ∧ 0 ≤ n mod 10 ≤ 9.
Proof. intros H. Z.div_mod_to_equations. lia. Qed.

Lemma valid_date_limites (y m d : Z) :
  Strptime.valid_date y m d = true →
  1 ≤ y ≤ 9999 ∧ 1 ≤ m ≤ 12 ∧ 1 ≤ d ≤ 31.
Proof.
  unfold Strptime.valid_date. rewrite !andb_true_iff, !Z.leb_le.
  pose proof (days_in_month_le y m). lia.
Qed.

Lemma build_data (y m d : Z) :
  Strptime.valid_date y m d = true →
  Strptime.build (Campos (Some y) (Some m) (Some d) None None None)
  = Some (DateTime y m d 0 0 0).
Proof. intros Hv. unfold Strptime.build. simpl. by rewrite Hv. Qed.

Lemma strptime_iso (d : date) :
  Strptime.valid_date (d_year d) (d_month d) (d_day d) = true →
  Strptime.strptime (texto_iso d) "%Y-%m-%d"
  = Some (DateTime (d_year d) (d_month d) (d_day d) 0 0 0).
Proof.
  destruct d as [y m d]. simpl. intros Hv.
  destruct (valid_date_limites _ _ _ Hv) as (Hy & Hm & Hd).
  unfold Strptime.strptime.
  replace (Strptime.pattern "%Y-%m-%d")
    with (Some [IField FY; IChr "-"; IField Fm; IChr "-"; IField Fd])
    by (by vm_compute).
  assert (head (Strptime.matches
                  [IField FY; IChr "-"; IField Fm; IChr "-"; IField Fd]
                  campos_vazios (texto_iso (Date y m d)))
          = Some (Campos (Some y) (Some m) (Some d) None None None,
                  EmptyString)) as Hhead.
  { unfold texto_iso. cbn [d_year d_month d_day].
    eapply passo_ano; [lia|unfold Strptime.set_field;
                           by rewrite int_quatro by lia|].
    apply passo_chr.
    eapply (passo_campo Fm); [simpl; lia|unfold Strptime.set_field;
                                          by rewrite int_dois by lia|].
    apply passo_chr.
    eapply (passo_campo Fd); [simpl; lia|unfold Strptime.set_field;
                                          by rewrite int_dois by lia|].
    done. }
  destruct (Strptime.matches _ _ _) as [|[cs r] l]; [done|].
  simpl in Hhead. injection Hhead as -> ->. by apply build_data.
Qed.

Lemma strptime_dia_mes_ano (d : date) :
  Strptime.valid_date (d_year d) (d_month d) (d_day d) = true →
  Strptime.strptime (texto_dia_mes_ano d) "%d/%m/%Y"
  = Some (DateTime (d_year d) (d_month d) (d_day d) 0 0 0).
Proof.
  destruct d as [y m d]. simpl. intros Hv.
  destruct (valid_date_limites _ _ _ Hv) as (Hy & Hm & Hd).
  unfold Strptime.strptime.
  replace (Strptime.pattern "%d/%m/%Y")
    with (Some [IField Fd; IChr "/"; IField Fm; IChr "/"; IField FY])
    by (by vm_compute).
  assert (head (Strptime.matches
                  [IField Fd; IChr "/"; IField Fm; IChr "/"; IField FY]
                  campos_vazios (texto_dia_mes_ano (Date y m d)))
          = Some (Campos (Some y) (Some m) (Some d) None None None,
                  EmptyString)) as Hhead.
  { unfold texto_dia_mes_ano. cbn [d_year d_month d_day].
    eapply (passo_campo Fd); [simpl; lia|unfold Strptime.set_field;
                                          by rewrite int_dois by lia|].
    apply passo_chr.
    eapply (passo_campo Fm); [simpl; lia|unfold Strptime.set_field;
                                          by rewrite int_dois by lia|].
    apply passo_chr.
    eapply passo_ano; [lia|unfold Strptime.set_field;
                           by rewrite int_quatro by lia|].
    done. }
  destruct (Strptime.matches _ _ _) as [|[cs r] l]; [done|].
  simpl in Hhead. injection Hhead as -> ->. by apply build_data.
Qed.

(** The year pattern, four digits, does not match a text whose third
    character is not a digit. *)
Lemma ano_nao_casa (n : Z) (c : ascii) (rest : string) :
  0 ≤ n ≤ 99 → PyStr.isdigit c = false →
  Strptime.strptime (dois_digitos n (String c rest)) "%Y-%m-%d" = None.
Proof.
  intros Hn Hc. destruct (digito_de_dois n Hn) as [H1 H2].
  destruct (digito_props _ H1) as (D1 & _ & _).
  destruct (digito_props _ H2) as (D2 & _ & _).
  unfold Strptime.strptime.
  replace (Strptime.pattern "%Y-%m-%d")
    with (Some [IField FY; IChr "-"; IField Fm; IChr "-"; IField Fd])
    by (by vm_compute).
  assert (rmatch (Strptime.re_of FY) (dois_digitos n (String c rest)) = [])
    as Hr.
  { unfold dois_digitos. cbn [Strptime.re_of Re.d rmatch]. rewrite D1.
    cbn [mbind list_bind app rmatch]. rewrite D2.
    cbn [mbind list_bind app rmatch]. by rewrite Hc. }
  cbn [Strptime.matches]. by rewrite Hr.
Qed.

Lemma strip_texto_iso (d : date) :
  Strptime.valid_date (d_year d) (d_month d) (d_day d) = true →
  PyStr.strip (texto_iso d) = texto_iso d.
Proof.
  intros Hv. destruct (valid_date_limites _ _ _ Hv) as (Hy & Hm & Hd).
  destruct (digitos_de_quatro (d_year d) ltac:(lia)) as (H1 & _).
  destruct (digito_de_dois (d_day d) ltac:(lia)) as [_ H2].
  unfold texto_iso, quatro_digitos, dois_digitos.
  apply strip_dez; by apply digito_props.
Qed.

Lemma strip_texto_dia_mes_ano (d : date) :
  Strptime.valid_date (d_year d) (d_month d) (d_day d) = true →
  PyStr.strip (texto_dia_mes_ano d) = texto_dia_mes_ano d.
Proof.
  intros Hv. destruct (valid_date_limites _ _ _ Hv) as (Hy & Hm & Hd).
  destruct (digitos_de_quatro (d_year d) ltac:(lia)) as (_ & _ & _ & H1 & _).
  destruct (digito_de_dois (d_day d) ltac:(lia)) as [H2 _].
  unfold texto_dia_mes_ano, quatro_digitos, dois_digitos.
  apply strip_dez; by apply digito_props.
Qed.

(** X17: a date written year first is read back.  For every date that
    exists, from year 1 to year 9999, the date coercion of the text
    [YYYY-MM-DD] of the date answers that date, whatever the permissive
    parser would say. *)
Theorem converter_para_data_iso (dateutil_parse : string -> option date)
    (d : date) :
  Strptime.valid_date (d_year d) (d_month d) (d_day d) = true →
  converter_para_data dateutil_parse (JStr (texto_iso d)) = Some d.
Proof.
  intros Hv. rewrite converter_para_data_texto by done.
  rewrite (strip_texto_iso d Hv). unfold formatos_data.
  cbn [tentar_formatos]. rewrite (strptime_iso d Hv).
  by destruct d.
Qed.

Lemma converter_para_data_iso_witness :
  converter_para_data (fun _ => None) (JStr (texto_iso (Date 2024 2 29)))
  = Some (Date 2024 2 29).
Proof.
  apply (converter_para_data_iso (fun _ => None) (Date 2024 2 29)).
  vm_compute. reflexivity.
Defined.

(** X18: a date written with slashes, day first, is read day first.  For
    every date that exists, the date coercion of the text [DD/MM/YYYY]
    answers that date, whatever the permissive parser would say: the
    month-first layout of the list is never reached, also when the day
    is twelve or less. *)
Theorem converter_para_data_dia_primeiro
    (dateutil_parse : string -> option date) (d : date) :
  Strptime.valid_date (d_year d) (d_month d) (d_day d) = true →
  converter_para_data dateutil_parse (JStr (texto_dia_mes_ano d)) = Some d.
Proof.
  intros Hv. rewrite converter_para_data_texto by done.
  rewrite (strip_texto_dia_mes_ano d Hv). unfold formatos_data.
  cbn [tentar_formatos].
  destruct (valid_date_limites _ _ _ Hv) as (Hy & Hm & Hd).
  assert (Strptime.strptime (texto_dia_mes_ano d) "%Y-%m-%d" = None) as ->.
  { unfold texto_dia_mes_ano. apply ano_nao_casa; [lia|done]. }
  rewrite (strptime_dia_mes_ano d Hv). by destruct d.
Qed.

Lemma converter_para_data_dia_primeiro_witness :
  converter_para_data (fun _ => None)
    (JStr (texto_dia_mes_ano (Date 2024 7 10)))
  = Some (Date 2024 7 10).
Proof.
  apply (converter_para_data_dia_primeiro (fun _ => None) (Date 2024 7 10)).
  vm_compute. reflexivity.
Defined.

Lemma matches_campo_nil (f : campo) (its : list item) (cs : campos)
    (s : string) :
  Forall (fun rest => ∀ cs', Strptime.matches its cs' rest = [])
    (rmatch (Strptime.re_of f) s) →
  Strptime.matches (IField f :: its) cs s = [].
Proof.
  intros Hall. cbn [Strptime.matches].
  induction Hall as [|rest rests Hr _ IH]; [done|].
  cbn [mbind list_bind]. simpl. rewrite IH.
  destruct (Strptime.set_field f _ cs); [by rewrite Hr|done].
Qed.

Lemma matches_chr_nil (c c' : ascii) (its : list item) (cs : campos)
    (s : string) :
  PyStr.lower c' ≠ PyStr.lower c →
  Strptime.matches (IChr c :: its) cs (String c' s) = [].
Proof.
  intros Hne. cbn [Strptime.matches Re.chr rmatch].
  by rewrite bool_decide_eq_false_2.
Qed.

Lemma matches_chr_ok (c : ascii) (its : list item) (cs : campos)
    (s : string) :
  Strptime.matches (IChr c :: its) cs (String c s)
  = Strptime.matches its cs s.
Proof.
  cbn [Strptime.matches Re.chr rmatch].
  rewrite bool_decide_eq_true_2 by done. cbn [mbind list_bind].
  apply app_nil_r.
Qed.

Lemma lower_digito (c : ascii) :
  PyStr.isdigit c = true → PyStr.lower c = c.
Proof.
  unfold PyStr.isdigit, PyStr.lower.
  intros [H1%N.leb_le H2%N.leb_le]%andb_true_iff.
  destruct (65 <=? PyStr.code c)%N eqn:H; [|done].
  apply N.leb_le in H. lia.
Qed.

(** A digit is not the separator [x] of a layout. *)
Lemma digito_nao_e (c x : ascii) :
  PyStr.isdigit c = true → PyStr.isdigit (PyStr.lower x) = false →
  PyStr.lower c ≠ PyStr.lower x.
Proof. intros Hc Hx. rewrite (lower_digito c Hc). intros ->. congruence. Qed.

(** What the day pattern leaves of a text that starts with two digits:
    it takes both, or the first one only. *)
Lemma rmatch_dia_restos (n : Z) (X : string) :
  1 ≤ n ≤ 31 →
  Forall (fun r => r = X ∨ ∃ c, PyStr.isdigit c = true ∧ r = String c X)
    (rmatch (Strptime.re_of Fd) (dois_digitos n X)).
Proof.
  intros H.
  enumerar n 32
    (first [lia
           | match goal with
             | |- Forall ?P ?l =>
                 let l' := eval cbv in l in change (Forall P l')
             end;
             repeat first
               [apply List.Forall_nil
               | apply List.Forall_cons;
                 [cbn beta;
                  first [by left
                        | right; eexists; split; [|reflexivity];
                          reflexivity]|]]]).
Qed.

(** The month pattern takes only the first digit of a number above
    twelve. *)
Lemma rmatch_mes_restos (n : Z) (X : string) :
  13 ≤ n ≤ 31 →
  Forall (fun r => ∃ c, PyStr.isdigit c = true ∧ r = String c X)
    (rmatch (Strptime.re_of Fm) (dois_digitos n X)).
Proof.
  intros H.
  enumerar n 32
    (first [lia
           | match goal with
             | |- Forall ?P ?l =>
                 let l' := eval cbv in l in change (Forall P l')
             end;
             repeat first
               [apply List.Forall_nil
               | apply List.Forall_cons;
                 [cbn beta; eexists; split; [|reflexivity];
                  reflexivity|]]]).
Qed.

Lemma dia_mes_ano_nao_casa (d : date) :
  1 ≤ d_month d ≤ 12 → 13 ≤ d_day d ≤ 31 →
  Strptime.strptime (texto_mes_dia_ano d) "%d/%m/%Y" = None.
Proof.
  intros Hm Hd. unfold Strptime.strptime.
  replace (Strptime.pattern "%d/%m/%Y")
    with (Some [IField Fd; IChr "/"; IField Fm; IChr "/"; IField FY])
    by (by vm_compute).
  unfold texto_mes_dia_ano. rewrite matches_campo_nil; [done|].
  eapply Forall_impl; [apply rmatch_dia_restos; lia|].
  intros r [-> | (c & Hc & ->)] cs'; cycle 1.
  { apply matches_chr_nil. by apply digito_nao_e. }
  rewrite matches_chr_ok. apply matches_campo_nil.
  eapply Forall_impl; [by apply rmatch_mes_restos|].
  intros r (c & Hc & ->) cs''. apply matches_chr_nil.
  by apply digito_nao_e.
Qed.

Lemma dia_mes_ano_tracos_nao_casa (d : date) :
  1 ≤ d_month d ≤ 12 →
  Strptime.strptime (texto_mes_dia_ano d) "%d-%m-%Y" = None.
Proof.
  intros Hm. unfold Strptime.strptime.
  replace (Strptime.pattern "%d-%m-%Y")
    with (Some [IField Fd; IChr "-"; IField Fm; IChr "-"; IField FY])
    by (by vm_compute).
  unfold texto_mes_dia_ano. rewrite matches_campo_nil; [done|].
  eapply Forall_impl; [apply rmatch_dia_restos; lia|].
  intros r [-> | (c & Hc & ->)] cs'.
  - by apply matches_chr_nil.
  - apply matches_chr_nil. by apply digito_nao_e.
Qed.

Lemma strptime_mes_dia_ano (d : date) :
  Strptime.valid_date (d_year d) (d_month d) (d_day d) = true →
  Strptime.strptime (texto_mes_dia_ano d) "%m/%d/%Y"
  = Some (DateTime (d_year d) (d_month d) (d_day d) 0 0 0).
Proof.
  destruct d as [y m d]. simpl. intros Hv.
  destruct (valid_date_limites _ _ _ Hv) as (Hy & Hm & Hd).
  unfold Strptime.strptime.
  replace (Strptime.pattern "%m/%d/%Y")
    with (Some [IField Fm; IChr "/"; IField Fd; IChr "/"; IField FY])
    by (by vm_compute).
  assert (head (Strptime.matches
                  [IField Fm; IChr "/"; IField Fd; IChr "/"; IField FY]
                  campos_vazios (texto_mes_dia_ano (Date y m d)))
          = Some (Campos (Some y) (Some m) (Some d) None None None,
                  EmptyString)) as Hhead.
  { unfold texto_mes_dia_ano. cbn [d_year d_month d_day].
    eapply (passo_campo Fm); [simpl; lia|unfold Strptime.set_field;
                                          by rewrite int_dois by lia|].
    apply passo_chr.
    eapply (passo_campo Fd); [simpl; lia|unfold Strptime.set_field;
                                          by rewrite int_dois by lia|].
    apply passo_chr.
    eapply passo_ano; [lia|unfold Strptime.set_field;
                           by rewrite int_quatro by lia|].
    done. }
  destruct (Strptime.matches _ _ _) as [|[cs r] l]; [done|].
  simpl in Hhead. injection Hhead as -> ->. by apply build_data.
Qed.

Lemma strip_texto_mes_dia_ano (d : date) :
  Strptime.valid_date (d_year d) (d_month d) (d_day d) = true →
  PyStr.strip (texto_mes_dia_ano d) = texto_mes_dia_ano d.
Proof.
  intros Hv. destruct (valid_date_limites _ _ _ Hv) as (Hy & Hm & Hd).
  destruct (digitos_de_quatro (d_year d) ltac:(lia)) as (_ & _ & _ & H1 & _).
  destruct (digito_de_dois (d_month d) ltac:(lia)) as [H2 _].
  unfold texto_mes_dia_ano, quatro_digitos, dois_digitos.
  apply strip_dez; by apply digito_props.
Qed.

(** X19: a date written with slashes, month first, is read month first
    when its second number is above twelve.  For every date that exists
    with a day from 13 on, the date coercion of the text [MM/DD/YYYY]
    answers that date, whatever the permissive parser would say: the
    three layouts before the month-first one do not parse it. *)
Theorem converter_para_data_mes_primeiro
    (dateutil_parse : string -> option date) (d : date) :
  Strptime.valid_date (d_year d) (d_month d) (d_day d) = true →
  13 ≤ d_day d →
  converter_para_data dateutil_parse (JStr (texto_mes_dia_ano d)) = Some d.
Proof.
  intros Hv H13. rewrite converter_para_data_texto by done.
  rewrite (strip_texto_mes_dia_ano d Hv). unfold formatos_data.
  cbn [tentar_formatos].
  destruct (valid_date_limites _ _ _ Hv) as (Hy & Hm & Hd).
  assert (Strptime.strptime (texto_mes_dia_ano d) "%Y-%m-%d" = None) as ->.
  { unfold texto_mes_dia_ano. apply ano_nao_casa; [lia|done]. }
  rewrite dia_mes_ano_nao_casa, dia_mes_ano_tracos_nao_casa by lia.
  rewrite (strptime_mes_dia_ano d Hv). by destruct d.
Qed.

Lemma converter_para_data_mes_primeiro_witness :
  converter_para_data (fun _ => None)
    (JStr (texto_mes_dia_ano (Date 2024 1 15)))
  = Some (Date 2024 1 15).
Proof.
  apply (converter_para_data_mes_primeiro (fun _ => None) (Date 2024 1 15)).
  - vm_compute. reflexivity.
  - simpl. lia.
Defined.

(** ** The numeric coercion *)

Lemma converter_para_decimal_texto (s : string) :
  s ≠ "" →
  converter_para_decimal (JStr s)
  = if PyStr.truthy (valor_limpo s) then float_de_limpo (valor_limpo s)
    else None.
Proof.
  intros Hne. unfold converter_para_decimal, py_truthy, py_str.
  by rewrite (proj2 (truthy_iff s) Hne).
Qed.

Lemma valor_limpo_app (a b : string) :
  valor_limpo (a +:+ b) = valor_limpo a +:+ valor_limpo b.
Proof.
  unfold valor_limpo. induction a as [|c a IH]; simpl; [done|].
  destruct (PyStr.isdigit c || bool_decide (c = ","%char)); simpl;
    by rewrite IH.
Qed.

Lemma valor_limpo_virgula (b : string) :
  valor_limpo (String "," b) = String "." (valor_limpo b).
Proof. done. Qed.

Lemma valor_limpo_sem_virgula (a : string) :
  PyStrOps.existsb (fun c => bool_decide (c = ","%char)) a = false →
  valor_limpo a = so_digitos a.
Proof.
  intros Hv. unfold valor_limpo, so_digitos.
  rewrite (filter_sem_virgula a Hv).
  apply map_digitos, forallb_filter_isdigit.
Qed.

Lemma span_digitos_app (i : string) (c : ascii) (f : string) :
  PyStrOps.forallb PyStr.isdigit i = true → PyStr.isdigit c = false →
  PyStrOps.span PyStr.isdigit (i +:+ String c f) = (i, String c f).
Proof.
  intros Hi Hc. induction i as [|x i IH]; simpl.
  - by rewrite Hc.
  - simpl in Hi. apply andb_true_iff in Hi as [Hx Hi].
    by rewrite Hx, (IH Hi).
Qed.

Lemma truthy_so_digitos (s : string) :
  PyStr.truthy (so_digitos s) = PyStrOps.existsb PyStr.isdigit s.
Proof.
  unfold so_digitos. induction s as [|c s IH]; simpl; [done|].
  by destruct (PyStr.isdigit c).
Qed.

Lemma truthy_app_r (a b : string) :
  PyStr.truthy b = true → PyStr.truthy (a +:+ b) = true.
Proof. intros Hb. destruct a; simpl; [done|done]. Qed.

(** X20: a text with exactly one comma is read with the comma as the
    decimal separator.  When neither side of the comma holds another
    comma and one of them holds a digit, the numeric coercion answers
    the binary64 number nearest to the decimal whose integer part is
    spelled by the digits before the comma and whose fraction by the
    digits after it; every other character, the thousands points
    included, is dropped. *)
Theorem converter_para_decimal_uma_virgula (a b : string) :
  PyStrOps.existsb (fun c => bool_decide (c = ","%char)) a = false →
  PyStrOps.existsb (fun c => bool_decide (c = ","%char)) b = false →
  PyStrOps.existsb PyStr.isdigit a || PyStrOps.existsb PyStr.isdigit b
  = true →
  converter_para_decimal (JStr (a +:+ String "," b))
  = Some (float_decimal
            (PyStrOps.valor (so_digitos a +:+ so_digitos b))
            (String.length (so_digitos b))).
Proof.
  intros Ha Hb Hd.
  rewrite converter_para_decimal_texto by (by destruct a).
  rewrite valor_limpo_app, valor_limpo_virgula.
  rewrite (valor_limpo_sem_virgula a Ha), (valor_limpo_sem_virgula b Hb).
  rewrite truthy_app_r by done.
  unfold float_de_limpo.
  rewrite span_digitos_app
    by (first [apply forallb_filter_isdigit | done]).
  rewrite bool_decide_eq_true_2 by done.
  unfold so_digitos at 3. rewrite forallb_filter_isdigit.
  by rewrite !truthy_so_digitos, Hd.
Qed.

Lemma converter_para_decimal_uma_virgula_witness :
  converter_para_decimal (JStr ("R$ 1.234" +:+ String "," "56"))
  = Some (float_decimal
            (PyStrOps.valor (so_digitos "R$ 1.234" +:+ so_digitos "56"))
            (String.length (so_digitos "56"))).
Proof.
  apply (converter_para_decimal_uma_virgula "R$ 1.234" "56");
    vm_compute; reflexivity.
Defined.

Lemma forallb_isdigit_ponto (y z : string) :
  PyStrOps.forallb PyStr.isdigit (y +:+ String "." z) = false.
Proof.
  induction y as [|c y IH]; simpl; [done|]. rewrite IH.
  apply andb_false_r.
Qed.

(** A text with a point after its first point is not a number: what
    follows the leading digits is not a point followed by digits only. *)
Lemma float_de_limpo_dois_pontos (x y z : string) :
  float_de_limpo (x +:+ String "." (y +:+ String "." z)) = None.
Proof.
  unfold float_de_limpo.
  assert (∃ i c f,
    PyStrOps.span PyStr.isdigit (x +:+ String "." (y +:+ String "." z))
    = (i, String c f)
    ∧ PyStrOps.forallb PyStr.isdigit f = false) as (i & c & f & -> & Hf).
  { induction x as [|c x (i & c' & f & IH & Hf)]; simpl.
    - exists EmptyString, "."%char, (y +:+ String "." z).
      split; [done|]. apply forallb_isdigit_ponto.
    - destruct (PyStr.isdigit c).
      + rewrite IH. by exists (String c i), c', f.
      + exists EmptyString, c, (x +:+ String "." (y +:+ String "." z)).
        split; [done|]. apply forallb_isdigit_ponto. }
  rewrite Hf. by rewrite andb_false_r.
Qed.

Lemma valor_limpo_sem_digito (s : string) :
  PyStrOps.existsb PyStr.isdigit s = false →
  PyStrOps.existsb PyStr.isdigit (valor_limpo s) = false.
Proof.
  unfold valor_limpo. induction s as [|c s IH]; simpl; [done|].
  intros [Hc Hs]%orb_false_iff. rewrite Hc. simpl.
  case_bool_decide as Hv; simpl; [|by apply IH].
  rewrite bool_decide_eq_true_2 by done. simpl. by apply IH.
Qed.

Lemma float_de_limpo_sem_digito (t : string) :
  PyStrOps.existsb PyStr.isdigit t = false → float_de_limpo t = None.
Proof.
  unfold float_de_limpo. destruct t as [|c t]; simpl; [done|].
  intros [Hc Ht]%orb_false_iff. rewrite Hc.
  destruct t as [|c' t]; simpl.
  - by rewrite andb_false_r.
  - simpl in Ht. apply orb_false_iff in Ht as [-> _]. simpl.
    by rewrite andb_false_r.
Qed.

(** X21: a text without any decimal digit is not a number: the numeric
    coercion answers null, whatever the text holds (commas, points,
    letters, a currency sign). *)
Theorem converter_para_decimal_sem_digito (s : string) :
  PyStrOps.existsb PyStr.isdigit s = false →
  converter_para_decimal (JStr s) = None.
Proof.
  intros Hd. destruct (decide (s = "")) as [->|Hne]; [done|].
  rewrite converter_para_decimal_texto by done.
  rewrite float_de_limpo_sem_digito by (by apply valor_limpo_sem_digito).
  by destruct (PyStr.truthy _).
Qed.

Lemma converter_para_decimal_sem_digito_witness :
  converter_para_decimal (JStr "R$ -,-") = None.
Proof.
  apply (converter_para_decimal_sem_digito "R$ -,-").
  vm_compute. reflexivity.
Defined.

(** X22: a text with two commas or more is not a number: the numeric
    coercion answers null, whatever stands before, between and after
    the two commas. *)
Theorem converter_para_decimal_duas_virgulas (a b c : string) :
  converter_para_decimal (JStr (a +:+ String "," (b +:+ String "," c)))
  = None.
Proof.
  rewrite converter_para_decimal_texto by (by destruct a).
  rewrite valor_limpo_app, valor_limpo_virgula, valor_limpo_app,
    valor_limpo_virgula.
  rewrite float_de_limpo_dois_pontos. by destruct (PyStr.truthy _).
Qed.

(** * The first spreadsheet routine *)

Section PlanilhaSimplesProvas.

Context {Cell : Type} `{!CellOps Cell}.
(** [str] of a string is the string. *)
Hypothesis cell_str_of_str : ∀ s : string, cell_str (of_str s) = s.
Local Abbreviation Linha := (Linha Cell).
Local Abbreviation Frame := (Frame Cell).

Lemma elem_of_ordens_de (rs : list Linha) (r : Linha) :
  r ∈ rs → chave_linha r ∈ ordens_de rs.
Proof.
  intros Hr. unfold ordens_de. apply elem_of_list_to_set.
  by apply list_elem_of_fmap_2.
Qed.

Lemma ordens_de_elem (rs : list Linha) (k : string) :
  k ∈ ordens_de rs ↔ k ∈ chave_linha <$> rs.
Proof. unfold ordens_de. apply elem_of_list_to_set. Qed.

Lemma unir_colunas_idem (a b : list string) :
  unir_colunas (unir_colunas a b) b = unir_colunas a b.
Proof.
  unfold unir_colunas. rewrite <- (app_nil_r (a ++ _)) at 2. f_equal.
  apply filter_nenhum. intros x Hx Hn. apply Hn.
  apply elem_of_app. destruct (decide (x ∈ a)); [by left|right].
  by apply list_elem_of_filter.
Qed.

Lemma filter_todos {A} (P : A → Prop) `{!∀ x, Decision (P x)}
    (l : list A) :
  (∀ x, x ∈ l → P x) → filter P l = l.
Proof.
  induction l as [|a l IH]; intros Hall; [done|].
  rewrite filter_cons_True by (apply Hall; left).
  f_equal. apply IH. intros; apply Hall; by right.
Qed.

(** What the routine leaves when it reconciles. *)
Lemma simples_resultado (query : list (ItemBanco Cell)) (D : Frame) :
  query ≠ [] → coluna_ordem ∈ colunas D →
  atualizar_planilha_excel_com_banco query D
  = (Some true,
     {| colunas := unir_colunas (colunas D)
                     (colunas (rename (quadro_do_banco query)));
        linhas :=
          fora_do_conjunto (ordens_de (linhas_do_banco query))
            (astype_str <$> linhas D)
          ++ isin_conjunto (ordens_de (astype_str <$> linhas D))
               (linhas_do_banco query)
          ++ fora_do_conjunto (ordens_de (astype_str <$> linhas D))
               (linhas_do_banco query) |}).
Proof.
  intros Hq Hc. unfold atualizar_planilha_excel_com_banco.
  rewrite bool_decide_eq_false_2; cycle 1.
  { unfold quadro_do_banco. simpl.
    rewrite bool_decide_eq_false_2 by done.
    intros [H|H]; [|done]. by apply fmap_nil_inv in H. }
  rewrite bool_decide_eq_false_2 by (intros H; by apply H).
  cbn [colunas linhas]. fold (linhas_do_banco query).
  set (E := astype_str <$> linhas D). set (B := linhas_do_banco query).
  set (bc := colunas (rename (quadro_do_banco query))).
  assert (fora_do_conjunto (ordens_de E ∩ ordens_de B) E
          = fora_do_conjunto (ordens_de B) E) as HfE.
  { apply filter_ext_in. intros r Hr.
    pose proof (elem_of_ordens_de E r Hr). rewrite elem_of_intersection.
    tauto. }
  assert (isin_conjunto (ordens_de E ∩ ordens_de B) B
          = isin_conjunto (ordens_de E) B) as HiB.
  { apply filter_ext_in. intros r Hr.
    pose proof (elem_of_ordens_de B r Hr). rewrite elem_of_intersection.
    tauto. }
  assert (isin_conjunto (ordens_de B ∖ ordens_de E) B
          = fora_do_conjunto (ordens_de E) B) as HaB.
  { apply filter_ext_in. intros r Hr.
    pose proof (elem_of_ordens_de B r Hr). rewrite elem_of_difference.
    tauto. }
  rewrite HfE, HiB, HaB. clear HfE HiB HaB.
  assert (B ≠ []) as HB.
  { subst B. unfold linhas_do_banco, rename, quadro_do_banco. simpl.
    intros H. apply fmap_nil_inv, fmap_nil_inv, fmap_nil_inv in H. done. }
  f_equal.
  destruct (decide (ordens_de E ∩ ordens_de B ≠ ∅)) as [Hat|Hat].
  - rewrite (bool_decide_eq_true_2 _ Hat). cbn [colunas linhas].
    destruct (decide (ordens_de B ∖ ordens_de E ≠ ∅)) as [Had|Had].
    + rewrite (bool_decide_eq_true_2 _ Had). cbn [colunas linhas].
      by rewrite unir_colunas_idem, <- app_assoc.
    + rewrite (bool_decide_eq_false_2 _ Had).
      assert (fora_do_conjunto (ordens_de E) B = []) as ->;
        [|by rewrite app_nil_r].
      apply filter_nenhum. intros r Hr Hn.
      apply Had. intros Hvazio.
      assert (chave_linha r ∈ ordens_de B ∖ ordens_de E) as Hin.
      { apply elem_of_difference. split; [by apply elem_of_ordens_de|done]. }
      rewrite Hvazio in Hin. by apply elem_of_empty in Hin.
  - rewrite (bool_decide_eq_false_2 _ Hat).
    assert (ordens_de E ∩ ordens_de B = ∅) as Hvazio.
    { destruct (decide (ordens_de E ∩ ordens_de B = ∅)); [done|].
      by exfalso. }
    assert (∀ r, r ∈ B → chave_linha r ∉ ordens_de E) as Hdisj.
    { intros r Hr Hin.
      assert (chave_linha r ∈ ordens_de E ∩ ordens_de B) as Hx.
      { apply elem_of_intersection. split; [done|].
        by apply elem_of_ordens_de. }
      rewrite Hvazio in Hx. by apply elem_of_empty in Hx. }
    assert (isin_conjunto (ordens_de E) B = []) as ->.
    { apply filter_nenhum. intros r Hr Hn. by apply (Hdisj r). }
    assert (fora_do_conjunto (ordens_de B) E = E) as ->.
    { apply filter_todos. intros r Hr Hin.
      apply ordens_de_elem, list_elem_of_fmap in Hin as (b & Hk & Hb).
      apply (Hdisj b Hb). rewrite <- Hk. by apply elem_of_ordens_de. }
    rewrite bool_decide_eq_true_2; [done|].
    destruct B as [|b B']; [done|]. intros Hx.
    assert (chave_linha b ∈ ordens_de (b :: B') ∖ ordens_de E) as Hin.
    { apply elem_of_difference.
      split; [apply elem_of_ordens_de; left|apply Hdisj; left]. }
    rewrite Hx in Hin. by apply elem_of_empty in Hin.
Qed.

(** X23: one run of the first spreadsheet routine on the table and the
    sheet it has read.  It reconciles and returns [True] exactly when the
    table has rows and the sheet has the key column; otherwise it returns
    nothing and leaves the sheet as it was.  When it reconciles, the
    sheet it writes has the columns of the sheet followed by the new
    columns of the renamed table, and its rows are, in this order: the
    sheet rows whose key no relational row has (the key cell as a
    string), the relational rows whose key the sheet had, and the other
    relational rows; that is, up to the order of the rows, the sheet rows
    of no relational key and every relational row. *)
Theorem planilha_simples_uma_execucao (query : list (ItemBanco Cell))
    (df_excel : Frame) :
  let r := atualizar_planilha_excel_com_banco query df_excel in
  let banco := linhas_do_banco query in
  let excel := astype_str <$> linhas df_excel in
  (r.1 = Some true ↔ query ≠ [] ∧ coluna_ordem ∈ colunas df_excel)
  ∧ (r.1 ≠ Some true → r = (None, df_excel))
  ∧ (r.1 = Some true →
     colunas r.2 = unir_colunas (colunas df_excel)
                     (colunas (rename (quadro_do_banco query)))
     ∧ linhas r.2 = fora_do_conjunto (ordens_de banco) excel
                    ++ isin_conjunto (ordens_de excel) banco
                    ++ fora_do_conjunto (ordens_de excel) banco
     ∧ linhas r.2 ≡ₚ fora_do_conjunto (ordens_de banco) excel ++ banco).
Proof.
  intros r banco excel. subst r banco excel.
  destruct (decide (query = [])) as [->|Hq].
  { assert (atualizar_planilha_excel_com_banco [] df_excel
            = (None, df_excel)) as -> by done.
    simpl. split_and!; try done. split; [done|]. by intros [? _]. }
  destruct (decide (coluna_ordem ∈ colunas df_excel)) as [Hc|Hc].
  2:{ assert (atualizar_planilha_excel_com_banco query df_excel
              = (None, df_excel)) as ->.
      { unfold atualizar_planilha_excel_com_banco.
        destruct (bool_decide _); [done|].
        by rewrite bool_decide_eq_true_2. }
      simpl. split_and!; try done. split; [done|]. by intros [_ ?]. }
  rewrite (simples_resultado query df_excel Hq Hc). cbn [fst snd].
  split_and!; try done.
  intros _. cbn [colunas linhas]. split_and!; try done.
  apply Permutation_app_head.
  apply (filter_app_complement
           (fun r => chave_linha r
                     ∈ ordens_de (astype_str <$> linhas df_excel))
           (linhas_do_banco query)).
Qed.

Lemma drop_duplicates_nodup (vistos : list string) (rs : list Linha) :
  NoDup (chave_linha <$> rs) →
  (∀ r, r ∈ rs → chave_linha r ∉ vistos) →
  drop_duplicates vistos rs = rs.
Proof.
  revert vistos. induction rs as [|x rs IH]; intros vistos Hnd Hv;
    [done|]. cbn [drop_duplicates].
  rewrite fmap_cons in Hnd. apply NoDup_cons in Hnd as [Hx Hnd].
  rewrite bool_decide_eq_false_2 by (apply Hv; left).
  f_equal. apply IH; [done|]. intros r Hr [Heq|Hin]%elem_of_cons.
  - apply Hx. rewrite <- Heq. by apply list_elem_of_fmap_2.
  - apply (Hv r); [by right|done].
Qed.

Lemma chaves_astype (rs : list Linha) :
  chave_linha <$> (astype_str <$> rs) = chave_linha <$> rs.
Proof.
  rewrite <- list_fmap_compose. apply list_fmap_ext. intros i r _. simpl.
  by apply chave_astype.
Qed.

Lemma coluna_ordem_renomeada (f : Frame) :
  "ordem" ∈ colunas f → coluna_ordem ∈ colunas (rename f).
Proof.
  intros H. unfold rename. simpl.
  by apply (list_elem_of_fmap_2 novo_nome) in H.
Qed.

(** X24: the two spreadsheet routines on the same table and the same
    sheet.  The first reads the table through the mapped class and builds
    eleven attributes for each row; the advanced one reads
    [SELECT * FROM dbCONTAINER], whose frame has its own columns.  When
    the two views hold the same orders, pairwise distinct, and the sheet
    has the key column, both give the same answer, both keep the same
    sheet rows (those whose key no relational row has) and both add one
    row for every relational row: the sheets they write hold the same
    keys, but the rows they add are those of their own view of the table
    and need not have the same columns or cells.  On a sheet without the
    key column both leave the sheet as it is, the first with a bare
    return and the second with [False]. *)
Theorem planilhas_mesmas_chaves (query : list (ItemBanco Cell))
    (dados_banco df_excel : Frame) :
  "ordem" ∈ colunas dados_banco →
  chave_linha <$> linhas (rename dados_banco)
  ≡ₚ chave_linha <$> linhas (rename (quadro_do_banco query)) →
  NoDup (chave_linha <$> linhas (rename dados_banco)) →
  let r := atualizar_planilha_excel_com_banco query df_excel in
  let r' := atualizar_planilha_avancado dados_banco df_excel in
  let mantidas :=
    fora_do_conjunto (ordens_de (linhas_do_banco query))
      (astype_str <$> linhas df_excel) in
  (coluna_ordem ∈ colunas df_excel → r.1 = r'.1)
  ∧ (coluna_ordem ∈ colunas df_excel → query ≠ [] →
     linhas r.2 ≡ₚ mantidas ++ linhas_do_banco query
     ∧ linhas r'.2
       ≡ₚ mantidas ++ (astype_str <$> linhas (rename dados_banco))
     ∧ chave_linha <$> linhas r.2 ≡ₚ chave_linha <$> linhas r'.2)
  ∧ (coluna_ordem ∉ colunas df_excel → query ≠ [] →
     r = (None, df_excel) ∧ r' = (Some false, df_excel)).
Proof.
  intros Hord Hk Hnd r r' mantidas. subst r r' mantidas.
  pose proof (coluna_ordem_renomeada dados_banco Hord) as Hcb.
  destruct (decide (query = [])) as [->|Hq].
  { assert (linhas dados_banco = []) as Hvazio.
    { simpl in Hk. apply Permutation_nil_r in Hk.
      by apply fmap_nil_inv, fmap_nil_inv in Hk. }
    assert (atualizar_planilha_avancado dados_banco df_excel
            = (None, df_excel)) as ->.
    { unfold atualizar_planilha_avancado.
      rewrite bool_decide_eq_true_2; [done|]. by left. }
    assert (atualizar_planilha_excel_com_banco [] df_excel
            = (None, df_excel)) as -> by done.
    done. }
  assert (¬ (linhas dados_banco = [] ∨ colunas dados_banco = []))
    as Hcheio.
  { intros [H|H].
    - unfold rename in Hk. simpl in Hk. rewrite H in Hk. simpl in Hk.
      symmetry in Hk. apply Permutation_nil_r in Hk.
      apply fmap_nil_inv, fmap_nil_inv, fmap_nil_inv in Hk. done.
    - rewrite H in Hord. by apply elem_of_nil in Hord. }
  destruct (decide (coluna_ordem ∈ colunas df_excel)) as [Hc|Hc].
  2:{ assert (atualizar_planilha_excel_com_banco query df_excel
              = (None, df_excel)) as ->.
      { unfold atualizar_planilha_excel_com_banco.
        destruct (bool_decide _); [done|].
        by rewrite bool_decide_eq_true_2. }
      assert (atualizar_planilha_avancado dados_banco df_excel
              = (Some false, df_excel)) as ->.
      { unfold atualizar_planilha_avancado.
        rewrite bool_decide_eq_false_2 by done.
        rewrite bool_decide_eq_false_2; [done|]. tauto. }
      done. }
  rewrite (simples_resultado query df_excel Hq Hc).
  unfold atualizar_planilha_avancado.
  rewrite bool_decide_eq_false_2 by done.
  rewrite bool_decide_eq_true_2 by done.
  cbn [fst snd colunas linhas].
  set (B := linhas_do_banco query).
  set (E := astype_str <$> linhas df_excel).
  set (P := astype_str <$> linhas (rename dados_banco)).
  assert (chave_linha <$> P ≡ₚ chave_linha <$> B) as HPB.
  { subst P B. unfold linhas_do_banco. by rewrite !chaves_astype. }
  assert (preparar dados_banco = P) as ->.
  { unfold preparar. fold P. apply drop_duplicates_nodup.
    - subst P. by rewrite chaves_astype.
    - intros x _ Hx. by apply elem_of_nil in Hx. }
  assert (fora_do_conjunto (ordens_de B) E ++ isin_conjunto (ordens_de E) B
            ++ fora_do_conjunto (ordens_de E) B
          ≡ₚ fora_do_conjunto (ordens_de B) E ++ B) as H1.
  { apply Permutation_app_head.
    apply (filter_app_complement
             (fun r => chave_linha r ∈ ordens_de E) B). }
  assert (sort_values (df_final_de P E)
          ≡ₚ fora_do_conjunto (ordens_de B) E ++ P) as H2.
  { unfold sort_values. rewrite merge_sort_Permutation, df_final_perm.
    apply Permutation_app_tail.
    assert (filter (fun r => chave_linha r ∉ chave_linha <$> P) E
            = fora_do_conjunto (ordens_de B) E) as ->; [|done].
    apply filter_ext_in. intros x _. rewrite ordens_de_elem.
    by rewrite HPB. }
  split; [done|]. split; [|done]. intros _ _. split_and!; [done|done|].
  rewrite H1, H2, !fmap_app. by rewrite HPB.
Qed.

End PlanilhaSimplesProvas.

Lemma planilhas_mesmas_chaves_witness :
  let r := atualizar_planilha_excel_com_banco AmostrasPlanilhaSimples.query
             AmostrasPlanilha.excel in
  let r' := atualizar_planilha_avancado AmostrasDuasVisoes.tabela
              AmostrasPlanilha.excel in
  let mantidas :=
    fora_do_conjunto
      (ordens_de (linhas_do_banco AmostrasPlanilhaSimples.query))
      (astype_str <$> linhas AmostrasPlanilha.excel) in
  (coluna_ordem ∈ colunas AmostrasPlanilha.excel → r.1 = r'.1)
  ∧ (coluna_ordem ∈ colunas AmostrasPlanilha.excel →
     AmostrasPlanilhaSimples.query ≠ [] →
     linhas r.2
     ≡ₚ mantidas ++ linhas_do_banco AmostrasPlanilhaSimples.query
     ∧ linhas r'.2
       ≡ₚ mantidas
          ++ (astype_str <$> linhas (rename AmostrasDuasVisoes.tabela))
     ∧ chave_linha <$> linhas r.2 ≡ₚ chave_linha <$> linhas r'.2)
  ∧ (coluna_ordem ∉ colunas AmostrasPlanilha.excel →
     AmostrasPlanilhaSimples.query ≠ [] →
     r = (None, AmostrasPlanilha.excel)
     ∧ r' = (Some false, AmostrasPlanilha.excel)).
Proof.
  apply (@planilhas_mesmas_chaves string AmostrasPlanilha.celula_texto
           (fun s => eq_refl) AmostrasPlanilhaSimples.query
           AmostrasDuasVisoes.tabela AmostrasPlanilha.excel).
  - apply list_elem_of_lookup. by exists 5%nat.
  - vm_compute. reflexivity.
  - vm_compute. repeat constructor; rewrite ?elem_of_cons, ?elem_of_nil;
      intros H; repeat destruct H as [H|H]; discriminate || done.
Defined.

(** * The session table and the snapshot of a batch in the callers *)

Section TabelaNosChamadores.

Variable dateutil_parse : string -> option date.
Variable md5_hexdigest : string -> string.

Lemma tabela_conservada_refl (t : list ExportacaoDB) : tabela_conservada t t.
Proof. by split. Qed.

Lemma tabela_conservada_trans (t1 t2 t3 : list ExportacaoDB) :
  tabela_conservada t1 t2 → tabela_conservada t2 t3 →
  tabela_conservada t1 t3.
Proof.
  intros (Hp & Ho & Hi) (Hp' & Ho' & Hi').
  split; [by etrans|]. split; auto.
Qed.

Lemma sincronizar_conservada amb w t :
  tabela_conservada t
    (sincronizar_json_para_banco dateutil_parse md5_hexdigest amb w t).1.2.
Proof.
  destruct (sincronizar_resultado dateutil_parse md5_hexdigest amb w t)
    as (l & w1 & _ & _ & [Hf | (d & e' & _ & Hs & _)]).
  - rewrite Hf. apply tabela_conservada_refl.
  - by apply sincronizar_emails_identidade in Hs.
Qed.

Lemma sessao_conservada_refl s : sessao_conservada s s.
Proof.
  destruct s as [t|]; simpl; [|done].
  exists t. split; [done|]. apply tabela_conservada_refl.
Qed.

Lemma sessao_conservada_trans s1 s2 s3 :
  sessao_conservada s1 s2 → sessao_conservada s2 s3 →
  sessao_conservada s1 s3.
Proof.
  destruct s1 as [t1|]; simpl.
  - intros (t2 & -> & H12). simpl. intros (t3 & -> & H23).
    exists t3. split; [done|]. by eapply tabela_conservada_trans.
  - by intros ->.
Qed.

Lemma processar_lote_desde_sessao lote dados s c ordens w :
  sessao_conservada s
    (sessao_final (processar_lote_desde dateutil_parse md5_hexdigest
                     lote dados s c ordens w)).
Proof.
  revert s c ordens w. induction lote as [|ch lote IH];
    intros s c ordens w; simpl; [apply sessao_conservada_refl|].
  destruct (heap w !! dados) as [snapshot|];
    [|apply sessao_conservada_refl].
  destruct (ordem_de (eb_dados_exportacao (bruto ch))) as [ordem|];
    [|apply sessao_conservada_refl].
  match goal with
  | |- context [match ?a with Some _ => _ | None => _ end] =>
      destruct a as [atualizado|]; [|apply sessao_conservada_refl]
  end.
  match goal with
  | |- context [salvar_json_incremental_rapido ?a ?e ?o ?w] =>
      destruct (salvar_json_incremental_rapido a e o w)
        as [[sucesso ordens'] w']
  end.
  destruct sucesso; [|apply IH].
  destruct s as [tabela|]; [|apply (IH None)].
  pose proof (sincronizar_conservada (amb_sync ch) w' tabela) as Hc.
  destruct (sincronizar_json_para_banco _ _ _ _ _) as [[ok tabela'] w''].
  simpl in Hc. eapply (sessao_conservada_trans (Some tabela) (Some tabela'));
    [|apply IH].
  by exists tabela'.
Qed.

Lemma monitorar_sessao consultas s w :
  sessao_conservada s
    (monitorar_novos_emails_continuamente dateutil_parse md5_hexdigest
       consultas s w).1.
Proof.
  revert s w. induction consultas as [|q consultas IH]; intros s w; simpl;
    [apply sessao_conservada_refl|].
  destruct (carregar_json_existente_rapido (amb_dados q) w) as [dados w1].
  destruct (obter_ordens_unicas_existentes_rapido (amb_ordens q) w1)
    as [ordens2 w2].
  case_bool_decide; [apply IH|].
  pose proof (processar_lote_desde_sessao (novos_emails q) dados s
                {| emails_processados := 0; emails_duplicados := 0;
                   emails_atualizados := 0 |} ordens2 w2) as Hl.
  fold (processar_lote_emails dateutil_parse md5_hexdigest (novos_emails q)
          dados ordens2 s w2) in Hl.
  destruct (contadores _); [|done].
  eapply sessao_conservada_trans; [exact Hl|apply IH].
Qed.

Lemma processar_lotes_sessao amb_r i ls dados ordens s t w :
  sessao_conservada s
    (sessao_da_execucao (processar_lotes dateutil_parse md5_hexdigest amb_r
                           i ls dados ordens s t w)).
Proof.
  revert i dados ordens s t w. induction ls as [|lote ls IH];
    intros i dados ordens s t w; simpl; [apply sessao_conservada_refl|].
  pose proof (processar_lote_desde_sessao lote dados s
                {| emails_processados := 0; emails_duplicados := 0;
                   emails_atualizados := 0 |} ordens w) as Hl.
  fold (processar_lote_emails dateutil_parse md5_hexdigest lote dados
          ordens s w) in Hl.
  destruct (contadores _); [|done].
  destruct (carregar_json_existente_rapido _ _) as [dados' w'].
  eapply sessao_conservada_trans; [exact Hl|apply IH].
Qed.

(** X25: the callers never lose a relational row.  Through any number
    of polls of the monitoring loop, and through the single run, a
    session table keeps the rows it had, each with its primary key and
    its order, in their place (the table only grows at its end), and
    orders and primary keys that were pairwise distinct stay so. *)
Theorem chamadores_conservam_tabela (consultas : list Consulta)
    (amb : AmbExecucao) (emails : list Chegada) (t : list ExportacaoDB)
    (w : Mundo) :
  (∃ t', (monitorar_novos_emails_continuamente dateutil_parse md5_hexdigest
            consultas (Some t) w).1 = Some t'
         ∧ tabela_conservada t t')
  ∧ (∃ t', sessao_da_execucao
             (pipeline_principal_otimizada dateutil_parse md5_hexdigest amb
                emails (Some t) w) = Some t'
           ∧ tabela_conservada t t').
Proof.
  split; [apply (monitorar_sessao consultas (Some t) w)|].
  unfold pipeline_principal_otimizada.
  pose proof (sincronizar_conservada (amb_sync_inicial amb) w t) as H0.
  destruct (sincronizar_json_para_banco _ _ _ _ _) as [[ok t0] w0].
  simpl in H0.
  case_bool_decide; [by exists t0|].
  destruct (carregar_json_existente_rapido (amb_carga amb) w0) as [dados w1].
  destruct (obter_ordens_unicas_existentes_rapido (amb_chaves amb) w1)
    as [ordens w2].
  set (r := processar_lotes _ _ _ _ _ _ _ _ _ _).
  assert (sessao_conservada (Some t0) (sessao_da_execucao r))
    as (t' & Hr & Hc) by apply processar_lotes_sessao.
  assert (tabela_conservada t t') as Htt
    by (by eapply tabela_conservada_trans).
  destruct (totais r); [|by exists t'].
  destruct (carregar_json_existente_rapido (amb_final amb) _) as [? w3].
  by exists t'.
Qed.

End TabelaNosChamadores.

Section PrimeiraConsulta.

Variable dateutil_parse : string -> option date.
Variable md5_hexdigest : string -> string.

Lemma carregar_intocado a0 d0 amb w l w' :
  intocado a0 d0 w →
  carregar_json_existente_rapido amb w = (l, w') →
  intocado a0 d0 w' ∧ l ≠ a0.
Proof.
  intros (Hc & Hp & Hh) Hcar.
  destruct (carregar_spec _ _ _ _ Hcar) as (Hcache & _ & H).
  destruct H as [[-> Hl] | (-> & d & Hheap & Hprox & _)].
  - split; [done|]. intros ->. by apply Hc.
  - split; [|lia]. split_and!.
    + rewrite Hcache. intros [= Heq]. lia.
    + lia.
    + rewrite Hheap, lookup_insert_ne by lia. done.
Qed.

Lemma persistir_intocado a0 d0 amb l dados ordens w :
  intocado a0 d0 w → l ≠ a0 →
  intocado a0 d0 (persistir amb l dados ordens w).2.
Proof.
  intros (Hc & Hp & Hh) Hl. unfold persistir, gravar, intocado.
  destruct (escrita amb); simpl; (split_and!; [|done|]);
    first [by rewrite lookup_insert_ne by done | done | by intros [= ?]].
Qed.

Lemma salvar_intocado a0 d0 amb email ordens w :
  intocado a0 d0 w →
  intocado a0 d0 (salvar_json_incremental_rapido amb email ordens w).2.
Proof.
  intros Hi. unfold salvar_json_incremental_rapido.
  destruct (ordem_de (dados_exportacao email)) as [k|]; [|done].
  destruct (carregar_json_existente_rapido amb w) as [l w1] eqn:Hc.
  destruct (carregar_intocado _ _ _ _ _ _ Hi Hc) as [Hi1 Hl].
  destruct (heap w1 !! l) as [d|]; [|done].
  destruct (PyStr.truthy k && bool_decide (k ∈ ordens)).
  - destruct (encontrar_email_por_ordem d k) as [[[i ex]|]|]; try done.
    destruct (comparar_datas_email _ _); [|done].
    by apply persistir_intocado.
  - by apply persistir_intocado.
Qed.

Lemma sincronizar_intocado a0 d0 amb w tabela :
  intocado a0 d0 w →
  intocado a0 d0
    (sincronizar_json_para_banco dateutil_parse md5_hexdigest amb w
       tabela).2.
Proof.
  intros Hi.
  destruct (sincronizar_carrega dateutil_parse md5_hexdigest amb w tabela)
    as [l Hc].
  by destruct (carregar_intocado _ _ _ _ _ _ Hi Hc).
Qed.

(** A batch whose snapshot is an empty object no save touches counts no
    update. *)
Lemma processar_lote_desde_sem_atualizacoes lote a0 iso s c ordens w c' :
  intocado a0 (empty_data iso) w →
  contadores (processar_lote_desde dateutil_parse md5_hexdigest
                lote a0 s c ordens w) = Some c' →
  emails_atualizados c' = emails_atualizados c.
Proof.
  revert s c ordens w. induction lote as [|ch lote IH];
    intros s c ordens w Hi; simpl.
  { by intros [= <-]. }
  rewrite (proj2 (proj2 Hi)).
  destruct (ordem_de (eb_dados_exportacao (bruto ch))) as [ordem|]; [|done].
  assert (encontrar_email_por_ordem (empty_data iso) ordem = Some None)
    as -> by done.
  assert ((if PyStr.truthy ordem && bool_decide (ordem ∈ ordens)
           then Some false else Some false) = Some false) as ->
    by (by destruct (_ && _)).
  match goal with
  | |- context [salvar_json_incremental_rapido ?a ?e ?o ?w] =>
      pose proof (salvar_intocado a0 (empty_data iso) a e o w Hi) as Hi';
      destruct (salvar_json_incremental_rapido a e o w)
        as [[sucesso ordens'] w']
  end.
  simpl in Hi'. destruct sucesso.
  - destruct s as [tabela|].
    + pose proof (sincronizar_intocado a0 (empty_data iso) (amb_sync ch) w'
                    tabela Hi') as Hi''.
      destruct (sincronizar_json_para_banco _ _ _ _ _)
        as [[ok tabela'] w''].
      intros H. by apply IH in H.
    + intros H. by apply IH in H.
  - intros H. by apply IH in H.
Qed.

(** X26: the first poll on a store that does not exist yet counts no
    update.  From the start of the process without a store file, with
    the clock 30 seconds or more past the epoch, whatever documents the
    poll brings (replacements of documents of the same poll included),
    whatever the outcomes of the writes, the count of updates the batch
    returns is zero: the snapshot the batch looks into is the empty
    object of the first load, which no save ever fills. *)
Theorem primeira_consulta_sem_atualizacoes (amb1 amb2 : Amb)
    (novos : list Chegada) (s : option (list ExportacaoDB))
    (c : Contadores) :
  (30 <= agora amb2)%Q →
  contadores (ciclo_monitoramento dateutil_parse md5_hexdigest amb1 amb2
                novos s mundo_inicial) = Some c →
  emails_atualizados c = 0.
Proof.
  intros Hrel. unfold ciclo_monitoramento.
  unfold carregar_json_existente_rapido at 1. simpl.
  unfold obter_ordens_unicas_existentes_rapido,
    carregar_json_existente_rapido. simpl.
  assert (Qle_bool 30 (agora amb2 - 0) = true) as ->.
  { apply Qle_bool_iff. unfold Qminus.
    change (- 0)%Q with 0%Q. by rewrite Qplus_0_r. }
  simpl. rewrite lookup_insert_eq. simpl.
  unfold processar_lote_emails. intros H.
  apply (processar_lote_desde_sem_atualizacoes _ 0%nat (agora_iso amb1))
    in H; [done|].
  split_and!; simpl; [by intros [= ?]|lia|].
  by rewrite lookup_insert_ne, lookup_insert_eq by done.
Qed.

End PrimeiraConsulta.

Lemma primeira_consulta_sem_atualizacoes_witness :
  emails_atualizados
    {| emails_processados := 3; emails_duplicados := 0;
       emails_atualizados := 0 |} = 0.
Proof.
  apply (primeira_consulta_sem_atualizacoes (fun _ => None) id
           (Amostras.amb_ok 1700000000) (Amostras.amb_ok 1700000000)
           AmostrasLote.lote1 (Some [])).
  - vm_compute. discriminate.
  - vm_compute. reflexivity.
Defined.
